(** * 3D Toy Generation API (main.py): a shallow embedding and its properties

    The service of [main.py] is a FastAPI application that chains a hosted
    multimodal model (google genai) and a pretrained image-to-3D pipeline
    (Trellis).  The code of the repository itself is request validation,
    scratch-file handling, prompt assembly, sequencing of the model calls
    and file cleanup; this is what is embedded here.

    Modelling choices:
    - Python code with effects is written in a state-and-exception monad
      [M S A := S -> (Exn + A) * S].  The state survives an exception, as
      files written before a failure stay on disk.
    - The process state is a [World]: the file system, the clock read by
      [time.time()], the number of [uuid.uuid4()] draws, the two model
      singletons, the log of model calls and what was printed.
    - Everything the code calls but does not define (PIL, genai, Trellis,
      imageio, [uuid4], [str(e)], [repr]) is a field of [Externals]:
      theorems hold for every choice of them.  An external that writes a
      file either gives the bytes it writes or raises, leaving no file.
    - A Python [str] is the [string] of the bytes of its UTF-8 encoding;
      the string operations of the code ([strip], [replace], the f-strings)
      are given on this encoding.
    - The file system is a finite map from paths to entries.  Paths are
      strings, in the normal form of [pathlib] (no empty or [.] component,
      no trailing separator); [Path(d) / name] is [d ++ "/" ++ name].  An operation fails
      as it does on a local disk without permission problems: a missing
      path cannot be opened for reading, stat'ed or unlinked, a directory
      cannot be opened or unlinked.  The directories [outputs] and [temp]
      exist (they are created when the module is loaded).
    - File times are rationals (the floats of [time.time()] and [st_mtime]
      without their rounding).  The clock stands still while a request is
      handled and is set when a request arrives.
    - Requests are handled one at a time, after the startup event. *)

From Stdlib Require Import String Ascii List QArith Lia Lqa.
From stdpp Require Import base gmap strings list fin_maps pretty.

Local Open Scope string_scope.

(** ** Python values *)

Definition bytes := list Byte.byte.

(** Exceptions the code can meet, all of them subclasses of [Exception].
    [HTTPException] is FastAPI's; the others are the builtin ones raised by
    the operations modelled below; [LibraryError] is anything raised inside
    an external library. *)
Inductive Exn :=
| HTTPException (status_code : nat) (detail : string)
| FileNotFoundError (filename : string)
| IsADirectoryError (filename : string)
| AttributeError (msg : string)
| IndexError (msg : string)
| TypeError (msg : string)
| KeyError (key : string)
| LibraryError (msg : string).

Inductive Image := PILImage (pixels : bytes).
Inductive Repr3D := Repr3DObject (payload : bytes).
Inductive Video := VideoFrames (frames : bytes).
Inductive Glb := GlbScene (scene : bytes).

(** [google.genai] response: [response.text], and
    [response.candidates[i].content.parts[j].inline_data.data].  What the
    library declares optional is an [option]. *)
Record Blob := { mime_type : string; data : bytes }.
Record Part := { part_text : option string; inline_data : option Blob }.
Record Content := { parts : option (list Part) }.
Record Candidate := { content : option Content }.
Record GenerateContentResponse :=
  { text : option string; candidates : option (list Candidate) }.

(** A multipart upload: the declared media type and what [await read()]
    gives. *)
Record UploadFile := { content_type : option string; read : Exn + bytes }.

(** One entry of the log of model calls. *)
Inductive ModelCall :=
| GenerateContent (model prompt : string) (image : Image)
    (response_modalities : option (list string))
| TrellisRun (image : Image) (seed : nat) (formats : list string)
    (sparse_steps : nat) (sparse_cfg : Q) (slat_steps : nat) (slat_cfg : Q).

(** ** The file system *)

Inductive entry :=
| RegularFile (st_mtime : Q) (contents : bytes)
| Directory (st_mtime : Q).

Record World := mkWorld {
  fs : gmap string entry;
  clock : Q;
  uuid_count : nat;
  genai_client : bool;
  trellis_pipeline : bool;
  model_calls : list ModelCall;
  stdout : list string
}.

Definition set_fs (f : gmap string entry) (w : World) : World :=
  mkWorld f (clock w) (uuid_count w) (genai_client w) (trellis_pipeline w)
    (model_calls w) (stdout w).

Definition set_clock (t : Q) (w : World) : World :=
  mkWorld (fs w) t (uuid_count w) (genai_client w) (trellis_pipeline w)
    (model_calls w) (stdout w).

Definition set_uuid_count (n : nat) (w : World) : World :=
  mkWorld (fs w) (clock w) n (genai_client w) (trellis_pipeline w)
    (model_calls w) (stdout w).

Definition set_singletons (g t : bool) (w : World) : World :=
  mkWorld (fs w) (clock w) (uuid_count w) g t (model_calls w) (stdout w).

Definition log_call (c : ModelCall) (w : World) : World :=
  mkWorld (fs w) (clock w) (uuid_count w) (genai_client w) (trellis_pipeline w)
    (model_calls w ++ [c]) (stdout w).

Definition log_print (s : string) (w : World) : World :=
  mkWorld (fs w) (clock w) (uuid_count w) (genai_client w) (trellis_pipeline w)
    (model_calls w) (stdout w ++ [s]).

(** Configuration constants of main.py. *)
Definition UPLOAD_DIR : string := "uploads".
Definition OUTPUT_DIR : string := "outputs".
Definition TEMP_DIR : string := "temp".

(** [Path(d) / name], for a relative [name] without separator. *)
Definition joinpath (d name : string) : string := d +:+ "/" +:+ name.

(** [strip_prefix p s] is [Some r] when [s = p ++ r]. *)
Fixpoint strip_prefix (p s : string) : option string :=
  match p, s with
  | EmptyString, _ => Some s
  | String a p', String b s' =>
      if Ascii.eqb a b then strip_prefix p' s' else None
  | String _ _, EmptyString => None
  end.

Fixpoint has_separator (s : string) : bool :=
  match s with
  | EmptyString => false
  | String c s' => Ascii.eqb c "/" || has_separator s'
  end.

(** [p] is a direct child of directory [d]: what [d.glob("*")] yields. *)
Definition in_directory (d p : string) : bool :=
  match strip_prefix (d +:+ "/") p with
  | Some EmptyString => false
  | Some name => negb (has_separator name)
  | None => false
  end.

Definition glob_star (d : string) (f : gmap string entry) : list string :=
  filter (fun p => in_directory d p = true) (map_to_list f).*1.

Definition path_exists (f : gmap string entry) (p : string) : bool :=
  match f !! p with Some _ => true | None => false end.

Definition is_file (f : gmap string entry) (p : string) : bool :=
  match f !! p with Some (RegularFile _ _) => true | _ => false end.

(** ** What the code calls but does not define *)

Record Externals := {
  (** [str(uuid.uuid4())] of the n-th draw of the process *)
  uuid4 : nat -> string;
  (** [str(e)] of an exception and [repr(s)] of a string *)
  py_str : Exn -> string;
  py_repr : string -> string;
  (** PIL: decoding of file contents, PNG encoding for [save] *)
  image_decode : bytes -> Exn + Image;
  image_encode : Image -> Exn + bytes;
  (** [genai.Client()], [TrellisImageTo3DPipeline.from_pretrained(..)]
      and [trellis_pipeline.cuda()] of the start-up: they return, or raise *)
  genai_Client : Exn + unit;
  from_pretrained : Exn + unit;
  pipeline_cuda : Exn + unit;
  (** [genai_client.models.generate_content]; the first argument is the
      number of model calls made before this one *)
  generate_content :
    nat -> string -> string -> Image -> option (list string) ->
    Exn + GenerateContentResponse;
  (** [trellis_pipeline.run(image, seed=1, formats=formats, ...)] *)
  pipeline_run : nat -> Image -> list string -> Exn + gmap string (list Repr3D);
  (** [save_ply], [render_video(..)['color']], [imageio.mimsave],
      [postprocessing_utils.to_glb], [glb.export]: the bytes they write,
      or the exception they raise *)
  ply_bytes : Repr3D -> Exn + bytes;
  render_video : Repr3D -> Exn + Video;
  mimsave_bytes : Video -> nat -> Exn + bytes;
  to_glb : option Repr3D -> Repr3D -> Exn + Glb;
  glb_bytes : Glb -> Exn + bytes
}.

(** ** The monad of Python code: state and exceptions *)

Definition M (S A : Type) : Type := S -> (Exn + A) * S.

Definition ret {S A} (a : A) : M S A := fun s => (inr a, s).

Definition raise {S A} (e : Exn) : M S A := fun s => (inl e, s).

Definition bind {S A B} (m : M S A) (k : A -> M S B) : M S B :=
  fun s =>
    match m s with
    | (inr a, s') => k a s'
    | (inl e, s') => (inl e, s')
    end.

(** [try: m  except Exception as e: h e] *)
Definition try_except {S A} (m : M S A) (h : Exn -> M S A) : M S A :=
  fun s =>
    match m s with
    | (inr a, s') => (inr a, s')
    | (inl e, s') => h e s'
    end.

(** [try: m  finally: f]; an exception of [f] replaces the outcome of [m]. *)
Definition try_finally {S A} (m : M S A) (f : M S unit) : M S A :=
  fun s =>
    match m s with
    | (r, s') =>
        match f s' with
        | (inr _, s'') => (r, s'')
        | (inl e, s'') => (inl e, s'')
        end
    end.

(** Lifting of a pure outcome. *)
Definition lift_result {S A} (r : Exn + A) : M S A := fun s => (r, s).

Declare Scope py_scope.
Delimit Scope py_scope with py.
Notation "'let!' x ':=' m 'in' k" := (bind m (fun x => k))
  (at level 10, x name, m at level 100, k at level 200) : py_scope.
Notation "m ';;' k" := (bind m (fun _ => k))
  (at level 100, k at level 200, right associativity) : py_scope.
Local Open Scope py_scope.

(** [for x in l: body x] *)
Fixpoint for_each {S A} (l : list A) (body : A -> M S unit) : M S unit :=
  match l with
  | [] => ret tt
  | x :: l' => body x ;; for_each l' body
  end.

(** A handler's local variables [L] next to the world. *)
Definition in_world {L A} (m : M World A) : M (World * L) A :=
  fun s =>
    match m (fst s) with
    | (r, w') => (r, (w', snd s))
    end.

Definition get_local {L} : M (World * L) L := fun s => (inr (snd s), s).

Definition set_local {L} (l : L) : M (World * L) unit :=
  fun s => (inr tt, (fst s, l)).

(** Runs a handler body with its local variables initialised to [l0]. *)
Definition with_local {L A} (l0 : L) (m : M (World * L) A) : M World A :=
  fun w =>
    match m (w, l0) with
    | (r, s') => (r, fst s')
    end.

(** ** Primitive operations on the world *)

Definition print (s : string) : M World unit :=
  fun w => (inr tt, log_print s w).

Definition time_time : M World Q := fun w => (inr (clock w), w).

Definition uuid4_str (X : Externals) : M World string :=
  fun w => (inr (uuid4 X (uuid_count w)), set_uuid_count (S (uuid_count w)) w).

Definition exists_ (p : string) : M World bool :=
  fun w => (inr (path_exists (fs w) p), w).

Definition is_file_ (p : string) : M World bool :=
  fun w => (inr (is_file (fs w) p), w).

(** [p.stat().st_mtime] *)
Definition stat_mtime (p : string) : M World Q :=
  fun w =>
    match fs w !! p with
    | Some (RegularFile t _) => (inr t, w)
    | Some (Directory t) => (inr t, w)
    | None => (inl (FileNotFoundError p), w)
    end.

(** [p.unlink()] *)
Definition unlink (p : string) : M World unit :=
  fun w =>
    match fs w !! p with
    | Some (RegularFile _ _) => (inr tt, set_fs (delete p (fs w)) w)
    | Some (Directory _) => (inl (IsADirectoryError p), w)
    | None => (inl (FileNotFoundError p), w)
    end.

(** Writing [d] to the file [p], created or replaced. *)
Definition write_file (p : string) (d : bytes) : M World unit :=
  fun w =>
    match fs w !! p with
    | Some (Directory _) => (inl (IsADirectoryError p), w)
    | _ => (inr tt, set_fs (<[p := RegularFile (clock w) d]> (fs w)) w)
    end.

(** [with open(p, "wb") as f: f.write(await upload.read())]: the file is
    created empty by [open], and stays so when [read] raises. *)
Definition save_upload (p : string) (upload : UploadFile) : M World unit :=
  write_file p [] ;;
  let! content := lift_result (read upload) in
  write_file p content.

(** [Image.open(p)] *)
Definition Image_open (X : Externals) (p : string) : M World Image :=
  fun w =>
    match fs w !! p with
    | Some (RegularFile _ d) => (image_decode X d, w)
    | Some (Directory _) => (inl (IsADirectoryError p), w)
    | None => (inl (FileNotFoundError p), w)
    end.

(** [img.save(p)]: nothing is left on disk when the encoding fails. *)
Definition Image_save (X : Externals) (img : Image) (p : string) : M World unit :=
  let! d := lift_result (image_encode X img) in
  write_file p d.

Definition genai_generate_content (X : Externals) (model prompt : string)
    (img : Image) (modalities : option (list string))
  : M World GenerateContentResponse :=
  fun w =>
    if genai_client w then
      (generate_content X (length (model_calls w)) model prompt img modalities,
       log_call (GenerateContent model prompt img modalities) w)
    else (inl (AttributeError "'NoneType' object has no attribute 'models'"), w).

Definition trellis_run (X : Externals) (img : Image) (formats : list string)
  : M World (gmap string (list Repr3D)) :=
  fun w =>
    if trellis_pipeline w then
      (pipeline_run X (length (model_calls w)) img formats,
       log_call (TrellisRun img 1 formats 12 (75 # 10) 12 3) w)
    else (inl (AttributeError "'NoneType' object has no attribute 'run'"), w).

(** ** Python string and container helpers *)

(** The white space of [str.strip()]: the code points for which
    [str.isspace] holds, which are U+0009 to U+000D, U+001C to U+0020,
    U+0085, U+00A0, U+1680, U+2000 to U+200A, U+2028, U+2029, U+202F, U+205F
    and U+3000.  In UTF-8 the first ten are one byte, the next two are two
    bytes and the others three bytes. *)
Definition isspace (c : ascii) : bool :=
  let n := nat_of_ascii c in
  ((9 <=? n)%nat && (n <=? 13)%nat) || ((28 <=? n)%nat && (n <=? 32)%nat).

(** U+0085 is [C2 85], U+00A0 is [C2 A0]. *)
Definition isspace2 (a b : ascii) : bool :=
  Ascii.eqb a "194" && (Ascii.eqb b "133" || Ascii.eqb b "160").

(** U+1680 is [E1 9A 80]; U+2000 to U+200A are [E2 80 80] to [E2 80 8A];
    U+2028, U+2029 and U+202F are [E2 80 A8], [E2 80 A9] and [E2 80 AF];
    U+205F is [E2 81 9F]; U+3000 is [E3 80 80]. *)
Definition isspace3 (a b c : ascii) : bool :=
  let n := nat_of_ascii c in
  (Ascii.eqb a "225" && Ascii.eqb b "154" && Ascii.eqb c "128") ||
  (Ascii.eqb a "226" && Ascii.eqb b "128" &&
   (((128 <=? n)%nat && (n <=? 138)%nat) ||
    Ascii.eqb c "168" || Ascii.eqb c "169" || Ascii.eqb c "175")) ||
  (Ascii.eqb a "226" && Ascii.eqb b "129" && Ascii.eqb c "159") ||
  (Ascii.eqb a "227" && Ascii.eqb b "128" && Ascii.eqb c "128").

(** Removal of the white space characters a byte sequence starts with.
    [two] and [three] recognise the characters of two and three bytes, so
    that the same function serves on the reversed sequence. *)
Fixpoint strip_front (two : ascii -> ascii -> bool)
    (three : ascii -> ascii -> ascii -> bool) (l : list ascii) : list ascii :=
  match l with
  | [] => []
  | a :: l1 =>
      if isspace a then strip_front two three l1
      else
        match l1 with
        | [] => l
        | b :: l2 =>
            if two a b then strip_front two three l2
            else
              match l2 with
              | [] => l
              | c :: l3 =>
                  if three a b c then strip_front two three l3 else l
              end
        end
  end.

(** [s.lstrip()] on the bytes of [s], and [s.rstrip()] on the bytes of
    [s] in reverse order. *)
Definition lstrip (l : list ascii) : list ascii :=
  strip_front isspace2 isspace3 l.

Definition rstrip_reversed (l : list ascii) : list ascii :=
  strip_front (fun b a => isspace2 a b) (fun c b a => isspace3 a b c) l.

(** [s.strip()] *)
Definition strip (s : string) : string :=
  string_of_list_ascii
    (rev (rstrip_reversed (rev (lstrip (list_ascii_of_string s))))).

(** [s.replace('\n', ' ')] *)
Fixpoint replace_newlines (s : string) : string :=
  match s with
  | EmptyString => EmptyString
  | String c s' =>
      String (if Ascii.eqb c "010" then " "%char else c) (replace_newlines s')
  end.

(** [str(l)] of a list of strings. *)
Definition str_list (X : Externals) (l : list string) : string :=
  "[" +:+ String.concat ", " (map (py_repr X) l) +:+ "]".

(** [outputs.get(k)] used as a condition. *)
Definition get_truthy (outputs : gmap string (list Repr3D)) (k : string) : bool :=
  match outputs !! k with
  | Some (_ :: _) => true
  | _ => false
  end.

(** [outputs[k][0]] *)
Definition getitem0 (outputs : gmap string (list Repr3D)) (k : string)
  : Exn + Repr3D :=
  match outputs !! k with
  | None => inl (KeyError k)
  | Some [] => inl (IndexError "list index out of range")
  | Some (x :: _) => inr x
  end.

(** [response.candidates[0].content.parts] *)
Definition candidates0_parts (r : GenerateContentResponse) : Exn + list Part :=
  match candidates r with
  | None => inl (TypeError "'NoneType' object is not subscriptable")
  | Some [] => inl (IndexError "list index out of range")
  | Some (c :: _) =>
      match content c with
      | None => inl (AttributeError "'NoneType' object has no attribute 'parts'")
      | Some ct =>
          match parts ct with
          | None => inl (TypeError "'NoneType' object is not iterable")
          | Some ps => inr ps
          end
      end
  end.

(** [response.text.strip()...]: [text] may be [None]. *)
Definition response_text (r : GenerateContentResponse) : Exn + string :=
  match text r with
  | Some t => inr t
  | None => inl (AttributeError "'NoneType' object has no attribute 'strip'")
  end.

(** [upload.content_type.startswith('image/')] *)
Definition startswith_image (u : UploadFile) : Exn + bool :=
  match content_type u with
  | Some ct => inr (String.prefix "image/" ct)
  | None =>
      inl (AttributeError "'NoneType' object has no attribute 'startswith'")
  end.

(** [Path(p).name] of a path in normal form: what follows the last
    separator, and the empty string for [Path(".")]. *)
Fixpoint path_name_from (acc : string) (s : string) : string :=
  match s with
  | EmptyString => acc
  | String c s' =>
      if Ascii.eqb c "/" then path_name_from s' s' else path_name_from acc s'
  end.

Definition path_name (p : string) : string :=
  if String.eqb p "." then "" else path_name_from p p.

(** ** ToyGenerationService *)

Record ModelResult := {
  success : bool;
  model_id : string;
  files : gmap string string;
  formats : list string
}.

(** [initialize_models], run by the startup event: each singleton is
    assigned when its constructor has returned; [cuda()] is called on the
    pipeline that was just assigned. *)
Definition initialize_models (X : Externals) : M World unit :=
  print "Initializing models..." ;;
  lift_result (genai_Client X) ;;
  (fun w => (inr tt, set_singletons true (trellis_pipeline w) w)) ;;
  print "Loading Trellis 3D pipeline..." ;;
  lift_result (from_pretrained X) ;;
  (fun w => (inr tt, set_singletons (genai_client w) true w)) ;;
  lift_result (pipeline_cuda X) ;;
  print "Models initialized successfully!".

Definition person_prompt : string :=
  "Describe the person in this image in detail. List their hair style and color, "
  +:+ "facial hair, any glasses, and the clothing they are wearing. Be factual and concise.".

Definition analyze_person_image (X : Externals) (image_path : string)
  : M World string :=
  try_except
    (let! person_img := Image_open X image_path in
     let! response :=
       genai_generate_content X "gemini-2.5-flash" person_prompt person_img None in
     let! t := lift_result (response_text response) in
     ret (replace_newlines (strip t)))
    (fun e =>
       raise (HTTPException 500 ("Error analyzing person image: " +:+ py_str X e))).

Definition style_prompt : string :=
  "Describe the general artistic style of this toy figure. Focus on its proportions "
  +:+ "(head vs body size), eye style, material (e.g., glossy vinyl, matte plastic), "
  +:+ "and overall aesthetic (e.g., chibi, cute, realistic). Do not describe the "
  +:+ "character itself, only the art style.".

Definition analyze_toy_style (X : Externals) (image_path : string)
  : M World string :=
  try_except
    (let! toy_img := Image_open X image_path in
     let! response :=
       genai_generate_content X "gemini-2.5-flash" style_prompt toy_img None in
     let! t := lift_result (response_text response) in
     ret (replace_newlines (strip t)))
    (fun e =>
       raise (HTTPException 500 ("Error analyzing toy style: " +:+ py_str X e))).

(** The enriched prompt of [generate_toy_image] (lines 131-135): three
    adjacent f-strings. *)
Definition final_prompt (user_prompt content_desc style_desc : string) : string :=
  (user_prompt +:+ ". ")
  +:+ ("The main character of the figure should be based on a person with these features: **("
       +:+ content_desc +:+ ")**. ")
  +:+ ("The overall artistic look and feel of the toy should match this style: **("
       +:+ style_desc +:+ ")**.").

(** The loop over [response.candidates[0].content.parts] (lines 148-161):
    the first part with inline data is decoded and saved, then [break].
    The result is [output_path], [None] when no image was found. *)
Fixpoint save_first_image (X : Externals) (parts : list Part)
  : M World (option string) :=
  match parts with
  | [] => ret None
  | part :: rest =>
      match inline_data part with
      | Some blob =>
          let! generated_image := lift_result (image_decode X (data blob)) in
          let! unique_id := uuid4_str X in
          let output_path :=
            joinpath OUTPUT_DIR ("generated_toy_" +:+ unique_id +:+ ".png") in
          Image_save X generated_image output_path ;;
          ret (Some output_path)
      | None => save_first_image X rest
      end
  end.

Definition generate_toy_image (X : Externals)
    (user_prompt content_desc style_desc person_image_path : string)
  : M World string :=
  try_except
    (let! person_image := Image_open X person_image_path in
     let prompt := final_prompt user_prompt content_desc style_desc in
     print ("Enriched prompt: " +:+ prompt) ;;
     let! response :=
       genai_generate_content X "gemini-2.0-flash-preview-image-generation"
         prompt person_image (Some ["TEXT"; "IMAGE"]) in
     let! parts := lift_result (candidates0_parts response) in
     let! output_path := save_first_image X parts in
     match output_path with
     | None => raise (HTTPException 500 "Model did not return an image")
     | Some p => ret p
     end)
    (fun e =>
       raise (HTTPException 500 ("Error generating toy image: " +:+ py_str X e))).

(** Lines 177-182: the output formats. *)
Definition select_formats (output_format : string) : list string :=
  if String.eqb output_format "all"
  then ["gaussian"; "radiance_field"; "mesh"]
  else [output_format].

(** Lines 206-216: the PLY file and the preview video. *)
Definition save_gaussian (X : Externals)
    (outputs : gmap string (list Repr3D)) (formats : list string)
    (unique_id : string) (result_files : gmap string string)
  : M World (gmap string string) :=
  if bool_decide ("gaussian" ∈ formats) && get_truthy outputs "gaussian" then
    let ply_path := joinpath OUTPUT_DIR ("model_" +:+ unique_id +:+ ".ply") in
    let! g := lift_result (getitem0 outputs "gaussian") in
    let! ply := lift_result (ply_bytes X g) in
    write_file ply_path ply ;;
    let result_files := <["ply" := ply_path]> result_files in
    let! g := lift_result (getitem0 outputs "gaussian") in
    let! video := lift_result (render_video X g) in
    let video_path := joinpath OUTPUT_DIR ("preview_" +:+ unique_id +:+ ".mp4") in
    let! mp4 := lift_result (mimsave_bytes X video 15) in
    write_file video_path mp4 ;;
    ret (<["preview_video" := video_path]> result_files)
  else ret result_files.

(** Lines 221-229: the body of the [try] of the GLB export. *)
Definition export_glb (X : Externals)
    (outputs : gmap string (list Repr3D))
    (unique_id : string) (result_files : gmap string string)
  : M World (gmap string string) :=
  let! g :=
    (if get_truthy outputs "gaussian"
     then let! g := lift_result (getitem0 outputs "gaussian") in ret (Some g)
     else ret None) in
  let! m := lift_result (getitem0 outputs "mesh") in
  let! glb := lift_result (to_glb X g m) in
  let glb_path := joinpath OUTPUT_DIR ("model_" +:+ unique_id +:+ ".glb") in
  let! b := lift_result (glb_bytes X glb) in
  write_file glb_path b ;;
  ret (<["glb" := glb_path]> result_files).

(** Lines 218-231: the GLB export, whose failure is only printed. *)
Definition save_mesh (X : Externals)
    (outputs : gmap string (list Repr3D)) (formats : list string)
    (unique_id : string) (result_files : gmap string string)
  : M World (gmap string string) :=
  if bool_decide ("mesh" ∈ formats) && get_truthy outputs "mesh" then
    try_except
      (export_glb X outputs unique_id result_files)
      (fun e =>
         print ("Warning: Could not generate GLB: " +:+ py_str X e) ;;
         ret result_files)
  else ret result_files.

Definition generate_3d_model (X : Externals) (image_path output_format : string)
  : M World ModelResult :=
  try_except
    (let! image := Image_open X image_path in
     let formats := select_formats output_format in
     print ("Generating 3D model with formats: " +:+ str_list X formats) ;;
     let! outputs := trellis_run X image formats in
     let! unique_id := uuid4_str X in
     let result_files : gmap string string := ∅ in
     let! result_files := save_gaussian X outputs formats unique_id result_files in
     let! result_files := save_mesh X outputs formats unique_id result_files in
     ret {| success := true; model_id := unique_id;
            files := result_files; formats := formats |})
    (fun e =>
       raise (HTTPException 500 ("Error generating 3D model: " +:+ py_str X e))).

(** ** The endpoints *)

Inductive Response :=
| RootResponse (message : string)
| HealthResponse (status : string) (genai trellis : bool)
| ToyResponse (ok : bool)
    (message person_description style_description toy_image : string)
    (model_result : ModelResult)
| ImageOnlyResponse (ok : bool)
    (toy_image person_description style_description : string)
| ModelResponse (result : ModelResult)
| FileResponse (file media_type filename : string)
| CleanupResponse (message : string).

Definition root : M World Response :=
  ret (RootResponse "3D Toy Generation API is running!").

Definition health_check : M World Response :=
  fun w => (inr (HealthResponse "healthy" (genai_client w) (trellis_pipeline w)), w).

(** The body of a [finally] loop (lines 332-336, 375-379):
    [try: if f.exists(): f.unlink()  except: pass]. *)
Definition remove_quietly {L} (temp_file : string) : M (World * L) unit :=
  try_except
    (let! present := in_world (exists_ temp_file) in
     if present then in_world (unlink temp_file) else ret tt)
    (fun _ => ret tt).

(** [temp_files.extend(l)] on the handler's local list. *)
Definition extend_local (l : list string) : M (World * list string) unit :=
  let! temp_files := get_local in
  set_local (temp_files ++ l)%list.

(** Lines 287-322 of [generate_toy_endpoint]: the uploads are saved and
    the four model calls run in sequence. *)
Definition toy_pipeline (X : Externals)
    (person_temp_path style_temp_path : string)
    (person_image style_guide : UploadFile) (prompt output_format : string)
  : M World Response :=
  save_upload person_temp_path person_image ;;
  save_upload style_temp_path style_guide ;;
  print "Analyzing person image..." ;;
  let! person_description := analyze_person_image X person_temp_path in
  print "Analyzing toy style..." ;;
  let! style_description := analyze_toy_style X style_temp_path in
  print "Generating toy image..." ;;
  let! toy_image_path :=
    generate_toy_image X prompt person_description style_description
      person_temp_path in
  print "Generating 3D model..." ;;
  let! model_result := generate_3d_model X toy_image_path output_format in
  ret (ToyResponse true "Toy generation completed successfully"
         person_description style_description toy_image_path model_result).

(** [except HTTPException: raise] and
    [except Exception as e: raise HTTPException(500, ...)] (lines 324-327). *)
Definition reraise_generation_failed {S} (X : Externals) (e : Exn)
  : M S Response :=
  match e with
  | HTTPException _ _ => raise e
  | _ => raise (HTTPException 500 ("Generation failed: " +:+ py_str X e))
  end.

(** POST /generate-toy *)
Definition generate_toy_endpoint (X : Externals)
    (person_image style_guide : UploadFile) (prompt output_format : string)
  : M World Response :=
  with_local ([] : list string)
    (try_finally
       (try_except
          (let! person_ok := lift_result (startswith_image person_image) in
           (if negb person_ok
            then raise (HTTPException 400 "Person file must be an image")
            else ret tt) ;;
           let! style_ok := lift_result (startswith_image style_guide) in
           (if negb style_ok
            then raise (HTTPException 400 "Style guide file must be an image")
            else ret tt) ;;
           let! u1 := in_world (uuid4_str X) in
           let person_temp_path := joinpath TEMP_DIR ("person_" +:+ u1 +:+ ".png") in
           let! u2 := in_world (uuid4_str X) in
           let style_temp_path := joinpath TEMP_DIR ("style_" +:+ u2 +:+ ".png") in
           extend_local [person_temp_path; style_temp_path] ;;
           in_world
             (toy_pipeline X person_temp_path style_temp_path
                person_image style_guide prompt output_format))
          (reraise_generation_failed X))
       (let! temp_files := get_local in
        for_each temp_files remove_quietly)).

(** Lines 353-371 of [generate_image_only]. *)
Definition image_only_pipeline (X : Externals)
    (person_temp_path style_temp_path : string)
    (person_image style_guide : UploadFile) (prompt : string)
  : M World Response :=
  save_upload person_temp_path person_image ;;
  save_upload style_temp_path style_guide ;;
  let! person_desc := analyze_person_image X person_temp_path in
  let! style_desc := analyze_toy_style X style_temp_path in
  let! toy_image_path :=
    generate_toy_image X prompt person_desc style_desc person_temp_path in
  ret (ImageOnlyResponse true toy_image_path person_desc style_desc).

(** POST /generate-image-only *)
Definition generate_image_only (X : Externals)
    (person_image style_guide : UploadFile) (prompt : string)
  : M World Response :=
  with_local ([] : list string)
    (try_finally
       (let! u1 := in_world (uuid4_str X) in
        let person_temp_path := joinpath TEMP_DIR ("person_" +:+ u1 +:+ ".png") in
        let! u2 := in_world (uuid4_str X) in
        let style_temp_path := joinpath TEMP_DIR ("style_" +:+ u2 +:+ ".png") in
        extend_local [person_temp_path; style_temp_path] ;;
        in_world
          (image_only_pipeline X person_temp_path style_temp_path
             person_image style_guide prompt))
       (let! temp_files := get_local in
        for_each temp_files remove_quietly)).

(** Lines 392-397 of [image_to_3d]. *)
Definition image_to_3d_pipeline (X : Externals)
    (temp_path : string) (image : UploadFile) (output_format : string)
  : M World Response :=
  save_upload temp_path image ;;
  let! result := generate_3d_model X temp_path output_format in
  ret (ModelResponse result).

(** POST /image-to-3d *)
Definition image_to_3d (X : Externals) (image : UploadFile) (output_format : string)
  : M World Response :=
  with_local (None : option string)
    (try_finally
       (let! u := in_world (uuid4_str X) in
        let temp_path := joinpath TEMP_DIR ("input_" +:+ u +:+ ".png") in
        set_local (Some temp_path) ;;
        in_world (image_to_3d_pipeline X temp_path image output_format))
       (let! temp_path := get_local in
        match temp_path with
        | Some p =>
            let! present := in_world (exists_ p) in
            if present
            then try_except (in_world (unlink p)) (fun _ => ret tt)
            else ret tt
        | None => ret tt
        end)).

(** GET /download/{file_path}.  The handler uses its parameter only
    through [Path(file_path)]: [file_path] stands here for that path, in
    normal form as all paths are. *)
Definition download_file (file_path : string) : M World Response :=
  let! present := exists_ file_path in
  if negb present then raise (HTTPException 404 "File not found")
  else ret (FileResponse file_path "application/octet-stream" (path_name file_path)).

(** [a > b] on rationals. *)
Definition Qgtb (a b : Q) : bool := negb (Qle_bool a b).

(** A [for] loop that updates a local variable [acc]. *)
Fixpoint for_fold {S A B} (l : list A) (acc : B) (body : B -> A -> M S B)
  : M S B :=
  match l with
  | [] => ret acc
  | x :: l' => let! acc' := body acc x in for_fold l' acc' body
  end.

(** Lines 431-435: one file of the sweep; the result is the new [count]. *)
Definition sweep_file (current_time : Q) (count : nat) (file_path : string)
  : M World nat :=
  let! regular := is_file_ file_path in
  if regular then
    let! mtime := stat_mtime file_path in
    let file_age := (current_time - mtime)%Q in
    if Qgtb file_age 3600
    then unlink file_path ;; ret (S count)
    else ret count
  else ret count.

(** Line 430: [for file_path in directory.glob("*")], the listing being
    taken when the loop starts. *)
Definition sweep_directory (current_time : Q) (count : nat) (directory : string)
  : M World nat :=
  let! listing := (fun w => (inr (glob_star directory (fs w)), w)) in
  for_fold listing count (sweep_file current_time).

(** DELETE /cleanup *)
Definition cleanup_files (X : Externals) : M World Response :=
  try_except
    (let! current_time := time_time in
     let! count :=
       for_fold [OUTPUT_DIR; TEMP_DIR] 0%nat (sweep_directory current_time) in
     ret (CleanupResponse ("Cleaned up " +:+ pretty count +:+ " files")))
    (fun e => raise (HTTPException 500 ("Cleanup failed: " +:+ py_str X e))).

(** ** The application: requests handled in sequence *)

Inductive Request :=
| GetRoot
| GetHealth
| PostGenerateToy (person_image style_guide : UploadFile)
    (prompt output_format : string)
| PostGenerateImageOnly (person_image style_guide : UploadFile) (prompt : string)
| PostImageTo3d (image : UploadFile) (output_format : string)
| GetDownload (file_path : string)
| DeleteCleanup.

Definition handle (X : Externals) (r : Request) : M World Response :=
  match r with
  | GetRoot => root
  | GetHealth => health_check
  | PostGenerateToy p s prompt fmt => generate_toy_endpoint X p s prompt fmt
  | PostGenerateImageOnly p s prompt => generate_image_only X p s prompt
  | PostImageTo3d i fmt => image_to_3d X i fmt
  | GetDownload f => download_file f
  | DeleteCleanup => cleanup_files X
  end.

(** The HTTP status FastAPI answers with. *)
Definition http_status (r : Exn + Response) : nat :=
  match r with
  | inr _ => 200
  | inl (HTTPException s _) => s
  | inl _ => 500
  end.

(** A request arrives at a time [t]; the clock then reads [t]. *)
Fixpoint serve (X : Externals) (reqs : list (Q * Request)) (w : World)
  : list (Exn + Response) * World :=
  match reqs with
  | [] => ([], w)
  | (t, r) :: rest =>
      match handle X r (set_clock t w) with
      | (res, w') =>
          match serve X rest w' with
          | (out, w'') => (res :: out, w'')
          end
      end
  end.

(** * Definitions used to state the properties *)

(** ** The Retention Sweeper *)

(** A file the sweeper deletes at time [now]: a regular file, directly in
    the output or the scratch directory, older than one hour. *)
Definition expired (now : Q) (p : string) (e : entry) : bool :=
  (in_directory OUTPUT_DIR p || in_directory TEMP_DIR p) &&
  match e with
  | RegularFile t _ => Qgtb (now - t) 3600
  | Directory _ => false
  end.

(** The file system without the files that are [expired] at [now]. *)
Definition swept (now : Q) (f : gmap string entry) : gmap string entry :=
  filter (fun pe => expired now (fst pe) (snd pe) = false) f.

(** The entry of [q] after the loop of the sweeper visited the files [l]. *)
Definition visited (now : Q) (l : list string) (f : gmap string entry)
    (q : string) : option entry :=
  match f !! q with
  | Some (RegularFile t d) =>
      if bool_decide (q ∈ l) && Qgtb (now - t) 3600
      then None else Some (RegularFile t d)
  | o => o
  end.

(** ** Scratch files *)

(** What the [finally] blocks do to the world for one scratch path: a
    regular file is unlinked; a missing path is skipped; the error of
    unlinking a directory is swallowed. *)
Definition remove_file (p : string) (w : World) : World :=
  if is_file (fs w) p then set_fs (delete p (fs w)) w else w.

(** The scratch paths of a request that starts in [w], given the draws of
    [uuid4]. *)
Definition person_path (X : Externals) (w : World) : string :=
  joinpath TEMP_DIR ("person_" +:+ uuid4 X (uuid_count w) +:+ ".png").

Definition style_path (X : Externals) (w : World) : string :=
  joinpath TEMP_DIR ("style_" +:+ uuid4 X (S (uuid_count w)) +:+ ".png").

Definition input_path (X : Externals) (w : World) : string :=
  joinpath TEMP_DIR ("input_" +:+ uuid4 X (uuid_count w) +:+ ".png").

(** The scratch paths a request names: none when /generate-toy rejects the
    request before naming them. *)
Definition scratch_paths (X : Externals) (r : Request) (w : World) : list string :=
  match r with
  | PostGenerateToy person_image style_guide _ _ =>
      match startswith_image person_image, startswith_image style_guide with
      | inr true, inr true => [person_path X w; style_path X w]
      | _, _ => []
      end
  | PostGenerateImageOnly _ _ _ => [person_path X w; style_path X w]
  | PostImageTo3d _ _ => [input_path X w]
  | _ => []
  end.

(** The outcome of the body of [generate_toy_endpoint] after its [except]
    clauses. *)
Definition generation_outcome (X : Externals) (r : Exn + Response)
  : Exn + Response :=
  match r with
  | inr a => inr a
  | inl (HTTPException s d) => inl (HTTPException s d)
  | inl e => inl (HTTPException 500 ("Generation failed: " +:+ py_str X e))
  end.

(** ** The 3D Reconstructor *)

(** The output files of a reconstruction with identifier [uid]. *)
Definition ply_path (uid : string) : string :=
  joinpath OUTPUT_DIR ("model_" +:+ uid +:+ ".ply").

Definition video_path (uid : string) : string :=
  joinpath OUTPUT_DIR ("preview_" +:+ uid +:+ ".mp4").

Definition glb_path (uid : string) : string :=
  joinpath OUTPUT_DIR ("model_" +:+ uid +:+ ".glb").

(** The world in which the outputs of the pipeline are post-processed. *)
Definition after_run (X : Externals) (img : Image) (fmt : string) (w : World)
  : World :=
  set_uuid_count (S (uuid_count w))
    (log_call (TrellisRun img 1 (select_formats fmt) 12 (75 # 10) 12 3)
       (log_print
          ("Generating 3D model with formats: "
           +:+ str_list X (select_formats fmt)) w)).

Definition model_error (X : Externals) (e : Exn) : Exn :=
  HTTPException 500 ("Error generating 3D model: " +:+ py_str X e).

(** ** The Image Synthesizer and the Prompt Composer *)

Definition toy_image_path (uid : string) : string :=
  joinpath OUTPUT_DIR ("generated_toy_" +:+ uid +:+ ".png").

Definition image_model : string := "gemini-2.0-flash-preview-image-generation".

Definition image_error (X : Externals) (e : Exn) : Exn :=
  HTTPException 500 ("Error generating toy image: " +:+ py_str X e).

(** The world after the image-generation call of [generate_toy_image]. *)
Definition after_image_call (X : Externals) (img : Image) (prompt : string)
    (w : World) : World :=
  log_call (GenerateContent image_model prompt img (Some ["TEXT"; "IMAGE"]))
    (log_print ("Enriched prompt: " +:+ prompt) w).

(** The first inline payload among the parts of a response. *)
Fixpoint first_inline (parts : list Part) : option Blob :=
  match parts with
  | [] => None
  | part :: rest =>
      match inline_data part with
      | Some blob => Some blob
      | None => first_inline rest
      end
  end.

(** The first inline payload of a response, if it has one. *)
Definition response_payload (response : GenerateContentResponse) : option Blob :=
  match candidates0_parts response with
  | inr ps => first_inline ps
  | inl _ => None
  end.

(** The instruction template, as one string around its three holes. *)
Definition prompt_template (user_prompt person_desc style_desc : string) : string :=
  user_prompt
  +:+ ". The main character of the figure should be based on a person with these features: **("
  +:+ person_desc
  +:+ ")**. The overall artistic look and feel of the toy should match this style: **("
  +:+ style_desc
  +:+ ")**.".

(** ** Identifiers *)

(** The model identifiers a response returns. *)
Definition model_ids (res : Exn + Response) : list string :=
  match res with
  | inr (ToyResponse _ _ _ _ _ mr) => [model_id mr]
  | inr (ModelResponse mr) => [model_id mr]
  | _ => []
  end.

(** The paths of the synthesized images a response returns. *)
Definition image_paths (res : Exn + Response) : list string :=
  match res with
  | inr (ToyResponse _ _ _ _ toy_image _) => [toy_image]
  | inr (ImageOnlyResponse _ toy_image _ _) => [toy_image]
  | _ => []
  end.

(** The same, over the responses to a sequence of requests. *)
Definition returned_model_ids (out : list (Exn + Response)) : list string :=
  flat_map model_ids out.

Definition returned_image_paths (out : list (Exn + Response)) : list string :=
  flat_map image_paths out.

(** ** Relations kept by the code *)

(** [m] leaves every state in relation [R] with the state it started in,
    whatever the outcome. *)
Definition preserves {S A} (R : S -> S -> Prop) (m : M S A) : Prop :=
  forall s, R s (m s).2.

(** A relation on worlds that the primitive operations keep: it is a
    preorder closed under printing, drawing a uuid, logging a model call
    that is [callable], and writing a regular file at a [writable] path.
    Deleting is not among them. *)
Class Frame (R : World -> World -> Prop)
    (writable : string -> Prop) (callable : ModelCall -> Prop) : Prop := {
  frame_refl : forall w, R w w;
  frame_trans : forall w1 w2 w3, R w1 w2 -> R w2 w3 -> R w1 w3;
  frame_print : forall s w, R w (log_print s w);
  frame_uuid : forall w, R w (set_uuid_count (S (uuid_count w)) w);
  frame_call : forall c w, callable c -> R w (log_call c w);
  frame_write : forall p d w,
    writable p -> R w (set_fs (<[p := RegularFile (clock w) d]> (fs w)) w)
}.

Definition any {A} (_ : A) : Prop := True.

(** A path that exists still exists. *)
Definition stays (q : string) (w w' : World) : Prop :=
  is_Some (fs w !! q) -> is_Some (fs w' !! q).

(** A path that is not a directory does not become one. *)
Definition no_new_directory (q : string) (w w' : World) : Prop :=
  (forall t, fs w !! q <> Some (Directory t)) ->
  (forall t, fs w' !! q <> Some (Directory t)).

(** The number of uuid draws only grows. *)
Definition draws_grow (w w' : World) : Prop :=
  (uuid_count w <= uuid_count w')%nat.

(** Only paths of [P] are written. *)
Definition only_writes (P : string -> Prop) (w w' : World) : Prop :=
  forall q, ~ P q -> fs w' !! q = fs w !! q.

(** The model calls made are all in [P]. *)
Definition only_calls (P : ModelCall -> Prop) (w w' : World) : Prop :=
  exists l, model_calls w' = (model_calls w ++ l)%list /\ Forall P l.

(** ** Two statements of the specification that the code does not meet *)

(** A detail that says that the model returned no image: the message of
    the code, bare or wrapped by the handler of [generate_toy_image]. *)
Definition no_image_detail (X : Externals) (d : string) : Prop :=
  d = "Model did not return an image" \/
  d = "Error generating toy image: "
      +:+ py_str X (HTTPException 500 "Model did not return an image").

(** At a call whose image loads and whose model call returns: a server
    error that says that no image was returned is signalled if and only if
    the response has no inline payload; otherwise the first payload is
    decoded, persisted under a fresh identifier, and its path returned. *)
Definition synthesizer_as_stated (X : Externals) (u c s p : string) (w : World)
  : Prop :=
  forall img response,
    (Image_open X p w).1 = inr img ->
    genai_client w = true ->
    generate_content X (length (model_calls w)) image_model (final_prompt u c s)
      img (Some ["TEXT"; "IMAGE"]) = inr response ->
    let rw := generate_toy_image X u c s p w in
    let path := toy_image_path (uuid4 X (uuid_count w)) in
    ((exists d, rw.1 = inl (HTTPException 500 d) /\ no_image_detail X d) <->
     response_payload response = None) /\
    (forall blob,
       response_payload response = Some blob ->
       exists generated png,
         image_decode X (data blob) = inr generated /\
         image_encode X generated = inr png /\
         rw.1 = inr path /\
         fs rw.2 !! path = Some (RegularFile (clock w) png)).

(** Two invocations of the sweeper in succession, at times [t1 <= t2],
    nothing happening in between: the second deletes zero files and leaves
    the directories as the first left them. *)
Definition sweeper_idempotent_as_stated (X : Externals) (w : World) (t1 t2 : Q)
  : Prop :=
  (t1 <= t2)%Q ->
  let w1 := (cleanup_files X (set_clock t1 w)).2 in
  let rw2 := cleanup_files X (set_clock t2 w1) in
  rw2.1 = inr (CleanupResponse "Cleaned up 0 files") /\ fs rw2.2 = fs w1.

(** ** Concrete externals and worlds *)

(** [str(e)]: the message of a builtin exception, and Starlette's
    ["{status_code}: {detail}"] for [HTTPException]. *)
Definition str_example (e : Exn) : string :=
  match e with
  | HTTPException s d => pretty s +:+ ": " +:+ d
  | FileNotFoundError f => "[Errno 2] No such file or directory: '" +:+ f +:+ "'"
  | IsADirectoryError f => "[Errno 21] Is a directory: '" +:+ f +:+ "'"
  | AttributeError m => m
  | IndexError m => m
  | TypeError m => m
  | KeyError k => "'" +:+ k +:+ "'"
  | LibraryError m => m
  end.

(** An image-generation answer: one candidate whose parts are some text,
    then the image [payload]. *)
Definition answer_with (payload : bytes) : GenerateContentResponse :=
  {| text := None;
     candidates :=
       Some
         [ {| content :=
                Some {| parts :=
                  Some
                    [ {| part_text := Some "Here is your toy.";
                         inline_data := None |};
                      {| part_text := None;
                         inline_data :=
                           Some {| mime_type := "image/png";
                                   data := payload |} |} ] |} |} ] |}.

(** A description as the vision model gives it, with blanks around and a
    line feed at its end. *)
Definition raw_description : string :=
  "  short hair, glasses" +:+ String "010" EmptyString.

(** Externals for the examples.  [image_answer] is what the hosted model
    answers to an image-generation call, [glb_result] what [to_glb] gives;
    PIL cannot identify an empty file; uuids are numbered. *)
Definition example_externals
    (image_answer : Exn + GenerateContentResponse) (glb_result : Exn + Glb)
  : Externals :=
  {| genai_Client := inr tt;
     from_pretrained := inr tt;
     pipeline_cuda := inr tt;
     uuid4 := fun n => "uuid-" +:+ pretty n;
     py_str := str_example;
     py_repr := fun s => "'" +:+ s +:+ "'";
     image_decode := fun b =>
       match b with
       | [] => inl (LibraryError "cannot identify image file")
       | _ => inr (PILImage b)
       end;
     image_encode := fun i => match i with PILImage b => inr b end;
     generate_content := fun _ _ _ _ modalities =>
       match modalities with
       | None => inr {| text := Some raw_description; candidates := None |}
       | Some _ => image_answer
       end;
     pipeline_run := fun _ _ formats =>
       inr (list_to_map ((fun f => (f, [Repr3DObject []])) <$> formats));
     ply_bytes := fun r => match r with Repr3DObject b => inr b end;
     render_video := fun r => match r with Repr3DObject b => inr (VideoFrames b) end;
     mimsave_bytes := fun v _ => match v with VideoFrames b => inr b end;
     to_glb := fun _ _ => glb_result;
     glb_bytes := fun g => match g with GlbScene b => inr b end |}.

Definition one_byte : bytes := [Byte.x01].

(** Every external succeeds. *)
Definition X0 : Externals :=
  example_externals (inr (answer_with one_byte)) (inr (GlbScene [])).

(** The mesh export fails. *)
Definition X_glb_fails : Externals :=
  example_externals (inr (answer_with one_byte))
    (inl (LibraryError "mesh simplification failed")).

(** The image model answers with a payload PIL cannot decode, with no
    candidate at all, and with text only. *)
Definition X_undecodable : Externals :=
  example_externals (inr (answer_with [])) (inr (GlbScene [])).

Definition X_no_candidate : Externals :=
  example_externals (inr {| text := None; candidates := Some [] |})
    (inr (GlbScene [])).

Definition X_text_only : Externals :=
  example_externals
    (inr {| text := Some "I cannot draw this.";
            candidates :=
              Some
                [ {| content :=
                       Some {| parts :=
                         Some [ {| part_text := Some "I cannot draw this.";
                                   inline_data := None |} ] |} |} ] |})
    (inr (GlbScene [])).

(** A started service with one uploaded image and one output file, both
    written at time 0. *)
Definition world0 : World :=
  {| fs := {[ "temp/photo.png" := RegularFile 0 one_byte;
              "outputs/toy.png" := RegularFile 0 one_byte ]};
     clock := 0;
     uuid_count := 0;
     genai_client := true;
     trellis_pipeline := true;
     model_calls := [];
     stdout := [] |}.

(** An output directory with a file written at time 0 and a file written
    at time 3000. *)
Definition two_ages : World :=
  {| fs := {[ "outputs/model_old.ply" := RegularFile 0 one_byte;
              "outputs/model_new.ply" := RegularFile 3000 one_byte ]};
     clock := 3000;
     uuid_count := 0;
     genai_client := true;
     trellis_pipeline := true;
     model_calls := [];
     stdout := [] |}.

(** An upload of a one-byte file declared with media type [ct]. *)
Definition example_upload (ct : string) : UploadFile :=
  {| content_type := Some ct; read := inr one_byte |}.

(** * Further definitions used to state properties *)

(** [s] contains a line feed. *)
Definition has_line_feed (s : string) : bool :=
  existsb (Ascii.eqb "010") (list_ascii_of_string s).

(** [l] starts with a white space character of [str.isspace], of one
    byte, or of two or three bytes as [two] and [three] recognise them. *)
Definition space_at_front (two : ascii -> ascii -> bool)
    (three : ascii -> ascii -> ascii -> bool) (l : list ascii) : bool :=
  match l with
  | [] => false
  | a :: l1 =>
      isspace a ||
      match l1 with
      | [] => false
      | b :: l2 =>
          two a b ||
          match l2 with
          | [] => false
          | c :: _ => three a b c
          end
      end
  end.

(** [s] starts or ends with a white space character. *)
Definition blank_at_an_end (s : string) : bool :=
  space_at_front isspace2 isspace3 (list_ascii_of_string s) ||
  space_at_front (fun b a => isspace2 a b) (fun c b a => isspace3 a b c)
    (rev (list_ascii_of_string s)).

(** The effect of [replace('\n', ' ')] on one byte. *)
Definition unfeed (c : ascii) : ascii :=
  if Ascii.eqb c "010" then " "%char else c.

Definition description_model : string := "gemini-2.5-flash".

Definition person_error (X : Externals) (e : Exn) : Exn :=
  HTTPException 500 ("Error analyzing person image: " +:+ py_str X e).

Definition style_error (X : Externals) (e : Exn) : Exn :=
  HTTPException 500 ("Error analyzing toy style: " +:+ py_str X e).

(** What a description call leaves of the world [w]: nothing changes, or
    one call is logged, to the description model, with [prompt], the image
    read from [p] and no response modality. *)
Definition describer_trace (X : Externals) (prompt p : string) (w w' : World)
  : Prop :=
  w' = w \/
  exists img,
    (Image_open X p w).1 = inr img /\
    w' = log_call (GenerateContent description_model prompt img None) w.

(** [q] is a regular file of [w] stamped with the time the clock of [w]
    reads. *)
Definition written_now (w : World) (q : string) : Prop :=
  exists c, fs w !! q = Some (RegularFile (clock w) c).

(** The clock is left alone and what is [written_now] stays so. *)
Definition keeps_written (w w' : World) : Prop :=
  clock w' = clock w /\ forall q, written_now w q -> written_now w' q.

(** Externals whose preview rendering fails. *)
Definition X_video_fails : Externals :=
  {| genai_Client := genai_Client X0;
     from_pretrained := from_pretrained X0;
     pipeline_cuda := pipeline_cuda X0;
     uuid4 := uuid4 X0;
     py_str := py_str X0;
     py_repr := py_repr X0;
     image_decode := image_decode X0;
     image_encode := image_encode X0;
     generate_content := generate_content X0;
     pipeline_run := pipeline_run X0;
     ply_bytes := ply_bytes X0;
     render_video := fun _ => inl (LibraryError "CUDA out of memory");
     mimsave_bytes := mimsave_bytes X0;
     to_glb := to_glb X0;
     glb_bytes := glb_bytes X0 |}.

(** ** The footprint of a request *)

Definition is_genai_call (c : ModelCall) : Prop :=
  exists model prompt img modalities,
    c = GenerateContent model prompt img modalities.

Definition is_trellis_call (c : ModelCall) : Prop :=
  exists img formats, c = TrellisRun img 1 formats 12 (75 # 10) 12 3.

(** The paths a request may create, replace or delete. *)
Definition may_change (X : Externals) (r : Request) (w : World) (q : string)
  : Prop :=
  match r with
  | DeleteCleanup =>
      in_directory OUTPUT_DIR q = true \/ in_directory TEMP_DIR q = true
  | _ =>
      q ∈ scratch_paths X r w \/ exists name, q = joinpath OUTPUT_DIR name
  end.

(** The model calls a request may make. *)
Definition may_call (r : Request) (c : ModelCall) : Prop :=
  match r with
  | PostGenerateToy _ _ _ _ => is_genai_call c \/ is_trellis_call c
  | PostGenerateImageOnly _ _ _ => is_genai_call c
  | PostImageTo3d _ _ => is_trellis_call c
  | _ => False
  end.

(** The singletons and the clock are the same. *)
Definition same_service (w w' : World) : Prop :=
  genai_client w' = genai_client w /\
  trellis_pipeline w' = trellis_pipeline w /\
  clock w' = clock w.

(** An upload whose [read] raises. *)
Definition unreadable_upload : UploadFile :=
  {| content_type := Some "image/png";
     read := inl (LibraryError "client disconnected") |}.

(** * Properties *)

(** ** The embedding on small inputs *)

Example strip_replace_example :
  replace_newlines (strip raw_description) = "short hair, glasses".
Proof. reflexivity. Qed.

(** A no-break space (U+00A0, [C2 A0]) before and an ideographic space
    (U+3000, [E3 80 80]) after are stripped as the blank and the line feed
    are; a byte [A0] that is not part of such a character stays. *)
Example strip_unicode_example :
  strip (String "194" (String "160" (" toy" +:+
           String "010" (String "227" (String "128" (String "128" "")))))) =
    "toy" /\
  strip ("toy" +:+ String "195" (String "160" "")) =
    "toy" +:+ String "195" (String "160" "").
Proof. split; reflexivity. Qed.

Example replace_newlines_example :
  replace_newlines ("two" +:+ String "010" "lines") = "two lines".
Proof. reflexivity. Qed.

Example in_directory_examples :
  in_directory OUTPUT_DIR "outputs/a.png" = true /\
  in_directory OUTPUT_DIR "outputs/sub/a.png" = false /\
  in_directory OUTPUT_DIR "outputs/" = false /\
  in_directory OUTPUT_DIR "temp/a.png" = false /\
  in_directory TEMP_DIR "temp/a.png" = true.
Proof. repeat split; reflexivity. Qed.

Example path_name_example : path_name "outputs/model_1.ply" = "model_1.ply".
Proof. reflexivity. Qed.

Example select_formats_examples :
  select_formats "all" = ["gaussian"; "radiance_field"; "mesh"] /\
  select_formats "mesh" = ["mesh"] /\
  select_formats "voxels" = ["voxels"].
Proof. repeat split; reflexivity. Qed.

Example final_prompt_example :
  final_prompt "A knight" "short hair" "chibi" =
    "A knight. The main character of the figure should be based on a person with these features: **(short hair)**. The overall artistic look and feel of the toy should match this style: **(chibi)**.".
Proof. reflexivity. Qed.

(** The whole pipeline on two image uploads: four model calls, four uuid
    draws, three files of the model and the synthesized image in the output
    directory, no scratch file left. *)
Example generate_toy_endpoint_example :
  let rw := generate_toy_endpoint X0 (example_upload "image/png")
              (example_upload "image/jpeg") "a toy" "all" world0 in
  http_status rw.1 = 200 /\
  model_ids rw.1 = ["uuid-3"] /\
  image_paths rw.1 = ["outputs/generated_toy_uuid-2.png"] /\
  length (model_calls rw.2) = 4%nat /\
  uuid_count rw.2 = 4%nat /\
  (map_to_list (fs rw.2)).*1 =
    ["outputs/generated_toy_uuid-2.png"; "outputs/model_uuid-3.glb";
     "outputs/model_uuid-3.ply"; "outputs/toy.png";
     "outputs/preview_uuid-3.mp4"; "temp/photo.png"].
Proof. repeat split; vm_compute; reflexivity. Qed.

(** An upload without declared media type makes [startswith] fail: the
    answer is 500, not 400. *)
Example generate_toy_endpoint_no_content_type :
  (generate_toy_endpoint X0 {| content_type := None; read := inr one_byte |}
     (example_upload "image/png") "a toy" "all" world0).1 =
    inl (HTTPException 500
           "Generation failed: 'NoneType' object has no attribute 'startswith'").
Proof. vm_compute; reflexivity. Qed.

(** ** The world as a record *)

Lemma set_fs_set_fs f g w : set_fs f (set_fs g w) = set_fs f w.
Proof. reflexivity. Qed.

Lemma set_fs_same w : set_fs (fs w) w = w.
Proof. by destruct w. Qed.

Lemma Qgtb_true a b : Qgtb a b = true <-> (b < a)%Q.
Proof.
  unfold Qgtb. rewrite negb_true_iff, <- not_true_iff_false, Qle_bool_iff.
  split; [apply Qnot_le_lt | apply Qlt_not_le].
Qed.

Lemma Qgtb_false a b : Qgtb a b = false <-> (a <= b)%Q.
Proof.
  unfold Qgtb. rewrite negb_false_iff, Qle_bool_iff. reflexivity.
Qed.

(** ** Running monadic code *)

Lemma bind_inr {S A B} (m : M S A) (k : A -> M S B) s a s' :
  m s = (inr a, s') -> bind m k s = k a s'.
Proof. unfold bind. by intros ->. Qed.

(** ** The Retention Sweeper *)

Section Sweeper.

Variable now : Q.

(** What one step of the loop does to the file system and the count. *)
Lemma sweep_file_run count p w :
  sweep_file now count p w =
    match fs w !! p with
    | Some (RegularFile t _) =>
        if Qgtb (now - t) 3600
        then (inr (S count), set_fs (delete p (fs w)) w)
        else (inr count, w)
    | _ => (inr count, w)
    end.
Proof.
  unfold sweep_file, bind, is_file_, is_file, stat_mtime, unlink, ret.
  destruct (fs w !! p) as [[t d|t]|] eqn:E; try reflexivity.
  rewrite E. destruct (Qgtb (now - t) 3600); [|reflexivity].
  rewrite E. reflexivity.
Qed.

Lemma bool_decide_elem_of_cons_ne (q p : string) l :
  q <> p -> bool_decide (q ∈ p :: l) = bool_decide (q ∈ l).
Proof.
  intros Hne. apply bool_decide_ext. rewrite elem_of_cons.
  split; [by intros [?|?] | by right].
Qed.

Lemma visited_cons_other l (f : gmap string entry) p q :
  q <> p -> visited now (p :: l) f q = visited now l f q.
Proof.
  intros Hne. unfold visited.
  by rewrite (bool_decide_elem_of_cons_ne q p l Hne).
Qed.

Lemma size_delete_Some (f : gmap string entry) p e :
  f !! p = Some e -> size f = S (size (delete p f)).
Proof.
  intros E. rewrite <- (insert_delete_id f p e) at 1 by done.
  rewrite map_size_insert_None; [done | apply lookup_delete_eq].
Qed.

Lemma for_fold_sweep l : forall count w,
  NoDup l ->
  exists n f',
    for_fold l count (sweep_file now) w = (inr n, set_fs f' w) /\
    (forall q, f' !! q = visited now l (fs w) q) /\
    (n + size f' = count + size (fs w))%nat.
Proof.
  induction l as [|p l IH]; intros count w Hnd.
  - exists count, (fs w). rewrite set_fs_same. split; [done|]. split; [|done].
    intros q. unfold visited. destruct (fs w !! q) as [[t d|t]|]; done.
  - apply NoDup_cons in Hnd as [Hp Hnd].
    cbn [for_fold]. unfold bind at 1. rewrite sweep_file_run.
    destruct (fs w !! p) as [[t d|t]|] eqn:E;
      [destruct (Qgtb (now - t) 3600) eqn:Hold|..].
    + (* an old regular file: deleted and counted *)
      destruct (IH (S count) (set_fs (delete p (fs w)) w) Hnd)
        as (n & f' & Hrun & Hf' & Hn).
      exists n, f'. rewrite Hrun, set_fs_set_fs. split; [done|].
      cbn [fs set_fs] in *. split.
      * intros q. rewrite Hf'. destruct (decide (q = p)) as [->|Hne].
        -- unfold visited. rewrite lookup_delete_eq, E.
           rewrite bool_decide_eq_true_2 by left. by rewrite Hold.
        -- rewrite visited_cons_other by done.
           unfold visited. by rewrite lookup_delete_ne.
      * rewrite (size_delete_Some _ _ _ E). lia.
    + (* a recent regular file: kept *)
      destruct (IH count w Hnd) as (n & f' & Hrun & Hf' & Hn).
      exists n, f'. split; [done|]. split; [|done].
      intros q. rewrite Hf'. destruct (decide (q = p)) as [->|Hne].
      * unfold visited. rewrite E, Hold, !andb_false_r. done.
      * by rewrite visited_cons_other.
    + (* a directory *)
      destruct (IH count w Hnd) as (n & f' & Hrun & Hf' & Hn).
      exists n, f'. split; [done|]. split; [|done].
      intros q. rewrite Hf'. destruct (decide (q = p)) as [->|Hne].
      * unfold visited. by rewrite E.
      * by rewrite visited_cons_other.
    + (* no such path *)
      destruct (IH count w Hnd) as (n & f' & Hrun & Hf' & Hn).
      exists n, f'. split; [done|]. split; [|done].
      intros q. rewrite Hf'. destruct (decide (q = p)) as [->|Hne].
      * unfold visited. by rewrite E.
      * by rewrite visited_cons_other.
Qed.

End Sweeper.

Lemma NoDup_glob_star d (f : gmap string entry) : NoDup (glob_star d f).
Proof. apply NoDup_filter, NoDup_fst_map_to_list. Qed.

Lemma elem_of_glob_star d (f : gmap string entry) q :
  q ∈ glob_star d f <-> in_directory d q = true /\ is_Some (f !! q).
Proof.
  unfold glob_star. rewrite list_elem_of_filter, list_elem_of_fmap.
  split.
  - intros [Hd ([q' e] & -> & Hin)]. split; [done|].
    apply elem_of_map_to_list in Hin. by exists e.
  - intros [Hd [e He]]. split; [done|].
    exists (q, e). split; [done|]. by apply elem_of_map_to_list.
Qed.

(** One directory of the sweep. *)
Lemma sweep_directory_run now count d w :
  exists n f',
    sweep_directory now count d w = (inr n, set_fs f' w) /\
    (forall q, f' !! q =
       match fs w !! q with
       | Some (RegularFile t c) =>
           if in_directory d q && Qgtb (now - t) 3600
           then None else Some (RegularFile t c)
       | o => o
       end) /\
    (n + size f' = count + size (fs w))%nat.
Proof.
  unfold sweep_directory, bind.
  destruct (for_fold_sweep now (glob_star d (fs w)) count w
              (NoDup_glob_star d (fs w))) as (n & f' & Hrun & Hf' & Hn).
  exists n, f'. split; [done|]. split; [|done].
  intros q. rewrite Hf'. unfold visited.
  destruct (fs w !! q) as [[t c|t]|] eqn:E; try done.
  destruct (in_directory d q) eqn:Hd.
  - rewrite bool_decide_eq_true_2; [done|].
    apply elem_of_glob_star. rewrite E. eauto.
  - rewrite bool_decide_eq_false_2; [done|].
    rewrite elem_of_glob_star. intros [? _]. congruence.
Qed.

Lemma swept_lookup now (f : gmap string entry) q :
  swept now f !! q =
    match f !! q with
    | Some e => if expired now q e then None else Some e
    | None => None
    end.
Proof.
  unfold swept. rewrite map_lookup_filter.
  destruct (f !! q) as [e|]; [|done]. cbn.
  destruct (expired now q e); by simplify_option_eq.
Qed.

(** The sweeper as a function of the world: it never raises, the files
    left are [swept], and the count is the number of files that went. *)
Lemma cleanup_files_run X w :
  cleanup_files X w =
    (inr (CleanupResponse
            ("Cleaned up "
             +:+ pretty (size (fs w) - size (swept (clock w) (fs w)))%nat
             +:+ " files")),
     set_fs (swept (clock w) (fs w)) w).
Proof.
  unfold cleanup_files, try_except.
  destruct (sweep_directory_run (clock w) 0 OUTPUT_DIR w)
    as (n1 & f1 & Hrun1 & Hf1 & Hn1).
  destruct (sweep_directory_run (clock w) n1 TEMP_DIR (set_fs f1 w))
    as (n2 & f2 & Hrun2 & Hf2 & Hn2).
  erewrite (bind_inr time_time) by reflexivity.
  cbn [for_fold].
  erewrite bind_inr; cycle 1.
  { erewrite bind_inr by exact Hrun1. erewrite bind_inr by exact Hrun2. reflexivity. }
  rewrite set_fs_set_fs. cbn [fs set_fs] in *. unfold ret.
  assert (f2 = swept (clock w) (fs w)) as ->.
  { apply map_eq. intros q. rewrite Hf2, Hf1, swept_lookup. unfold expired.
    destruct (fs w !! q) as [[t c|t]|]; [|by rewrite andb_false_r|done].
    cbn [fs set_fs].
    destruct (in_directory OUTPUT_DIR q), (in_directory TEMP_DIR q),
      (Qgtb (clock w - t) 3600) eqn:Hq; cbn; rewrite ?Hq; done. }
  replace (size (fs w) - size (swept (clock w) (fs w)))%nat with n2 by lia.
  reflexivity.
Qed.

(** C6. On invocation the Retention Sweeper never fails; it changes
    nothing but the file system; a path disappears if and only if it was a
    regular file lying directly in the output or the scratch directory whose
    age ([clock - st_mtime]) exceeds 3600 seconds; every other entry is left
    as it was and nothing is created; and the count [n] in the message is
    the number of entries that went. *)
Theorem cleanup_files_deletes_exactly_old_files (X : Externals) (w : World) :
  exists n f',
    cleanup_files X w =
      (inr (CleanupResponse ("Cleaned up " +:+ pretty n +:+ " files")),
       set_fs f' w) /\
    (forall p,
       (is_Some (fs w !! p) /\ f' !! p = None) <->
       (exists t c,
          fs w !! p = Some (RegularFile t c) /\
          (in_directory OUTPUT_DIR p = true \/ in_directory TEMP_DIR p = true) /\
          (3600 < clock w - t)%Q)) /\
    (forall p, f' !! p = None \/ f' !! p = fs w !! p) /\
    (n + size f' = size (fs w))%nat.
Proof.
  exists (size (fs w) - size (swept (clock w) (fs w)))%nat,
         (swept (clock w) (fs w)).
  split; [apply cleanup_files_run|]. split; [|split].
  - intros p. rewrite swept_lookup. unfold expired. split.
    + intros [[e He] Hgone]. rewrite He in Hgone.
      destruct e as [t c|t]; [|by rewrite andb_false_r in Hgone].
      destruct (in_directory OUTPUT_DIR p || in_directory TEMP_DIR p) eqn:Hd;
        [|done].
      destruct (Qgtb (clock w - t) 3600) eqn:Hold; [|done].
      exists t, c. split; [done|]. split.
      * by apply orb_true_iff.
      * by apply Qgtb_true.
    + intros (t & c & He & Hd & Hold). rewrite He. split; [by eexists|].
      apply orb_true_iff in Hd. apply Qgtb_true in Hold.
      by rewrite Hd, Hold.
  - intros p. rewrite swept_lookup.
    destruct (fs w !! p) as [e|]; [|by left].
    destruct (expired (clock w) p e); [by left | by right].
  - pose proof (map_filter_subseteq
      (fun pe => expired (clock w) pe.1 pe.2 = false) (fs w)) as Hsub.
    apply map_subseteq_size in Hsub. unfold swept. lia.
Qed.

(** The same sweep read a second time finds nothing to delete when no
    entry left by the first one is older than one hour. *)
Lemma swept_id now (f : gmap string entry) :
  (forall p e, f !! p = Some e -> expired now p e = false) ->
  swept now f = f.
Proof.
  intros H. apply map_eq. intros p. rewrite swept_lookup.
  destruct (f !! p) as [e|] eqn:E; [|done]. by rewrite (H p e E).
Qed.

(** A file that the sweep at [t1] leaves is gone after the sweep at
    [t2] exactly when it crossed the age of one hour in between. *)
Lemma swept_twice_lookup t1 t2 (f : gmap string entry) p :
  is_Some (swept t1 f !! p) /\ swept t2 (swept t1 f) !! p = None <->
  exists t c,
    f !! p = Some (RegularFile t c) /\
    (in_directory OUTPUT_DIR p = true \/ in_directory TEMP_DIR p = true) /\
    (t1 - t <= 3600)%Q /\ (3600 < t2 - t)%Q.
Proof.
  rewrite !swept_lookup. unfold expired.
  destruct (f !! p) as [[t c|t]|] eqn:E.
  - destruct (in_directory OUTPUT_DIR p || in_directory TEMP_DIR p) eqn:Hd;
      cbn [andb].
    + destruct (Qgtb (t1 - t) 3600) eqn:H1.
      * split; [by intros [[? ?] _]|].
        intros (t' & c' & [= <- <-] & _ & Hle & _).
        apply Qgtb_true in H1. lra.
      * destruct (Qgtb (t2 - t) 3600) eqn:H2.
        -- split; [|done]. intros _. exists t, c.
           apply Qgtb_false in H1. apply Qgtb_true in H2.
           by apply orb_true_iff in Hd.
        -- split; [by intros [_ ?]|].
           intros (t' & c' & [= <- <-] & _ & _ & Hlt).
           apply Qgtb_false in H2. lra.
    + split; [by intros [_ ?]|].
      intros (t' & c' & _ & Hin & _). apply orb_true_iff in Hin. congruence.
  - rewrite !andb_false_r.
    split; [by intros [_ ?]|]. by intros (t' & c' & ? & _).
  - split; [by intros [[? ?] _]|]. by intros (t' & c' & ? & _).
Qed.

(** C9 (amended). Two invocations of the Retention Sweeper in
    succession, the first reading the clock at [t1] (the clock of [w]), the
    second at [t2], no file being created in between.  The second
    invocation deletes exactly the regular files of the output and scratch
    directories whose age was at most one hour at [t1] and is more than one
    hour at [t2], and its count is their number.  So it deletes zero files
    and leaves the directories (the whole world) unchanged when no file
    crossed that age between the two readings, and in particular whenever
    the second reading is not later than the first. *)
Theorem cleanup_files_second_pass (X : Externals) (w : World) (t2 : Q) :
  let first := cleanup_files X w in
  let second := cleanup_files X (set_clock t2 first.2) in
  (forall p,
     (is_Some (fs first.2 !! p) /\ fs second.2 !! p = None) <->
     (exists t c,
        fs w !! p = Some (RegularFile t c) /\
        (in_directory OUTPUT_DIR p = true \/ in_directory TEMP_DIR p = true) /\
        (clock w - t <= 3600)%Q /\ (3600 < t2 - t)%Q)) /\
  (exists n,
     second.1 =
       inr (CleanupResponse ("Cleaned up " +:+ pretty n +:+ " files")) /\
     (n + size (fs second.2) = size (fs first.2))%nat) /\
  ((forall p t c,
      fs w !! p = Some (RegularFile t c) ->
      in_directory OUTPUT_DIR p = true \/ in_directory TEMP_DIR p = true ->
      (clock w - t <= 3600)%Q -> (t2 - t <= 3600)%Q) ->
   second =
     (inr (CleanupResponse "Cleaned up 0 files"), set_clock t2 first.2)) /\
  ((t2 <= clock w)%Q ->
   second =
     (inr (CleanupResponse "Cleaned up 0 files"), set_clock t2 first.2)).
Proof.
  cbn zeta. rewrite (cleanup_files_run X w). cbn [snd].
  rewrite cleanup_files_run. cbn [fst snd fs clock set_fs set_clock].
  assert ((forall p t c,
             fs w !! p = Some (RegularFile t c) ->
             in_directory OUTPUT_DIR p = true \/
             in_directory TEMP_DIR p = true ->
             (clock w - t <= 3600)%Q -> (t2 - t <= 3600)%Q) ->
          swept t2 (swept (clock w) (fs w)) = swept (clock w) (fs w)) as Hid.
  { intros Hyoung. apply swept_id. intros p e He.
    rewrite swept_lookup in He.
    destruct (fs w !! p) as [e'|] eqn:E; [|done].
    destruct (expired (clock w) p e') eqn:E1; [done|]. injection He as <-.
    unfold expired in *. destruct e' as [t c|t]; [|by rewrite andb_false_r].
    destruct (in_directory OUTPUT_DIR p || in_directory TEMP_DIR p) eqn:Hd;
      [|done].
    cbn [andb] in *. apply Qgtb_false. apply Qgtb_false in E1.
    apply (Hyoung p t c E); [by apply orb_true_iff | done]. }
  split; [|split; [|split]].
  - intros p. apply swept_twice_lookup.
  - eexists. split; [reflexivity|].
    pose proof (map_filter_subseteq
      (fun pe => expired t2 pe.1 pe.2 = false) (swept (clock w) (fs w)))
      as Hsub.
    apply map_subseteq_size in Hsub. fold (swept t2 (swept (clock w) (fs w))) in Hsub.
    lia.
  - intros Hyoung. rewrite (Hid Hyoung), Nat.sub_diag.
    change (set_clock t2 (set_fs (swept (clock w) (fs w)) w))
      with (set_fs (swept (clock w) (fs w))
              (set_clock t2 (set_fs (swept (clock w) (fs w)) w))).
    reflexivity.
  - intros Hle. rewrite Hid, Nat.sub_diag; [reflexivity|].
    intros p t c _ _ H. lra.
Qed.

(** When both passes read the same time, the second finds nothing. *)
Lemma cleanup_files_idempotent_same_clock (X : Externals) (w : World) :
  cleanup_files X (cleanup_files X w).2 =
    (inr (CleanupResponse "Cleaned up 0 files"), (cleanup_files X w).2).
Proof.
  rewrite (cleanup_files_run X w). cbn [snd]. rewrite cleanup_files_run.
  cbn [fs clock set_fs].
  rewrite (swept_id (clock w) (swept (clock w) (fs w))).
  - rewrite Nat.sub_diag. reflexivity.
  - intros p e He. rewrite swept_lookup in He.
    destruct (fs w !! p) as [e'|]; [|done].
    destruct (expired (clock w) p e') eqn:E; [done|]. by injection He as <-.
Qed.

(** C9, as stated, fails: a file of age exactly 3600 s survives the first
    pass and is deleted by a second pass one second later, although no file
    was created in between. *)
Lemma cleanup_files_twice_counterexample :
  (serve X0 [(3600%Q, DeleteCleanup); (3601%Q, DeleteCleanup)] world0).1 =
    [inr (CleanupResponse "Cleaned up 0 files");
     inr (CleanupResponse "Cleaned up 2 files")] /\
  fs (cleanup_files X0 (set_clock 3600 world0)).2 !! "outputs/toy.png"
    = Some (RegularFile 0 one_byte) /\
  fs (serve X0 [(3600%Q, DeleteCleanup); (3601%Q, DeleteCleanup)] world0).2
    !! "outputs/toy.png" = None /\
  ~ sweeper_idempotent_as_stated X0 world0 3600 3601.
Proof.
  repeat split; try (vm_compute; reflexivity).
  intros H. destruct H as [H _]; [by vm_compute|].
  vm_compute in H. discriminate H.
Qed.

Lemma cleanup_files_second_pass_witness :
  (cleanup_files X0 (set_clock 4000 two_ages)).1 =
    inr (CleanupResponse "Cleaned up 1 files") /\
  cleanup_files X0
    (set_clock 5000 (cleanup_files X0 (set_clock 4000 two_ages)).2) =
    (inr (CleanupResponse "Cleaned up 0 files"),
     set_clock 5000 (cleanup_files X0 (set_clock 4000 two_ages)).2).
Proof.
  split; [vm_compute; reflexivity|].
  refine (proj1 (proj2 (proj2
            (cleanup_files_second_pass X0 (set_clock 4000 two_ages) 5000))) _).
  intros p t c. cbn [fs set_clock clock]. unfold two_ages. cbn [fs].
  destruct (decide (p = "outputs/model_old.ply")) as [->|H1];
    [vm_compute; intros [= <- _] _ H; exact H|].
  destruct (decide (p = "outputs/model_new.ply")) as [->|H2];
    [vm_compute; intros [= <- _] _ _; discriminate|].
  rewrite lookup_insert_ne, lookup_singleton_ne by done. done.
Defined.

(** ** Preservation of a relation by monadic code *)

Section Preserves.

Context {S : Type} (R : S -> S -> Prop).
Hypothesis R_refl : forall s, R s s.
Hypothesis R_trans : forall s1 s2 s3, R s1 s2 -> R s2 s3 -> R s1 s3.

Lemma preserves_ret {A} (a : A) : preserves R (ret a).
Proof. intros s. apply R_refl. Qed.

Lemma preserves_raise {A} e : preserves R (@raise S A e).
Proof. intros s. apply R_refl. Qed.

Lemma preserves_lift_result {A} (r : Exn + A) : preserves R (lift_result r).
Proof. intros s. apply R_refl. Qed.

Lemma preserves_bind {A B} (m : M S A) (k : A -> M S B) :
  preserves R m -> (forall a, preserves R (k a)) -> preserves R (bind m k).
Proof.
  intros Hm Hk s. unfold bind. specialize (Hm s).
  destruct (m s) as [[e|a] s1]; [exact Hm|].
  eapply R_trans; [exact Hm | apply Hk].
Qed.

Lemma preserves_try_except {A} (m : M S A) h :
  preserves R m -> (forall e, preserves R (h e)) -> preserves R (try_except m h).
Proof.
  intros Hm Hh s. unfold try_except. specialize (Hm s).
  destruct (m s) as [[e|a] s1]; [|exact Hm].
  eapply R_trans; [exact Hm | apply Hh].
Qed.

Lemma preserves_try_finally {A} (m : M S A) f :
  preserves R m -> preserves R f -> preserves R (try_finally m f).
Proof.
  intros Hm Hf s. unfold try_finally. specialize (Hm s).
  destruct (m s) as [r s1]. specialize (Hf s1).
  destruct (f s1) as [[e|[]] s2]; eapply R_trans; eauto.
Qed.

Lemma preserves_for_each {A} (l : list A) body :
  (forall x, preserves R (body x)) -> preserves R (for_each l body).
Proof.
  intros Hb. induction l as [|x l IH]; cbn [for_each].
  - apply preserves_ret.
  - apply preserves_bind; auto.
Qed.

Lemma preserves_for_fold {A B} (l : list A) (body : B -> A -> M S B) :
  (forall b x, preserves R (body b x)) ->
  forall acc, preserves R (for_fold l acc body).
Proof.
  intros Hb. induction l as [|x l IH]; intros acc; cbn [for_fold].
  - apply preserves_ret.
  - apply preserves_bind; auto.
Qed.

End Preserves.

(** A step of the proofs below: split the monadic structure, leave what
    is not structure. *)
Ltac preserves_step :=
  lazymatch goal with
  | |- preserves _ (bind _ _) => apply preserves_bind; [apply frame_trans | | intros ?]
  | |- preserves _ (try_except _ _) =>
      apply preserves_try_except; [apply frame_trans | | intros ?]
  | |- preserves _ (ret _) => apply preserves_ret; apply frame_refl
  | |- preserves _ (raise _) => apply preserves_raise; apply frame_refl
  | |- preserves _ (lift_result _) =>
      apply preserves_lift_result; apply frame_refl
  | |- preserves _ (if ?b then _ else _) => destruct b
  | |- preserves _ (match ?o with Some _ => _ | None => _ end) => destruct o
  end.

(** ** The primitive operations keep every frame *)

Section FramePrimitives.

Context (R : World -> World -> Prop) (writable : string -> Prop)
  (callable : ModelCall -> Prop) `{!Frame R writable callable}.

Lemma preserves_print s : preserves R (print s).
Proof. intros w. apply frame_print. Qed.

Lemma preserves_uuid4_str X : preserves R (uuid4_str X).
Proof. intros w. apply frame_uuid. Qed.

Lemma preserves_write_file p d : writable p -> preserves R (write_file p d).
Proof.
  intros Hp w. unfold write_file.
  destruct (fs w !! p) as [[t c|t]|]; cbn [snd];
    first [by apply frame_write | apply frame_refl].
Qed.

Lemma preserves_save_upload p u : writable p -> preserves R (save_upload p u).
Proof.
  intros Hp. unfold save_upload.
  repeat first [preserves_step | by apply preserves_write_file].
Qed.

Lemma preserves_Image_open X p : preserves R (Image_open X p).
Proof.
  intros w. unfold Image_open.
  destruct (fs w !! p) as [[t c|t]|]; apply frame_refl.
Qed.

Lemma preserves_Image_save X img p :
  writable p -> preserves R (Image_save X img p).
Proof.
  intros Hp. unfold Image_save.
  repeat first [preserves_step | by apply preserves_write_file].
Qed.

Lemma preserves_genai_generate_content X model prompt img modalities :
  callable (GenerateContent model prompt img modalities) ->
  preserves R (genai_generate_content X model prompt img modalities).
Proof.
  intros Hc w. unfold genai_generate_content.
  destruct (genai_client w); [by apply frame_call | apply frame_refl].
Qed.

Lemma preserves_trellis_run X img formats :
  callable (TrellisRun img 1 formats 12 (75 # 10) 12 3) ->
  preserves R (trellis_run X img formats).
Proof.
  intros Hc w. unfold trellis_run.
  destruct (trellis_pipeline w); [by apply frame_call | apply frame_refl].
Qed.

End FramePrimitives.
(** ** Saving what the models returned keeps every frame that allows all
    writes: no model is called there *)

Section FrameSaving.

Context (R : World -> World -> Prop) (callable : ModelCall -> Prop)
  `{!Frame R any callable}.

Ltac prim :=
  first
    [ apply (preserves_print R any callable)
    | apply (preserves_uuid4_str R any callable)
    | apply (preserves_write_file R any callable); exact I
    | apply (preserves_Image_save R any callable); exact I ].

Lemma preserves_save_first_image X parts :
  preserves R (save_first_image X parts).
Proof.
  induction parts as [|part rest IH]; cbn [save_first_image].
  - preserves_step.
  - destruct (inline_data part); [|exact IH].
    repeat first [preserves_step | prim].
Qed.

Lemma preserves_save_gaussian X outputs formats uid rf :
  preserves R (save_gaussian X outputs formats uid rf).
Proof. unfold save_gaussian. repeat first [preserves_step | prim]. Qed.

Lemma preserves_export_glb X outputs uid rf :
  preserves R (export_glb X outputs uid rf).
Proof. unfold export_glb. repeat first [preserves_step | prim]. Qed.

Lemma preserves_save_mesh X outputs formats uid rf :
  preserves R (save_mesh X outputs formats uid rf).
Proof.
  unfold save_mesh.
  repeat first [preserves_step | prim | apply preserves_export_glb].
Qed.

End FrameSaving.

(** ** The service keeps every frame that allows all writes and calls *)

Section FrameService.

Context (R : World -> World -> Prop) `{!Frame R any any}.

Ltac prim :=
  first
    [ apply (preserves_print R any any)
    | apply (preserves_uuid4_str R any any)
    | apply (preserves_Image_open R any any)
    | apply (preserves_save_upload R any any); exact I
    | apply (preserves_genai_generate_content R any any); exact I
    | apply (preserves_trellis_run R any any); exact I
    | apply (preserves_save_first_image R any)
    | apply (preserves_save_gaussian R any)
    | apply (preserves_save_mesh R any) ].

Lemma preserves_analyze_person_image X p :
  preserves R (analyze_person_image X p).
Proof. unfold analyze_person_image. repeat first [preserves_step | prim]. Qed.

Lemma preserves_analyze_toy_style X p :
  preserves R (analyze_toy_style X p).
Proof. unfold analyze_toy_style. repeat first [preserves_step | prim]. Qed.

Lemma preserves_generate_toy_image X u c s p :
  preserves R (generate_toy_image X u c s p).
Proof. unfold generate_toy_image. repeat first [preserves_step | prim]. Qed.

Lemma preserves_generate_3d_model X p fmt :
  preserves R (generate_3d_model X p fmt).
Proof. unfold generate_3d_model. repeat first [preserves_step | prim]. Qed.

Lemma preserves_toy_pipeline X p1 p2 pi sg prompt fmt :
  preserves R (toy_pipeline X p1 p2 pi sg prompt fmt).
Proof.
  unfold toy_pipeline.
  repeat first [preserves_step | prim | apply preserves_analyze_person_image
               | apply preserves_analyze_toy_style
               | apply preserves_generate_toy_image
               | apply preserves_generate_3d_model].
Qed.

Lemma preserves_image_only_pipeline X p1 p2 pi sg prompt :
  preserves R (image_only_pipeline X p1 p2 pi sg prompt).
Proof.
  unfold image_only_pipeline.
  repeat first [preserves_step | prim | apply preserves_analyze_person_image
               | apply preserves_analyze_toy_style
               | apply preserves_generate_toy_image].
Qed.

Lemma preserves_image_to_3d_pipeline X p i fmt :
  preserves R (image_to_3d_pipeline X p i fmt).
Proof.
  unfold image_to_3d_pipeline.
  repeat first [preserves_step | prim | apply preserves_generate_3d_model].
Qed.

End FrameService.

(** ** Frames *)

Lemma stays_frame q : Frame (stays q) any any.
Proof.
  split; unfold stays; try (intros; cbn; done).
  - eauto.
  - intros p d w _ H. cbn. destruct (decide (p = q)) as [->|Hne].
    + rewrite lookup_insert_eq. eauto.
    + by rewrite lookup_insert_ne.
Qed.

Lemma no_new_directory_frame q : Frame (no_new_directory q) any any.
Proof.
  split; unfold no_new_directory; try (intros; cbn; done).
  - eauto.
  - intros p d w _ H t. cbn. destruct (decide (p = q)) as [->|Hne].
    + rewrite lookup_insert_eq. done.
    + rewrite lookup_insert_ne by done. apply H.
Qed.

Lemma draws_grow_frame : Frame draws_grow any any.
Proof.
  split; unfold draws_grow; intros; cbn; lia.
Qed.

Lemma only_writes_frame P : Frame (only_writes P) P any.
Proof.
  split; unfold only_writes; try (intros; cbn; done).
  - intros w1 w2 w3 H12 H23 q Hq. rewrite H23, H12; done.
  - intros p d w Hp q Hq. cbn. rewrite lookup_insert_ne; [done|].
    intros ->. done.
Qed.

Lemma only_calls_frame P : Frame (only_calls P) any P.
Proof.
  split; unfold only_calls.
  - intros w. exists []. by rewrite app_nil_r.
  - intros w1 w2 w3 (l1 & H1 & F1) (l2 & H2 & F2).
    exists (l1 ++ l2)%list. rewrite H2, H1, app_assoc. split; [done|].
    by apply Forall_app.
  - intros s w. exists []. by rewrite app_nil_r.
  - intros w. exists []. by rewrite app_nil_r.
  - intros c w Hc. exists [c]. split; [done|]. by constructor.
  - intros p d w _. exists []. by rewrite app_nil_r.
Qed.

(** ** The handlers as functions of the world *)

Lemma remove_quietly_run {L} p (s : World * L) :
  remove_quietly p s = (inr tt, (remove_file p s.1, s.2)).
Proof.
  destruct s as [w l].
  unfold remove_quietly, try_except, bind, in_world, exists_, unlink, ret,
    remove_file, path_exists, is_file. cbn [fst snd].
  destruct (fs w !! p) as [[t c|t]|] eqn:E; cbn [fst snd]; rewrite ?E; done.
Qed.

Lemma for_each_remove_quietly {L} l (s : World * L) :
  for_each l remove_quietly s =
    (inr tt, (foldl (fun w p => remove_file p w) s.1 l, s.2)).
Proof.
  revert s. induction l as [|p l IH]; intros [w loc]; cbn [for_each foldl].
  - reflexivity.
  - unfold bind. rewrite remove_quietly_run, IH. reflexivity.
Qed.

Lemma generate_image_only_run X pi sg prompt w :
  generate_image_only X pi sg prompt w =
    let rw := image_only_pipeline X (person_path X w) (style_path X w)
                pi sg prompt (set_uuid_count (S (S (uuid_count w))) w) in
    (rw.1, remove_file (style_path X w) (remove_file (person_path X w) rw.2)).
Proof.
  unfold generate_image_only, with_local, try_finally.
  unfold extend_local, bind, in_world, uuid4_str, get_local, set_local.
  cbn [fst snd app].
  change (set_uuid_count _ (set_uuid_count _ w))
    with (set_uuid_count (S (S (uuid_count w))) w).
  destruct (image_only_pipeline _ _ _ _ _ _ _) as [r w3].
  rewrite for_each_remove_quietly. reflexivity.
Qed.

Lemma generate_toy_endpoint_run X pi sg prompt fmt w :
  generate_toy_endpoint X pi sg prompt fmt w =
    match startswith_image pi with
    | inl e => (generation_outcome X (inl e), w)
    | inr false => (inl (HTTPException 400 "Person file must be an image"), w)
    | inr true =>
        match startswith_image sg with
        | inl e => (generation_outcome X (inl e), w)
        | inr false =>
            (inl (HTTPException 400 "Style guide file must be an image"), w)
        | inr true =>
            let rw := toy_pipeline X (person_path X w) (style_path X w)
                        pi sg prompt fmt
                        (set_uuid_count (S (S (uuid_count w))) w) in
            (generation_outcome X rw.1,
             remove_file (style_path X w) (remove_file (person_path X w) rw.2))
        end
    end.
Proof.
  unfold generate_toy_endpoint, with_local, try_finally, try_except.
  unfold extend_local, bind, in_world, uuid4_str, get_local, set_local,
    lift_result.
  cbn [fst snd app].
  destruct (startswith_image pi) as [e1|[|]]; cbn [negb fst snd];
    [destruct e1; reflexivity| |reflexivity].
  destruct (startswith_image sg) as [e2|[|]]; cbn [negb fst snd];
    [destruct e2; reflexivity| |reflexivity].
  cbn [ret fst snd app].
  change (set_uuid_count _ (set_uuid_count _ w))
    with (set_uuid_count (S (S (uuid_count w))) w).
  destruct (toy_pipeline _ _ _ _ _ _ _ _) as [r w3].
  destruct r as [e|a]; [destruct e|];
    unfold reraise_generation_failed, raise; cbn [fst snd];
    rewrite for_each_remove_quietly; reflexivity.
Qed.

Lemma image_to_3d_run X i fmt w :
  image_to_3d X i fmt w =
    let rw := image_to_3d_pipeline X (input_path X w) i fmt
                (set_uuid_count (S (uuid_count w)) w) in
    (rw.1, remove_file (input_path X w) rw.2).
Proof.
  unfold image_to_3d, with_local, try_finally, try_except.
  unfold bind, in_world, uuid4_str, get_local, set_local, exists_, unlink, ret.
  cbn [fst snd].
  destruct (image_to_3d_pipeline _ _ _ _ _) as [r w3]. cbn [fst snd].
  unfold remove_file, path_exists, is_file, input_path.
  destruct (fs w3 !! _) as [[t c|t]|] eqn:E; cbn [fst snd]; rewrite ?E; done.
Qed.

(** ** Scratch files *)

Lemma remove_file_gone p w :
  (forall t, fs w !! p <> Some (Directory t)) ->
  fs (remove_file p w) !! p = None.
Proof.
  intros Hnd. unfold remove_file, is_file.
  destruct (fs w !! p) as [[t c|t]|] eqn:E; cbn [fs set_fs].
  - apply lookup_delete_eq.
  - by destruct (Hnd t).
  - done.
Qed.

Lemma remove_file_keeps_none p q w :
  fs w !! q = None -> fs (remove_file p w) !! q = None.
Proof.
  intros Hq. unfold remove_file. destruct (is_file (fs w) p); [|done].
  cbn [fs set_fs]. rewrite lookup_delete. by case_decide.
Qed.

Lemma remove_file_other p q w :
  p <> q -> fs (remove_file p w) !! q = fs w !! q.
Proof.
  intros Hne. unfold remove_file. destruct (is_file (fs w) p); [|done].
  cbn [fs set_fs]. by rewrite lookup_delete_ne.
Qed.

Lemma remove_file_uuid_count p w :
  uuid_count (remove_file p w) = uuid_count w.
Proof. unfold remove_file. by destruct (is_file (fs w) p). Qed.

Lemma both_removed p1 p2 w p :
  (forall t, fs w !! p1 <> Some (Directory t)) ->
  (forall t, fs w !! p2 <> Some (Directory t)) ->
  p ∈ [p1; p2] ->
  fs (remove_file p2 (remove_file p1 w)) !! p = None.
Proof.
  intros H1 H2 Hp. apply elem_of_cons in Hp as [->|Hp].
  - by apply remove_file_keeps_none, remove_file_gone.
  - apply list_elem_of_singleton in Hp as ->.
    apply remove_file_gone. intros t.
    destruct (decide (p1 = p2)) as [Heq|Hne].
    + by rewrite <- Heq, remove_file_gone.
    + by rewrite remove_file_other.
Qed.

(** C5. For every request to an upload endpoint, each scratch path the
    request names is absent after the request completes, whatever the
    outcome (success, rejection, failure of any step), provided none of
    these freshly named paths is an already existing directory. *)
Theorem scratch_files_absent_after_request
    (X : Externals) (r : Request) (w : World) :
  (forall p t, p ∈ scratch_paths X r w -> fs w !! p <> Some (Directory t)) ->
  forall p, p ∈ scratch_paths X r w -> fs (handle X r w).2 !! p = None.
Proof.
  intros Hnd p Hp. destruct r as [| |pi sg prompt fmt|pi sg prompt|i fmt|f|];
    cbn [scratch_paths handle] in *; try by apply elem_of_nil in Hp.
  - (* /generate-toy *)
    rewrite generate_toy_endpoint_run.
    destruct (startswith_image pi) as [e1|[|]]; try by apply elem_of_nil in Hp.
    destruct (startswith_image sg) as [e2|[|]]; try by apply elem_of_nil in Hp.
    cbn zeta. cbn [snd].
    apply both_removed; [| |done].
    + apply (preserves_toy_pipeline _
               (Frame0 := no_new_directory_frame (person_path X w))).
      intros t. apply Hnd. by left.
    + apply (preserves_toy_pipeline _
               (Frame0 := no_new_directory_frame (style_path X w))).
      intros t. apply Hnd. right. by left.
  - (* /generate-image-only *)
    rewrite generate_image_only_run. cbn zeta. cbn [snd].
    apply both_removed; [| |done].
    + apply (preserves_image_only_pipeline _
               (Frame0 := no_new_directory_frame (person_path X w))).
      intros t. apply Hnd. by left.
    + apply (preserves_image_only_pipeline _
               (Frame0 := no_new_directory_frame (style_path X w))).
      intros t. apply Hnd. right. by left.
  - (* /image-to-3d *)
    rewrite image_to_3d_run. cbn zeta. cbn [snd].
    apply list_elem_of_singleton in Hp as ->.
    apply remove_file_gone.
    apply (preserves_image_to_3d_pipeline _
             (Frame0 := no_new_directory_frame (input_path X w))).
    intros t. apply Hnd. by left.
Qed.

Lemma scratch_files_absent_witness :
  fs (handle X0
        (PostGenerateToy (example_upload "image/png")
           (example_upload "image/jpeg") "a toy" "all") world0).2
    !! "temp/style_uuid-1.png" = None.
Proof.
  apply (scratch_files_absent_after_request X0
           (PostGenerateToy (example_upload "image/png")
              (example_upload "image/jpeg") "a toy" "all") world0).
  - intros p t Hp.
    apply elem_of_cons in Hp as [->|Hp];
      [|apply list_elem_of_singleton in Hp as ->]; vm_compute; done.
  - vm_compute. right. left.
Defined.

(** ** Validation of the declared media type *)

(** /generate-toy rejects an upload whose declared media type does not
    start with [image/] with status 400, and the world is left as it was:
    no model call, no file written, no uuid drawn. *)
Lemma generate_toy_endpoint_rejects_non_image X pi sg prompt fmt w ct :
  (content_type pi = Some ct /\ String.prefix "image/" ct = false) \/
  (startswith_image pi = inr true /\
   content_type sg = Some ct /\ String.prefix "image/" ct = false) ->
  exists detail,
    generate_toy_endpoint X pi sg prompt fmt w =
      (inl (HTTPException 400 detail), w).
Proof.
  rewrite generate_toy_endpoint_run.
  intros [[Hct Hp]|[Hpi [Hct Hp]]].
  - unfold startswith_image at 1. rewrite Hct, Hp. eauto.
  - rewrite Hpi. unfold startswith_image. rewrite Hct, Hp. eauto.
Qed.

(** The two other upload endpoints never read the declared media type:
    the outcome is the same whatever it is. *)
Lemma generate_image_only_ignores_content_type X pi sg prompt w ct1 ct2 :
  generate_image_only X
    {| content_type := ct1; read := read pi |}
    {| content_type := ct2; read := read sg |} prompt w =
  generate_image_only X pi sg prompt w.
Proof. reflexivity. Qed.

Lemma image_to_3d_ignores_content_type X i fmt w ct :
  image_to_3d X {| content_type := ct; read := read i |} fmt w =
  image_to_3d X i fmt w.
Proof. reflexivity. Qed.

(** C1 at its failing input.  /generate-image-only and /image-to-3d,
    given uploads declared as [text/plain], answer 200 after calling the
    models and writing files to the output directory; only /generate-toy
    answers 400 and does neither. *)
Theorem upload_endpoints_on_non_image :
  let txt := example_upload "text/plain" in
  let r1 := generate_image_only X0 txt txt "a toy" world0 in
  let r2 := image_to_3d X0 txt "gaussian" world0 in
  let r3 := generate_toy_endpoint X0 txt txt "a toy" "gaussian" world0 in
  (http_status r1.1 = 200 /\
   length (model_calls r1.2) = 3 /\
   is_file (fs r1.2) "outputs/generated_toy_uuid-2.png" = true) /\
  (http_status r2.1 = 200 /\
   length (model_calls r2.2) = 1 /\
   is_file (fs r2.2) "outputs/model_uuid-1.ply" = true) /\
  (http_status r3.1 = 400 /\ r3.2 = world0).
Proof. repeat split; vm_compute; reflexivity. Qed.

(** ** The 3D Reconstructor *)

Lemma Image_open_state X p w : (Image_open X p w).2 = w.
Proof.
  unfold Image_open. by destruct (fs w !! p) as [[t c|t]|].
Qed.

(** [generate_3d_model] by cases on what its steps give. *)
Lemma generate_3d_model_run X p fmt w :
  generate_3d_model X p fmt w =
    match (Image_open X p w).1 with
    | inl e => (inl (model_error X e), w)
    | inr img =>
        let formats := select_formats fmt in
        let w1 := log_print ("Generating 3D model with formats: "
                             +:+ str_list X formats) w in
        if trellis_pipeline w then
          match pipeline_run X (length (model_calls w)) img formats with
          | inl e =>
              (inl (model_error X e),
               log_call (TrellisRun img 1 formats 12 (75 # 10) 12 3) w1)
          | inr outputs =>
              let uid := uuid4 X (uuid_count w) in
              match save_gaussian X outputs formats uid ∅ (after_run X img fmt w) with
              | (inl e, w3) => (inl (model_error X e), w3)
              | (inr rf, w3) =>
                  match save_mesh X outputs formats uid rf w3 with
                  | (inl e, w4) => (inl (model_error X e), w4)
                  | (inr rf', w4) =>
                      (inr {| success := true; model_id := uid;
                              files := rf'; formats := formats |}, w4)
                  end
              end
          end
        else
          (inl (model_error X
                  (AttributeError "'NoneType' object has no attribute 'run'")),
           w1)
    end.
Proof.
  unfold generate_3d_model, try_except. unfold bind at 1.
  pose proof (Image_open_state X p w) as Hw.
  destruct (Image_open X p w) as [[e|img] w']; cbn [fst snd] in *; subst w';
    [done|].
  unfold bind at 1, print at 1. unfold bind at 1, trellis_run at 1.
  cbn [trellis_pipeline log_print model_calls].
  destruct (trellis_pipeline w); [|done].
  destruct (pipeline_run _ _ _ _) as [e|outputs]; [done|].
  unfold bind at 1, uuid4_str at 1. cbn [uuid_count log_call log_print].
  unfold bind at 1. cbn zeta. unfold after_run.
  destruct (save_gaussian _ _ _ _ _ _) as [[e|rf] w3]; [done|].
  unfold bind at 1.
  destruct (save_mesh _ _ _ _ _ _) as [[e|rf'] w4]; done.
Qed.

Lemma save_gaussian_skip X outputs formats uid rf :
  "gaussian" ∉ formats -> save_gaussian X outputs formats uid rf = ret rf.
Proof.
  intros H. unfold save_gaussian. by rewrite bool_decide_eq_false_2.
Qed.

Lemma save_mesh_skip X outputs formats uid rf :
  "mesh" ∉ formats -> save_mesh X outputs formats uid rf = ret rf.
Proof.
  intros H. unfold save_mesh. by rewrite bool_decide_eq_false_2.
Qed.

(** What [save_gaussian] returns when it does not raise. *)
Lemma save_gaussian_result X outputs formats uid rf w rf' w' :
  save_gaussian X outputs formats uid rf w = (inr rf', w') ->
  rf' = rf \/
  ("gaussian" ∈ formats /\
   rf' = <["preview_video" := video_path uid]> (<["ply" := ply_path uid]> rf)).
Proof.
  unfold save_gaussian.
  destruct (bool_decide ("gaussian" ∈ formats)) eqn:Hin; cbn [andb];
    [apply bool_decide_eq_true in Hin|intros [= <- _]; by left].
  destruct (get_truthy outputs "gaussian"); [|intros [= <- _]; by left].
  unfold bind, lift_result, ret.
  destruct (getitem0 outputs "gaussian") as [e|g]; [done|].
  destruct (ply_bytes X g) as [e|ply]; [done|].
  destruct (write_file _ ply w) as [[e|[]] w1]; [done|].
  destruct (render_video X g) as [e|video]; [done|].
  destruct (mimsave_bytes X video 15) as [e|mp4]; [done|].
  destruct (write_file _ mp4 w1) as [[e|[]] w2]; [done|].
  intros [= <- _]. by right.
Qed.

(** [save_mesh] never raises; a failed export is printed and the mapping
    is returned as it was. *)
Lemma save_mesh_run X outputs formats uid rf w :
  save_mesh X outputs formats uid rf w =
    if bool_decide ("mesh" ∈ formats) && get_truthy outputs "mesh" then
      match export_glb X outputs uid rf w with
      | (inr rf', w') => (inr rf', w')
      | (inl e, w') =>
          (inr rf,
           log_print ("Warning: Could not generate GLB: " +:+ py_str X e) w')
      end
    else (inr rf, w).
Proof.
  unfold save_mesh.
  destruct (bool_decide ("mesh" ∈ formats) && get_truthy outputs "mesh");
    [|done].
  unfold try_except. by destruct (export_glb X outputs uid rf w) as [[e|rf'] w'].
Qed.

Lemma export_glb_result X outputs uid rf w rf' w' :
  export_glb X outputs uid rf w = (inr rf', w') ->
  rf' = <["glb" := glb_path uid]> rf.
Proof.
  unfold export_glb, bind, lift_result, ret.
  destruct (get_truthy outputs "gaussian").
  - destruct (getitem0 outputs "gaussian") as [e|g]; [done|].
    destruct (getitem0 outputs "mesh") as [e|m]; [done|].
    destruct (to_glb X (Some g) m) as [e|glb]; [done|].
    destruct (glb_bytes X glb) as [e|b]; [done|].
    destruct (write_file _ b w) as [[e|[]] w1]; [done|]. by intros [= <- _].
  - destruct (getitem0 outputs "mesh") as [e|m]; [done|].
    destruct (to_glb X None m) as [e|glb]; [done|].
    destruct (glb_bytes X glb) as [e|b]; [done|].
    destruct (write_file _ b w) as [[e|[]] w1]; [done|]. by intros [= <- _].
Qed.

Lemma save_mesh_result X outputs formats uid rf w rf' w' :
  save_mesh X outputs formats uid rf w = (inr rf', w') ->
  rf' = rf \/ ("mesh" ∈ formats /\ rf' = <["glb" := glb_path uid]> rf).
Proof.
  rewrite save_mesh_run.
  destruct (bool_decide ("mesh" ∈ formats)) eqn:Hin; cbn [andb];
    [apply bool_decide_eq_true in Hin|intros [= <- _]; by left].
  destruct (get_truthy outputs "mesh"); [|intros [= <- _]; by left].
  destruct (export_glb X outputs uid rf w) as [[e|rf''] w''] eqn:E.
  - intros [= <- _]. by left.
  - intros [= <- _]. right. split; [done|]. by eapply export_glb_result.
Qed.

Lemma save_mesh_never_raises X outputs formats uid rf w e w' :
  save_mesh X outputs formats uid rf w <> (inl e, w').
Proof.
  rewrite save_mesh_run.
  destruct (bool_decide ("mesh" ∈ formats) && get_truthy outputs "mesh");
    [|done].
  by destruct (export_glb X outputs uid rf w) as [[e'|rf'] w''].
Qed.

(** The files the post-processing writes. *)
Lemma save_gaussian_only_writes X outputs formats uid rf :
  preserves
    (only_writes (fun q => "gaussian" ∈ formats /\
                           (q = ply_path uid \/ q = video_path uid)))
    (save_gaussian X outputs formats uid rf).
Proof.
  set (P := fun q => _).
  pose proof (only_writes_frame P) as HF.
  unfold save_gaussian.
  destruct (bool_decide ("gaussian" ∈ formats)) eqn:Hin; cbn [andb];
    [apply bool_decide_eq_true in Hin|preserves_step].
  repeat first
    [ preserves_step
    | apply (preserves_write_file _ P any); split; [done|]; auto ].
Qed.

Lemma export_glb_only_writes X outputs uid rf :
  preserves (only_writes (fun q => q = glb_path uid))
    (export_glb X outputs uid rf).
Proof.
  set (P := fun q => _).
  pose proof (only_writes_frame P) as HF.
  unfold export_glb.
  repeat first
    [ preserves_step | apply (preserves_write_file _ P any); reflexivity ].
Qed.

Lemma save_mesh_only_writes X outputs formats uid rf :
  preserves (only_writes (fun q => "mesh" ∈ formats /\ q = glb_path uid))
    (save_mesh X outputs formats uid rf).
Proof.
  intros w. rewrite save_mesh_run.
  destruct (bool_decide ("mesh" ∈ formats)) eqn:Hin; cbn [andb];
    [apply bool_decide_eq_true in Hin|done].
  destruct (get_truthy outputs "mesh"); [|done].
  pose proof (export_glb_only_writes X outputs uid rf w) as H.
  destruct (export_glb X outputs uid rf w) as [[e|rf'] w']; cbn [snd] in *;
    intros q Hq; apply H; intros ->; apply Hq; done.
Qed.

Lemma only_writes_mono (P Q : string -> Prop) w w' :
  (forall q, P q -> Q q) -> only_writes P w w' -> only_writes Q w w'.
Proof. intros HPQ H q Hq. apply H. intros HP. apply Hq, HPQ, HP. Qed.

Lemma only_writes_trans P w1 w2 w3 :
  only_writes P w1 w2 -> only_writes P w2 w3 -> only_writes P w1 w3.
Proof. intros H12 H23 q Hq. rewrite H23, H12; done. Qed.

(** The files a reconstruction writes, for every outcome. *)
Lemma generate_3d_model_only_writes X p fmt w :
  only_writes
    (fun q =>
       ("gaussian" ∈ select_formats fmt /\
        (q = ply_path (uuid4 X (uuid_count w)) \/
         q = video_path (uuid4 X (uuid_count w)))) \/
       ("mesh" ∈ select_formats fmt /\
        q = glb_path (uuid4 X (uuid_count w))))
    w (generate_3d_model X p fmt w).2.
Proof.
  rewrite generate_3d_model_run.
  destruct (Image_open X p w).1 as [e|img]; [done|]. cbn zeta.
  destruct (trellis_pipeline w); [|done].
  destruct (pipeline_run _ _ _ _) as [e|outputs]; [done|].
  pose proof (save_gaussian_only_writes X outputs (select_formats fmt)
                (uuid4 X (uuid_count w)) ∅ (after_run X img fmt w)) as Hg.
  destruct (save_gaussian _ _ _ _ _ _) as [[e|rf] w3]; cbn [snd] in Hg.
  { eapply only_writes_mono; [|exact Hg]. intros q Hq. by left. }
  pose proof (save_mesh_only_writes X outputs (select_formats fmt)
                (uuid4 X (uuid_count w)) rf w3) as Hm.
  destruct (save_mesh _ _ _ _ _ _) as [[e|rf'] w4]; cbn [snd] in *.
  all: eapply (only_writes_trans _ _ w3);
    [ eapply only_writes_mono; [|exact Hg]; intros q Hq; by left
    | eapply only_writes_mono; [|exact Hm]; intros q Hq; by right ].
Qed.

(** Saving draws no uuid. *)
Lemma write_file_uuid_count p d w :
  uuid_count (write_file p d w).2 = uuid_count w.
Proof. unfold write_file. by destruct (fs w !! p) as [[t c|t]|]. Qed.

Lemma save_gaussian_uuid_count X outputs formats uid rf w :
  uuid_count (save_gaussian X outputs formats uid rf w).2 = uuid_count w.
Proof.
  unfold save_gaussian.
  destruct (bool_decide ("gaussian" ∈ formats) && get_truthy outputs "gaussian");
    [|done].
  unfold bind, lift_result, ret.
  destruct (getitem0 outputs "gaussian") as [e|g]; [done|].
  destruct (ply_bytes X g) as [e|ply]; [done|].
  pose proof (write_file_uuid_count (ply_path uid) ply w) as H1.
  unfold ply_path in H1.
  destruct (write_file _ ply w) as [[e|[]] w1]; [done|]. cbn [snd] in H1.
  destruct (render_video X g) as [e|video]; [done|].
  destruct (mimsave_bytes X video 15) as [e|mp4]; [done|].
  pose proof (write_file_uuid_count (video_path uid) mp4 w1) as H2.
  unfold video_path in H2.
  destruct (write_file _ mp4 w1) as [[e|[]] w2]; cbn [snd] in *; congruence.
Qed.

Lemma export_glb_uuid_count X outputs uid rf w :
  uuid_count (export_glb X outputs uid rf w).2 = uuid_count w.
Proof.
  unfold export_glb, bind, lift_result, ret.
  destruct (get_truthy outputs "gaussian");
    [destruct (getitem0 outputs "gaussian") as [e|g]; [done|]|];
    (destruct (getitem0 outputs "mesh") as [e|m]; [done|]);
    (destruct (to_glb X _ m) as [e|glb]; [done|]);
    (destruct (glb_bytes X glb) as [e|b]; [done|]);
    pose proof (write_file_uuid_count (glb_path uid) b w) as H1;
    unfold glb_path in H1;
    (destruct (write_file _ b w) as [[e|[]] w1]; done).
Qed.

Lemma save_mesh_uuid_count X outputs formats uid rf w :
  uuid_count (save_mesh X outputs formats uid rf w).2 = uuid_count w.
Proof.
  rewrite save_mesh_run.
  destruct (bool_decide ("mesh" ∈ formats) && get_truthy outputs "mesh");
    [|done].
  pose proof (export_glb_uuid_count X outputs uid rf w) as H.
  by destruct (export_glb X outputs uid rf w) as [[e|rf'] w'].
Qed.

(** The keys of the file mapping a reconstruction returns. *)
Lemma generate_3d_model_files X p fmt w r w' :
  generate_3d_model X p fmt w = (inr r, w') ->
  success r = true /\
  model_id r = uuid4 X (uuid_count w) /\
  formats r = select_formats fmt /\
  uuid_count w' = S (uuid_count w) /\
  exists rf,
    (rf = ∅ \/
     ("gaussian" ∈ select_formats fmt /\
      rf = <["preview_video" := video_path (model_id r)]>
             (<["ply" := ply_path (model_id r)]> ∅))) /\
    (files r = rf \/
     ("mesh" ∈ select_formats fmt /\
      files r = <["glb" := glb_path (model_id r)]> rf)).
Proof.
  rewrite generate_3d_model_run.
  destruct (Image_open X p w).1 as [e|img]; [done|]. cbn zeta.
  destruct (trellis_pipeline w); [|done].
  destruct (pipeline_run _ _ _ _) as [e|outputs]; [done|].
  destruct (save_gaussian _ _ _ _ _ _) as [[e|rf] w3] eqn:Eg; [done|].
  destruct (save_mesh _ _ _ _ _ _) as [[e|rf'] w4] eqn:Em; [done|].
  intros [= <- <-]. cbn [success model_id formats files].
  split; [done|]. split; [done|]. split; [done|]. split.
  - pose proof (save_gaussian_uuid_count X outputs (select_formats fmt)
                  (uuid4 X (uuid_count w)) ∅ (after_run X img fmt w)) as H1.
    pose proof (save_mesh_uuid_count X outputs (select_formats fmt)
                  (uuid4 X (uuid_count w)) rf w3) as H2.
    rewrite Eg in H1. rewrite Em in H2. cbn [snd] in *. by rewrite H2, H1.
  - exists rf. split.
    + by apply save_gaussian_result in Eg.
    + by apply save_mesh_result in Em.
Qed.

Lemma generate_3d_model_only_calls X p fmt w :
  only_calls
    (fun c => exists img,
       c = TrellisRun img 1 (select_formats fmt) 12 (75 # 10) 12 3)
    w (generate_3d_model X p fmt w).2.
Proof.
  set (P := fun c => _).
  pose proof (only_calls_frame P) as HF.
  assert (preserves (only_calls P) (generate_3d_model X p fmt)) as H;
    [|apply H].
  unfold generate_3d_model.
  repeat first
    [ preserves_step
    | apply (preserves_Image_open _ any P)
    | apply (preserves_print _ any P)
    | apply (preserves_uuid4_str _ any P)
    | apply (preserves_trellis_run _ any P); by eexists
    | apply (preserves_save_gaussian _ P)
    | apply (preserves_save_mesh _ P) ].
Qed.

(** The model calls are left alone. *)
Lemma same_calls_frame :
  Frame (fun w w' => model_calls w' = model_calls w) any (fun _ => False).
Proof.
  split; try (intros; cbn; done).
  intros w1 w2 w3 H1 H2. by rewrite H2.
Qed.

(** What the post-processing adds to the file mapping. *)
Lemma save_gaussian_mapping X outputs formats uid rf w rf' w' :
  save_gaussian X outputs formats uid rf w = (inr rf', w') ->
  rf' =
    if bool_decide ("gaussian" ∈ formats) && get_truthy outputs "gaussian"
    then <["preview_video" := video_path uid]> (<["ply" := ply_path uid]> rf)
    else rf.
Proof.
  unfold save_gaussian.
  destruct (bool_decide ("gaussian" ∈ formats) && get_truthy outputs "gaussian");
    [|by intros [= <- _]].
  unfold bind, lift_result, ret.
  destruct (getitem0 outputs "gaussian") as [e|g]; [done|].
  destruct (ply_bytes X g) as [e|ply]; [done|].
  destruct (write_file _ ply w) as [[e|[]] w1]; [done|].
  destruct (render_video X g) as [e|video]; [done|].
  destruct (mimsave_bytes X video 15) as [e|mp4]; [done|].
  destruct (write_file _ mp4 w1) as [[e|[]] w2]; [done|].
  by intros [= <- _].
Qed.

Lemma save_mesh_mapping X outputs formats uid rf w rf' w' :
  save_mesh X outputs formats uid rf w = (inr rf', w') ->
  rf' = rf \/
  (bool_decide ("mesh" ∈ formats) && get_truthy outputs "mesh" = true /\
   rf' = <["glb" := glb_path uid]> rf).
Proof.
  rewrite save_mesh_run.
  destruct (bool_decide ("mesh" ∈ formats) && get_truthy outputs "mesh");
    [|intros [= <- _]; by left].
  destruct (export_glb X outputs uid rf w) as [[e|rf''] w''] eqn:E.
  - intros [= <- _]. by left.
  - intros [= <- _]. right. split; [done|]. by eapply export_glb_result.
Qed.

(** When the image loads and the pipeline is there, exactly one call is
    logged, whatever the outcome: the run with the selected formats. *)
Lemma generate_3d_model_calls X p fmt w img :
  (Image_open X p w).1 = inr img ->
  trellis_pipeline w = true ->
  model_calls (generate_3d_model X p fmt w).2 =
    (model_calls w
     ++ [TrellisRun img 1 (select_formats fmt) 12 (75 # 10) 12 3])%list.
Proof.
  intros Himg Htp. rewrite generate_3d_model_run, Himg. cbn zeta. rewrite Htp.
  destruct (pipeline_run _ _ _ _) as [e|outputs]; [done|].
  pose proof same_calls_frame as HF.
  pose proof (preserves_save_gaussian _ _ X outputs (select_formats fmt)
                (uuid4 X (uuid_count w)) ∅ (after_run X img fmt w)) as Hg.
  destruct (save_gaussian _ _ _ _ _ _) as [[e|rf] w3]; [exact Hg|].
  pose proof (preserves_save_mesh _ _ X outputs (select_formats fmt)
                (uuid4 X (uuid_count w)) rf w3) as Hm.
  cbn [snd] in *.
  destruct (save_mesh _ _ _ _ _ _) as [[e|rf'] w4]; cbn [snd] in *;
    by rewrite Hm, Hg.
Qed.

(** C3. [output_format = "all"] selects the formats gaussian,
    radiance_field and mesh, any other value selects that value alone.  The
    selected formats are the ones the pipeline is run with, in the one call
    that every reconstruction makes once its image is loaded, and the ones
    the result reports; of the representations the pipeline returns for
    them, the gaussian one gives the PLY file and the preview video and the
    mesh one, at most, the GLB file.  When a single format is requested,
    whatever the pipeline returns and whatever the outcome, the only files
    written are the PLY file and the preview video when that format is
    [gaussian], the GLB file when it is [mesh], and the returned mapping
    has no key of another format. *)
Theorem output_format_selects_formats (X : Externals) :
  select_formats "all" = ["gaussian"; "radiance_field"; "mesh"] /\
  (forall fmt, fmt <> "all" -> select_formats fmt = [fmt]) /\
  (forall p fmt w,
     only_calls
       (fun c => exists img,
          c = TrellisRun img 1 (select_formats fmt) 12 (75 # 10) 12 3)
       w (generate_3d_model X p fmt w).2) /\
  (forall p fmt w img,
     (Image_open X p w).1 = inr img ->
     trellis_pipeline w = true ->
     model_calls (generate_3d_model X p fmt w).2 =
       (model_calls w
        ++ [TrellisRun img 1 (select_formats fmt) 12 (75 # 10) 12 3])%list) /\
  (forall p fmt w r,
     (generate_3d_model X p fmt w).1 = inr r ->
     formats r = select_formats fmt /\
     exists img outputs,
       (Image_open X p w).1 = inr img /\
       pipeline_run X (length (model_calls w)) img (select_formats fmt)
         = inr outputs /\
       files r !! "ply" =
         (if bool_decide ("gaussian" ∈ select_formats fmt)
             && get_truthy outputs "gaussian"
          then Some (ply_path (model_id r)) else None) /\
       files r !! "preview_video" =
         (if bool_decide ("gaussian" ∈ select_formats fmt)
             && get_truthy outputs "gaussian"
          then Some (video_path (model_id r)) else None) /\
       (files r !! "glb" = None \/
        (bool_decide ("mesh" ∈ select_formats fmt)
           && get_truthy outputs "mesh" = true /\
         files r !! "glb" = Some (glb_path (model_id r))))) /\
  (forall p fmt w,
     fmt <> "all" ->
     only_writes
       (fun q =>
          (fmt = "gaussian" /\
           (q = ply_path (uuid4 X (uuid_count w)) \/
            q = video_path (uuid4 X (uuid_count w)))) \/
          (fmt = "mesh" /\ q = glb_path (uuid4 X (uuid_count w))))
       w (generate_3d_model X p fmt w).2 /\
     (forall r,
        (generate_3d_model X p fmt w).1 = inr r ->
        formats r = [fmt] /\
        (forall k, is_Some (files r !! k) ->
           (fmt = "gaussian" /\ (k = "ply" \/ k = "preview_video")) \/
           (fmt = "mesh" /\ k = "glb")))).
Proof.
  assert (forall fmt, fmt <> "all" -> select_formats fmt = [fmt]) as Hsingle.
  { intros fmt Hne. unfold select_formats.
    by destruct (String.eqb_spec fmt "all"). }
  split; [reflexivity|]. split; [exact Hsingle|].
  split; [apply generate_3d_model_only_calls|].
  split; [apply generate_3d_model_calls|].
  split.
  { intros p fmt w r. rewrite generate_3d_model_run.
    destruct (Image_open X p w).1 as [e|img]; [done|]. cbn zeta.
    destruct (trellis_pipeline w); [|done].
    destruct (pipeline_run _ _ _ _) as [e|outputs] eqn:Hrun; [done|].
    destruct (save_gaussian _ _ _ _ _ _) as [[e|rf] w3] eqn:Eg; [done|].
    destruct (save_mesh _ _ _ _ _ _) as [[e|rf'] w4] eqn:Em; [done|].
    cbn [fst]. intros [= <-]. cbn [files formats model_id].
    split; [done|]. exists img, outputs.
    apply save_gaussian_mapping in Eg. apply save_mesh_mapping in Em.
    split; [done|]. split; [done|].
    destruct (bool_decide ("gaussian" ∈ select_formats fmt)
              && get_truthy outputs "gaussian");
      destruct Em as [->|[Hm ->]]; subst rf; rewrite ?Hm.
    all: split; [by simplify_map_eq|].
    all: split; [by simplify_map_eq|].
    all: first [by left; simplify_map_eq | by right; simplify_map_eq]. }
  intros p fmt w Hne. split.
  - eapply only_writes_mono; [|apply generate_3d_model_only_writes].
    intros q. cbn beta. rewrite (Hsingle fmt Hne), !list_elem_of_singleton.
    intros [[<- Hq]|[<- Hq]]; [by left | by right].
  - intros r Hr.
    destruct (generate_3d_model X p fmt w) as [res w'] eqn:E.
    cbn [fst] in Hr. subst res.
    apply generate_3d_model_files in E
      as (_ & _ & Hf & _ & rf & Hg & Hm).
    rewrite (Hsingle fmt Hne) in *. split; [exact Hf|].
    rewrite !list_elem_of_singleton in *.
    intros k [v Hk].
    destruct Hm as [Hm|[Hmesh Hm]]; rewrite Hm in Hk;
      (destruct Hg as [->|[Hgauss ->]]).
    + by rewrite lookup_empty in Hk.
    + left. split; [done|].
      apply lookup_insert_Some in Hk as [[<- _]|[_ Hk]]; [by right|].
      apply lookup_insert_Some in Hk as [[<- _]|[_ Hk]]; [by left|].
      by rewrite lookup_empty in Hk.
    + right. split; [done|].
      apply lookup_insert_Some in Hk as [[<- _]|[_ Hk]]; [done|].
      by rewrite lookup_empty in Hk.
    + congruence.
Qed.

(** C10. [output_format] is not validated: for a single format other
    than [gaussian] and [mesh] (so for [radiance_field] and for any
    unknown string), the reconstruction succeeds as soon as the image loads
    and the pipeline returns, the result has [success = true] and an empty
    file mapping, and the file system is left as it was on every outcome;
    for every format at all, the only files a reconstruction writes are
    the PLY, preview and GLB files, none of them for a radiance field. *)
Theorem unvalidated_format_gives_empty_mapping
    (X : Externals) (p fmt : string) (w : World) :
  fmt <> "all" -> fmt <> "gaussian" -> fmt <> "mesh" ->
  (forall img outputs,
     (Image_open X p w).1 = inr img ->
     trellis_pipeline w = true ->
     pipeline_run X (length (model_calls w)) img [fmt] = inr outputs ->
     generate_3d_model X p fmt w =
       (inr {| success := true; model_id := uuid4 X (uuid_count w);
               files := ∅; formats := [fmt] |},
        after_run X img fmt w)) /\
  (forall r,
     (generate_3d_model X p fmt w).1 = inr r ->
     success r = true /\ files r = ∅ /\ formats r = [fmt]) /\
  fs (generate_3d_model X p fmt w).2 = fs w /\
  (forall p' fmt' w',
     only_writes
       (fun q => q = ply_path (uuid4 X (uuid_count w')) \/
                 q = video_path (uuid4 X (uuid_count w')) \/
                 q = glb_path (uuid4 X (uuid_count w')))
       w' (generate_3d_model X p' fmt' w').2).
Proof.
  intros Hall Hg Hm.
  assert (select_formats fmt = [fmt]) as Hsel.
  { unfold select_formats. by destruct (String.eqb_spec fmt "all"). }
  assert ("gaussian" ∉ [fmt]) as Hng.
  { rewrite list_elem_of_singleton. congruence. }
  assert ("mesh" ∉ [fmt]) as Hnm.
  { rewrite list_elem_of_singleton. congruence. }
  assert (generate_3d_model X p fmt w =
    match (Image_open X p w).1 with
    | inl e => (inl (model_error X e), w)
    | inr img =>
        if trellis_pipeline w then
          match pipeline_run X (length (model_calls w)) img [fmt] with
          | inl e =>
              (inl (model_error X e),
               log_call (TrellisRun img 1 [fmt] 12 (75 # 10) 12 3)
                 (log_print ("Generating 3D model with formats: "
                             +:+ str_list X [fmt]) w))
          | inr _ =>
              (inr {| success := true; model_id := uuid4 X (uuid_count w);
                      files := ∅; formats := [fmt] |},
               after_run X img fmt w)
          end
        else
          (inl (model_error X
                  (AttributeError "'NoneType' object has no attribute 'run'")),
           log_print ("Generating 3D model with formats: "
                      +:+ str_list X [fmt]) w)
    end) as Hrun.
  { rewrite generate_3d_model_run.
    destruct (Image_open X p w).1 as [e|img]; [done|]. cbn zeta.
    unfold after_run. rewrite Hsel.
    destruct (trellis_pipeline w); [|done].
    destruct (pipeline_run _ _ _ _) as [e|outputs]; [done|].
    rewrite save_gaussian_skip by done. unfold ret at 1.
    by rewrite save_mesh_skip. }
  split; [|split; [|split]].
  - intros img outputs Himg Htp Hp. by rewrite Hrun, Himg, Htp, Hp.
  - intros r. rewrite Hrun.
    destruct (Image_open X p w).1 as [e|img]; [done|].
    destruct (trellis_pipeline w); [|done].
    destruct (pipeline_run _ _ _ _); [done|]. by intros [= <-].
  - rewrite Hrun.
    destruct (Image_open X p w).1 as [e|img]; [done|].
    destruct (trellis_pipeline w); [|done].
    by destruct (pipeline_run _ _ _ _).
  - intros p' fmt' w'.
    eapply only_writes_mono; [|apply generate_3d_model_only_writes].
    intros q. cbn beta. tauto.
Qed.

Lemma unvalidated_format_witness :
  generate_3d_model X0 "temp/photo.png" "radiance_field" world0 =
    (inr {| success := true; model_id := "uuid-0";
            files := ∅; formats := ["radiance_field"] |},
     after_run X0 (PILImage one_byte) "radiance_field" world0).
Proof.
  refine (proj1 (unvalidated_format_gives_empty_mapping X0
            "temp/photo.png" "radiance_field" world0 _ _ _)
            (PILImage one_byte)
            (list_to_map [("radiance_field", [Repr3DObject []])])
            _ _ _); done.
Defined.

(** A failed export leaves the world as it was: nothing is written. *)
Lemma export_glb_failure_state X outputs uid rf w e w' :
  export_glb X outputs uid rf w = (inl e, w') -> w' = w.
Proof.
  unfold export_glb, bind, lift_result, ret, write_file.
  destruct (get_truthy outputs "gaussian");
    [destruct (getitem0 outputs "gaussian") as [e'|g]; [by intros [= _ <-]|]|];
    (destruct (getitem0 outputs "mesh") as [e'|m]; [by intros [= _ <-]|]);
    (destruct (to_glb X _ m) as [e'|glb]; [by intros [= _ <-]|]);
    (destruct (glb_bytes X glb) as [e'|b]; [by intros [= _ <-]|]);
    (destruct (fs w !! _) as [[t c|t]|]; [done|by intros [= _ <-]|done]).
Qed.

(** C4. When the image loads, the pipeline returns, the gaussian
    post-processing does not raise and the mesh export raises [e], the
    reconstruction still succeeds: [success] is true, the file mapping is
    exactly what the gaussian post-processing produced (empty, or the PLY
    file and the preview video), with no [glb] entry; and the export
    leaves no other trace than the printed warning. *)
Theorem glb_export_failure_is_not_fatal
    (X : Externals) (p fmt : string) (w : World)
    (img : Image) (outputs : gmap string (list Repr3D))
    (rf : gmap string string) (w3 : World) (e : Exn) (w4 : World) :
  let uid := uuid4 X (uuid_count w) in
  (Image_open X p w).1 = inr img ->
  trellis_pipeline w = true ->
  pipeline_run X (length (model_calls w)) img (select_formats fmt) = inr outputs ->
  save_gaussian X outputs (select_formats fmt) uid ∅ (after_run X img fmt w)
    = (inr rf, w3) ->
  "mesh" ∈ select_formats fmt ->
  get_truthy outputs "mesh" = true ->
  export_glb X outputs uid rf w3 = (inl e, w4) ->
  generate_3d_model X p fmt w =
    (inr {| success := true; model_id := uid; files := rf;
            formats := select_formats fmt |},
     log_print ("Warning: Could not generate GLB: " +:+ py_str X e) w3) /\
  rf !! "glb" = None /\
  (rf = ∅ \/
   rf = <["preview_video" := video_path uid]> (<["ply" := ply_path uid]> ∅)).
Proof.
  intros uid Himg Htp Hrun Hg Hmesh Hout Hglb.
  assert (w4 = w3) as -> by (by eapply export_glb_failure_state).
  assert (rf = ∅ \/
          rf = <["preview_video" := video_path uid]>
                 (<["ply" := ply_path uid]> ∅)) as Hrf.
  { apply save_gaussian_result in Hg as [->|[_ ->]]; [by left | by right]. }
  split; [|split; [|exact Hrf]].
  - rewrite generate_3d_model_run, Himg. cbn zeta. rewrite Htp, Hrun.
    fold uid. rewrite Hg, save_mesh_run.
    rewrite bool_decide_eq_true_2 by done. rewrite Hout. cbn [andb].
    by rewrite Hglb.
  - destruct Hrf as [->| ->]; [apply lookup_empty|].
    rewrite !lookup_insert_ne by done. apply lookup_empty.
Qed.

Lemma glb_export_failure_witness :
  (generate_3d_model X_glb_fails "temp/photo.png" "all" world0).1 =
    inr {| success := true; model_id := "uuid-0";
           files := <["preview_video" := "outputs/preview_uuid-0.mp4"]>
                      (<["ply" := "outputs/model_uuid-0.ply"]> ∅);
           formats := ["gaussian"; "radiance_field"; "mesh"] |}.
Proof.
  pose (img := PILImage one_byte).
  pose (w3 := (save_gaussian X_glb_fails
                 (list_to_map ((fun f => (f, [Repr3DObject []]))
                                 <$> select_formats "all"))
                 (select_formats "all") "uuid-0" ∅
                 (after_run X_glb_fails img "all" world0)).2).
  refine (f_equal fst (proj1
    (glb_export_failure_is_not_fatal X_glb_fails "temp/photo.png" "all" world0
       img
       (list_to_map ((fun f => (f, [Repr3DObject []])) <$> select_formats "all"))
       (<["preview_video" := "outputs/preview_uuid-0.mp4"]>
          (<["ply" := "outputs/model_uuid-0.ply"]> ∅))
       w3 (LibraryError "mesh simplification failed") w3
       _ _ _ _ _ _ _))).
  - vm_compute; reflexivity.
  - reflexivity.
  - reflexivity.
  - vm_compute; reflexivity.
  - vm_compute. right. right. left.
  - vm_compute; reflexivity.
  - vm_compute; reflexivity.
Defined.

(** ** The Image Synthesizer *)

(** The loop over the parts, in terms of the first inline payload. *)
Lemma save_first_image_run X parts w :
  save_first_image X parts w =
    match first_inline parts with
    | None => (inr None, w)
    | Some blob =>
        match image_decode X (data blob) with
        | inl e => (inl e, w)
        | inr generated =>
            let path := toy_image_path (uuid4 X (uuid_count w)) in
            let w1 := set_uuid_count (S (uuid_count w)) w in
            match image_encode X generated with
            | inl e => (inl e, w1)
            | inr png =>
                match fs w !! path with
                | Some (Directory _) => (inl (IsADirectoryError path), w1)
                | _ =>
                    (inr (Some path),
                     set_fs (<[path := RegularFile (clock w) png]> (fs w)) w1)
                end
            end
        end
    end.
Proof.
  induction parts as [|part rest IH]; cbn [save_first_image first_inline];
    [done|].
  destruct (inline_data part) as [blob|]; [|exact IH].
  unfold bind, lift_result, uuid4_str, Image_save, write_file, ret, bind,
    lift_result.
  destruct (image_decode X (data blob)) as [e|generated]; [done|].
  cbn zeta.
  destruct (image_encode X generated) as [e|png]; [done|].
  cbn [fs set_uuid_count clock]. unfold toy_image_path.
  by destruct (fs w !! _) as [[t c|t]|].
Qed.

(** [generate_toy_image] by cases on what its steps give. *)
Lemma generate_toy_image_run X u c s p w :
  generate_toy_image X u c s p w =
    match (Image_open X p w).1 with
    | inl e => (inl (image_error X e), w)
    | inr img =>
        let prompt := final_prompt u c s in
        if genai_client w then
          let w2 := after_image_call X img prompt w in
          match generate_content X (length (model_calls w)) image_model prompt
                  img (Some ["TEXT"; "IMAGE"]) with
          | inl e => (inl (image_error X e), w2)
          | inr response =>
              match candidates0_parts response with
              | inl e => (inl (image_error X e), w2)
              | inr parts =>
                  match save_first_image X parts w2 with
                  | (inl e, w3) => (inl (image_error X e), w3)
                  | (inr None, w3) =>
                      (inl (image_error X
                              (HTTPException 500 "Model did not return an image")),
                       w3)
                  | (inr (Some path), w3) => (inr path, w3)
                  end
              end
          end
        else
          (inl (image_error X
                  (AttributeError "'NoneType' object has no attribute 'models'")),
           log_print ("Enriched prompt: " +:+ prompt) w)
    end.
Proof.
  unfold generate_toy_image, try_except. unfold bind at 1.
  pose proof (Image_open_state X p w) as Hw.
  destruct (Image_open X p w) as [[e|img] w']; cbn [fst snd] in *; subst w';
    [done|].
  unfold bind at 1, print at 1. unfold bind at 1, genai_generate_content at 1.
  cbn [genai_client log_print model_calls]. cbn zeta.
  destruct (genai_client w); [|done].
  fold image_model. fold (after_image_call X img (final_prompt u c s) w).
  destruct (generate_content _ _ _ _ _ _) as [e|response]; [done|].
  unfold bind at 1, lift_result at 1.
  destruct (candidates0_parts response) as [e|parts]; [done|].
  unfold bind at 1.
  destruct (save_first_image X parts _) as [[e|[path|]] w3]; done.
Qed.

(** Every failure of the synthesizer is a status 500 whose detail starts
    with the same prefix. *)
Lemma generate_toy_image_errors X u c s p w e w' :
  generate_toy_image X u c s p w = (inl e, w') ->
  exists cause, e = image_error X cause.
Proof.
  unfold generate_toy_image, try_except.
  destruct (bind _ _ w) as [[e0|a] w0]; [|done].
  intros [= <- _]. by eexists.
Qed.

(** C2 (amended). Every failure of the Image Synthesizer, whatever
    its cause, is a server error (status 500).  When the person image loads,
    the model call returns a response and its first candidate has parts: if
    no part carries inline data, the call fails with such a server error
    and persists nothing; if some part does, and the first such payload
    decodes and is encoded and written without error, then exactly that
    payload, decoded and saved as PNG, is persisted under a freshly drawn
    uuid as [outputs/generated_toy_<uuid>.png], and this path is
    returned. *)
Theorem image_synthesizer_outcome
    (X : Externals) (u c s p : string) (w : World) :
  let path := toy_image_path (uuid4 X (uuid_count w)) in
  (forall e w',
     generate_toy_image X u c s p w = (inl e, w') ->
     exists detail, e = HTTPException 500 detail) /\
  (forall img response parts,
     (Image_open X p w).1 = inr img ->
     genai_client w = true ->
     generate_content X (length (model_calls w)) image_model
       (final_prompt u c s) img (Some ["TEXT"; "IMAGE"]) = inr response ->
     candidates0_parts response = inr parts ->
     let w2 := after_image_call X img (final_prompt u c s) w in
     (first_inline parts = None ->
      exists detail,
        generate_toy_image X u c s p w = (inl (HTTPException 500 detail), w2) /\
        fs w2 = fs w /\ uuid_count w2 = uuid_count w) /\
     (forall blob generated png,
        first_inline parts = Some blob ->
        image_decode X (data blob) = inr generated ->
        image_encode X generated = inr png ->
        (forall t, fs w !! path <> Some (Directory t)) ->
        generate_toy_image X u c s p w =
          (inr path,
           set_fs (<[path := RegularFile (clock w) png]> (fs w))
             (set_uuid_count (S (uuid_count w)) w2)))).
Proof.
  intros path. split.
  - intros e w' H. apply generate_toy_image_errors in H as [cause ->].
    by eexists.
  - intros img response parts Himg Hclient Hcall Hparts w2. split.
    + intros Hnone. eexists.
      rewrite generate_toy_image_run, Himg. cbn zeta.
      rewrite Hclient, Hcall, Hparts, save_first_image_run, Hnone. done.
    + intros blob generated png Hfirst Hdec Henc Hdir.
      rewrite generate_toy_image_run, Himg. cbn zeta.
      rewrite Hclient, Hcall, Hparts, save_first_image_run, Hfirst, Hdec.
      cbn zeta. rewrite Henc. fold w2.
      change (fs w2) with (fs w). change (uuid_count w2) with (uuid_count w).
      change (clock w2) with (clock w). fold path.
      destruct (fs w !! path) as [[t d|t]|] eqn:E; [done| |done].
      by destruct (Hdir t).
Qed.

Lemma image_synthesizer_witness :
  generate_toy_image X0 "a toy" "short hair" "chibi" "temp/photo.png" world0 =
    (inr "outputs/generated_toy_uuid-0.png",
     set_fs (<["outputs/generated_toy_uuid-0.png" := RegularFile 0 one_byte]>
               (fs world0))
       (set_uuid_count 1
          (after_image_call X0 (PILImage one_byte)
             (final_prompt "a toy" "short hair" "chibi") world0))).
Proof.
  refine (proj2 (proj2 (image_synthesizer_outcome X0
            "a toy" "short hair" "chibi" "temp/photo.png" world0)
            (PILImage one_byte) (answer_with one_byte)
            [ {| part_text := Some "Here is your toy."; inline_data := None |};
              {| part_text := None;
                 inline_data :=
                   Some {| mime_type := "image/png"; data := one_byte |} |} ]
            _ _ _ _)
            {| mime_type := "image/png"; data := one_byte |}
            (PILImage one_byte) one_byte _ _ _ _);
    try reflexivity.
  intros t. vm_compute. done.
Defined.

(** C2, as stated, fails.  (1) The response carries an inline payload,
    but PIL cannot decode it: a server error, and nothing is persisted.
    (2) The response has no candidate: no payload, yet the detail is that
    of the [IndexError].  (3) The first candidate has no inline part: the
    detail is the wrapped message, not the bare one. *)
Lemma image_synthesizer_counterexample :
  let run X := generate_toy_image X "a toy" "short hair" "chibi"
                 "temp/photo.png" world0 in
  (response_payload (answer_with [])
     = Some {| mime_type := "image/png"; data := [] |} /\
   (run X_undecodable).1 =
     inl (HTTPException 500
            "Error generating toy image: cannot identify image file") /\
   fs (run X_undecodable).2 = fs world0 /\
   ~ synthesizer_as_stated X_undecodable "a toy" "short hair" "chibi"
       "temp/photo.png" world0) /\
  (response_payload {| text := None; candidates := Some [] |} = None /\
   (run X_no_candidate).1 =
     inl (HTTPException 500
            "Error generating toy image: list index out of range") /\
   ~ synthesizer_as_stated X_no_candidate "a toy" "short hair" "chibi"
       "temp/photo.png" world0) /\
  (run X_text_only).1 =
    inl (HTTPException 500
           "Error generating toy image: 500: Model did not return an image").
Proof.
  cbn zeta. repeat split; try (vm_compute; reflexivity).
  - intros H.
    destruct (H (PILImage one_byte) (answer_with []))
      as [_ Hsome]; try (vm_compute; reflexivity).
    destruct (Hsome {| mime_type := "image/png"; data := [] |})
      as (generated & png & Hdec & _); [vm_compute; reflexivity|].
    vm_compute in Hdec. discriminate Hdec.
  - intros H.
    destruct (H (PILImage one_byte) {| text := None; candidates := Some [] |})
      as [[_ Hnone] _]; try (vm_compute; reflexivity).
    destruct Hnone as (d & Hd & [->| ->]); [vm_compute; reflexivity|..];
      vm_compute in Hd; discriminate Hd.
Qed.

(** ** The Prompt Composer *)

Lemma append_assoc (a b c : string) : (a +:+ b) +:+ c = a +:+ (b +:+ c).
Proof.
  induction a as [|x a IH]; [done|].
  change (String x ((a +:+ b) +:+ c) = String x (a +:+ b +:+ c)).
  by rewrite IH.
Qed.

Lemma final_prompt_template u c s : final_prompt u c s = prompt_template u c s.
Proof.
  unfold final_prompt, prompt_template.
  rewrite !append_assoc. reflexivity.
Qed.

(** C7. Prompt composition is a function of its three inputs alone: the
    composed string is the fixed template around the user prompt and the
    two descriptions, and, whatever the world and the external services,
    the only model call the Image Synthesizer makes carries exactly this
    string; the only thing printed with it is the line showing it. *)
Theorem prompt_composition_is_pure :
  (forall u c s, final_prompt u c s = prompt_template u c s) /\
  (forall u c s u' c' s',
     u = u' -> c = c' -> s = s' -> final_prompt u c s = final_prompt u' c' s') /\
  (forall X u c s p w,
     only_calls
       (fun call => exists img,
          call = GenerateContent image_model (prompt_template u c s) img
                   (Some ["TEXT"; "IMAGE"]))
       w (generate_toy_image X u c s p w).2) /\
  (forall X u c s p w,
     stdout (generate_toy_image X u c s p w).2 = stdout w \/
     stdout (generate_toy_image X u c s p w).2 =
       (stdout w ++ ["Enriched prompt: " +:+ prompt_template u c s])%list).
Proof.
  split; [exact final_prompt_template|].
  split; [by intros u c s u' c' s' -> -> ->|].
  split.
  - intros X u c s p w. rewrite <- final_prompt_template.
    set (P := fun call => _).
    pose proof (only_calls_frame P) as HF.
    assert (preserves (only_calls P) (generate_toy_image X u c s p)) as H;
      [|apply H].
    unfold generate_toy_image.
    repeat first
      [ preserves_step
      | apply (preserves_Image_open _ any P)
      | apply (preserves_print _ any P)
      | apply (preserves_genai_generate_content _ any P); by eexists
      | apply (preserves_save_first_image _ P) ].
  - intros X u c s p w. rewrite <- final_prompt_template.
    rewrite generate_toy_image_run.
    destruct (Image_open X p w).1 as [e|img]; [by left|]. cbn zeta.
    destruct (genai_client w); [|by right].
    destruct (generate_content _ _ _ _ _ _) as [e|response]; [by right|].
    destruct (candidates0_parts response) as [e|parts]; [by right|].
    rewrite save_first_image_run.
    destruct (first_inline parts) as [blob|]; [|by right].
    destruct (image_decode X (data blob)) as [e|generated]; [by right|].
    cbn zeta.
    destruct (image_encode X generated) as [e|png]; [by right|].
    destruct (fs _ !! _) as [[t d|t]|]; by right.
Qed.

(** ** Identifiers and persisted assets *)

Lemma bind_inr_inv {S A B} (m : M S A) (k : A -> M S B) s b s' :
  bind m k s = (inr b, s') ->
  exists a s1, m s = (inr a, s1) /\ k a s1 = (inr b, s').
Proof.
  unfold bind. destruct (m s) as [[e|a] s1]; [done|]. eauto.
Qed.

(** From [H : m s = (r, s')] and a lemma that [m] keeps [draws_grow],
    the inequality between the draws of [s] and [s']. *)
Lemma draws_grow_of_run {A} (m : M World A) s r s' :
  preserves draws_grow m -> m s = (r, s') ->
  (uuid_count s <= uuid_count s')%nat.
Proof. intros Hm H. specialize (Hm s). by rewrite H in Hm. Qed.

Lemma generate_toy_image_path X u c s p w path w' :
  generate_toy_image X u c s p w = (inr path, w') ->
  path = toy_image_path (uuid4 X (uuid_count w)) /\
  uuid_count w' = S (uuid_count w).
Proof.
  rewrite generate_toy_image_run.
  destruct (Image_open X p w).1 as [e|img]; [done|]. cbn zeta.
  destruct (genai_client w); [|done].
  destruct (generate_content _ _ _ _ _ _) as [e|response]; [done|].
  destruct (candidates0_parts response) as [e|parts]; [done|].
  rewrite save_first_image_run.
  destruct (first_inline parts) as [blob|]; [|done].
  destruct (image_decode X (data blob)) as [e|generated]; [done|].
  cbn zeta.
  destruct (image_encode X generated) as [e|png]; [done|].
  destruct (fs _ !! _) as [[t d|t]|]; [|done|]; by intros [= <- <-].
Qed.

(** The identifiers a successful full pipeline returns are draws made
    during the request, the image's before the model's. *)
Lemma toy_pipeline_ids X p1 p2 pi sg prompt fmt w res w' :
  toy_pipeline X p1 p2 pi sg prompt fmt w = (inr res, w') ->
  exists k1 k2 ok msg pd sd mr,
    res = ToyResponse ok msg pd sd (toy_image_path (uuid4 X k1)) mr /\
    model_id mr = uuid4 X k2 /\
    (uuid_count w <= k1 < k2)%nat /\ uuid_count w' = S k2.
Proof.
  unfold toy_pipeline. intros H.
  apply bind_inr_inv in H as (? & s1 & H1 & H).
  apply bind_inr_inv in H as (? & s2 & H2 & H).
  apply bind_inr_inv in H as (? & s3 & H3 & H).
  apply bind_inr_inv in H as (pd & s4 & H4 & H).
  apply bind_inr_inv in H as (? & s5 & H5 & H).
  apply bind_inr_inv in H as (sd & s6 & H6 & H).
  apply bind_inr_inv in H as (? & s7 & H7 & H).
  apply bind_inr_inv in H as (path & s8 & H8 & H).
  apply bind_inr_inv in H as (? & s9 & H9 & H).
  apply bind_inr_inv in H as (mr & s10 & H10 & H).
  injection H as <- <-.
  pose proof draws_grow_frame as HF.
  apply (draws_grow_of_run _ _ _ _ (preserves_save_upload _ any any _ _ I)) in H1.
  apply (draws_grow_of_run _ _ _ _ (preserves_save_upload _ any any _ _ I)) in H2.
  apply (draws_grow_of_run _ _ _ _ (preserves_print _ any any _)) in H3.
  apply (draws_grow_of_run _ _ _ _ (preserves_analyze_person_image _ _ _)) in H4.
  apply (draws_grow_of_run _ _ _ _ (preserves_print _ any any _)) in H5.
  apply (draws_grow_of_run _ _ _ _ (preserves_analyze_toy_style _ _ _)) in H6.
  apply (draws_grow_of_run _ _ _ _ (preserves_print _ any any _)) in H7.
  apply generate_toy_image_path in H8 as [-> H8].
  apply (draws_grow_of_run _ _ _ _ (preserves_print _ any any _)) in H9.
  apply generate_3d_model_files in H10 as (_ & Hid & _ & Hcount & _).
  eexists (uuid_count s7), (uuid_count s9), _, _, _, _, _.
  split; [reflexivity|]. split; [done|]. split; [lia|done].
Qed.

Lemma image_only_pipeline_ids X p1 p2 pi sg prompt w res w' :
  image_only_pipeline X p1 p2 pi sg prompt w = (inr res, w') ->
  exists k ok pd sd,
    res = ImageOnlyResponse ok (toy_image_path (uuid4 X k)) pd sd /\
    (uuid_count w <= k)%nat /\ uuid_count w' = S k.
Proof.
  unfold image_only_pipeline. intros H.
  apply bind_inr_inv in H as (? & s1 & H1 & H).
  apply bind_inr_inv in H as (? & s2 & H2 & H).
  apply bind_inr_inv in H as (pd & s3 & H3 & H).
  apply bind_inr_inv in H as (sd & s4 & H4 & H).
  apply bind_inr_inv in H as (path & s5 & H5 & H).
  injection H as <- <-.
  pose proof draws_grow_frame as HF.
  apply (draws_grow_of_run _ _ _ _ (preserves_save_upload _ any any _ _ I)) in H1.
  apply (draws_grow_of_run _ _ _ _ (preserves_save_upload _ any any _ _ I)) in H2.
  apply (draws_grow_of_run _ _ _ _ (preserves_analyze_person_image _ _ _)) in H3.
  apply (draws_grow_of_run _ _ _ _ (preserves_analyze_toy_style _ _ _)) in H4.
  apply generate_toy_image_path in H5 as [-> H5].
  eexists (uuid_count s4), _, _, _.
  split; [reflexivity|]. split; [lia|done].
Qed.

Lemma image_to_3d_pipeline_ids X p i fmt w res w' :
  image_to_3d_pipeline X p i fmt w = (inr res, w') ->
  exists k mr,
    res = ModelResponse mr /\ model_id mr = uuid4 X k /\
    (uuid_count w <= k)%nat /\ uuid_count w' = S k.
Proof.
  unfold image_to_3d_pipeline. intros H.
  apply bind_inr_inv in H as (? & s1 & H1 & H).
  apply bind_inr_inv in H as (mr & s2 & H2 & H).
  injection H as <- <-.
  pose proof draws_grow_frame as HF.
  apply (draws_grow_of_run _ _ _ _ (preserves_save_upload _ any any _ _ I)) in H1.
  apply generate_3d_model_files in H2 as (_ & Hid & _ & Hcount & _).
  eexists (uuid_count s1), _. split; [reflexivity|]. split; [done|].
  split; [lia|done].
Qed.

Lemma length_append (a b : string) :
  String.length (a +:+ b) = (String.length a + String.length b)%nat.
Proof.
  induction a as [|x a IH]; [done|].
  change (S (String.length (a +:+ b)) = S (String.length a + String.length b)).
  by rewrite IH.
Qed.

Lemma append_inj_r (s a b : string) : a +:+ s = b +:+ s -> a = b.
Proof.
  revert b. induction a as [|x a IH]; intros [|y b] H.
  - done.
  - apply (f_equal String.length) in H.
    rewrite !length_append in H. cbn [String.length] in H. lia.
  - apply (f_equal String.length) in H.
    rewrite !length_append in H. cbn [String.length] in H. lia.
  - change (String x (a +:+ s) = String y (b +:+ s)) in H.
    injection H as -> H. f_equal. by apply IH.
Qed.

Lemma toy_image_path_inj u1 u2 :
  toy_image_path u1 = toy_image_path u2 -> u1 = u2.
Proof.
  unfold toy_image_path, joinpath. intros H.
  do 3 apply String.app_inj in H. by apply append_inj_r in H.
Qed.

(** What a request handler returns was drawn while it ran. *)
Lemma handle_ids X r w :
  (uuid_count w <= uuid_count (handle X r w).2)%nat /\
  (model_ids (handle X r w).1 = [] \/
   exists k, (uuid_count w <= k < uuid_count (handle X r w).2)%nat /\
             model_ids (handle X r w).1 = [uuid4 X k]) /\
  (image_paths (handle X r w).1 = [] \/
   exists k, (uuid_count w <= k < uuid_count (handle X r w).2)%nat /\
             image_paths (handle X r w).1 = [toy_image_path (uuid4 X k)]).
Proof.
  destruct r as [| |pi sg prompt fmt|pi sg prompt|i fmt|f|]; cbn [handle].
  - cbn. auto.
  - cbn. auto.
  - rewrite generate_toy_endpoint_run.
    destruct (startswith_image pi) as [[]|[|]]; cbn; auto.
    destruct (startswith_image sg) as [[]|[|]]; cbn; auto.
    rewrite !remove_file_uuid_count.
    pose proof (preserves_toy_pipeline _ (Frame0 := draws_grow_frame)
      X (person_path X w) (style_path X w) pi sg prompt fmt
      (set_uuid_count (S (S (uuid_count w))) w)) as Hgrow.
    unfold draws_grow in Hgrow. cbn [uuid_count set_uuid_count] in Hgrow.
    destruct (toy_pipeline _ _ _ _ _ _ _ _) as [[e|res] w3] eqn:E;
      cbn [fst snd] in *.
    { split; [lia|]. destruct e; cbn; auto. }
    apply toy_pipeline_ids in E
      as (k1 & k2 & ok & msg & pd & sd & mr & -> & Hid & Hk & Hcount).
    cbn [uuid_count set_uuid_count] in Hk. cbn. rewrite Hid, Hcount.
    split; [lia|]. split; right; eexists; split; try reflexivity; lia.
  - rewrite generate_image_only_run. cbn zeta. cbn [fst snd].
    rewrite !remove_file_uuid_count.
    pose proof (preserves_image_only_pipeline _ (Frame0 := draws_grow_frame)
      X (person_path X w) (style_path X w) pi sg prompt
      (set_uuid_count (S (S (uuid_count w))) w)) as Hgrow.
    unfold draws_grow in Hgrow. cbn [uuid_count set_uuid_count] in Hgrow.
    destruct (image_only_pipeline _ _ _ _ _ _ _) as [[e|res] w3] eqn:E;
      cbn [fst snd] in *.
    { split; [lia|]. cbn; auto. }
    apply image_only_pipeline_ids in E
      as (k & ok & pd & sd & -> & Hk & Hcount).
    cbn [uuid_count set_uuid_count] in Hk. cbn. rewrite Hcount.
    split; [lia|]. split; [by left|].
    right; eexists; split; try reflexivity; lia.
  - rewrite image_to_3d_run. cbn zeta. cbn [fst snd].
    rewrite !remove_file_uuid_count.
    pose proof (preserves_image_to_3d_pipeline _ (Frame0 := draws_grow_frame)
      X (input_path X w) i fmt
      (set_uuid_count (S (uuid_count w)) w)) as Hgrow.
    unfold draws_grow in Hgrow. cbn [uuid_count set_uuid_count] in Hgrow.
    destruct (image_to_3d_pipeline _ _ _ _ _) as [[e|res] w3] eqn:E;
      cbn [fst snd] in *.
    { split; [lia|]. cbn; auto. }
    apply image_to_3d_pipeline_ids in E
      as (k & mr & -> & Hid & Hk & Hcount).
    cbn [uuid_count set_uuid_count] in Hk. cbn. rewrite Hid, Hcount.
    split; [lia|]. split; [|by left].
    right; eexists; split; try reflexivity; lia.
  - unfold download_file, bind, exists_. cbn.
    destruct (path_exists (fs w) f); cbn; auto.
  - rewrite cleanup_files_run. cbn. auto.
Qed.

(** Identifiers drawn in disjoint ranges of an injective source are
    distinct. *)
Section Ranges.

Context (X : Externals) (name : nat -> string)
  (ids : Exn + Response -> list string).
Hypothesis name_inj : forall i j, name i = name j -> i = j.
Hypothesis ids_drawn : forall r w,
  ids (handle X r w).1 = [] \/
  exists k, (uuid_count w <= k < uuid_count (handle X r w).2)%nat /\
            ids (handle X r w).1 = [name k].

Lemma serve_ids reqs : forall w,
  (uuid_count w <= uuid_count (serve X reqs w).2)%nat /\
  NoDup (flat_map ids (serve X reqs w).1) /\
  (forall id, id ∈ flat_map ids (serve X reqs w).1 ->
     exists k, (uuid_count w <= k < uuid_count (serve X reqs w).2)%nat /\
               id = name k).
Proof.
  induction reqs as [|[t r] reqs IH]; intros w; cbn [serve].
  - cbn. split; [lia|]. split; [constructor|]. by intros id ?%elem_of_nil.
  - pose proof (proj1 (handle_ids X r (set_clock t w))) as Hgrow.
    pose proof (ids_drawn r (set_clock t w)) as Hids.
    destruct (handle X r (set_clock t w)) as [res w1]. cbn [fst snd] in *.
    specialize (IH w1). destruct (serve X reqs w1) as [out w2].
    cbn [fst snd flat_map] in *. destruct IH as (Hgrow' & Hnd & Hrange).
    cbn [uuid_count set_clock] in *.
    split; [lia|].
    destruct Hids as [->|(k & Hk & ->)]; cbn [app].
    + split; [done|]. intros id Hid.
      destruct (Hrange id Hid) as (k & Hk & ->). exists k. split; [lia|done].
    + split.
      * apply NoDup_cons. split; [|done]. intros Hin.
        destruct (Hrange _ Hin) as (k' & Hk' & Heq).
        apply name_inj in Heq. lia.
      * intros id [->|Hid]%elem_of_cons.
        -- exists k. split; [lia|done].
        -- destruct (Hrange id Hid) as (k' & Hk' & ->).
           exists k'. split; [lia|done].
Qed.

End Ranges.

(** ** Nothing but the sweeper deletes from the output directory *)

Lemma temp_path_not_in_outputs name :
  in_directory OUTPUT_DIR (joinpath TEMP_DIR name) = false.
Proof. reflexivity. Qed.

Lemma remove_temp_file_stays q name w :
  in_directory OUTPUT_DIR q = true ->
  stays q w (remove_file (joinpath TEMP_DIR name) w).
Proof.
  intros Hq H. rewrite remove_file_other; [done|].
  intros <-. by rewrite temp_path_not_in_outputs in Hq.
Qed.

Lemma handle_keeps_outputs X r w q :
  r <> DeleteCleanup ->
  in_directory OUTPUT_DIR q = true ->
  stays q w (handle X r w).2.
Proof.
  intros Hr Hq.
  pose proof (stays_frame q) as HF.
  destruct r as [| |pi sg prompt fmt|pi sg prompt|i fmt|f|]; cbn [handle];
    [by intros ?|by intros ?| | | | |done].
  - rewrite generate_toy_endpoint_run.
    destruct (startswith_image pi) as [[]|[|]]; try by intros ?.
    destruct (startswith_image sg) as [[]|[|]]; try by intros ?.
    cbn zeta. cbn [snd].
    eapply frame_trans; [|by apply remove_temp_file_stays].
    eapply frame_trans; [|by apply remove_temp_file_stays].
    eapply frame_trans; [|apply (preserves_toy_pipeline _)]. by intros ?.
  - rewrite generate_image_only_run. cbn zeta. cbn [snd].
    eapply frame_trans; [|by apply remove_temp_file_stays].
    eapply frame_trans; [|by apply remove_temp_file_stays].
    eapply frame_trans; [|apply (preserves_image_only_pipeline _)].
    by intros ?.
  - rewrite image_to_3d_run. cbn zeta. cbn [snd].
    eapply frame_trans; [|by apply remove_temp_file_stays].
    eapply frame_trans; [|apply (preserves_image_to_3d_pipeline _)].
    by intros ?.
  - unfold download_file, bind, exists_.
    destruct (path_exists (fs w) f); by intros ?.
Qed.

Lemma X0_uuid4_inj i j : uuid4 X0 i = uuid4 X0 j -> i = j.
Proof.
  cbn. intros H. apply String.app_inj in H. by apply pretty_nat_inj in H.
Qed.

(** C8. Provided [uuid4] never returns the same value twice: the model
    identifier of every successful reconstruction is a uuid drawn while
    that request ran; over any sequence of requests, repeated or not, no
    model identifier and no synthesized-image path is returned twice; and
    a path of the output directory that exists before a request and not
    after it was deleted by the sweeper, and was a regular file older than
    one hour (3600 s) by the clock of that request. *)
Theorem persisted_assets_unique_and_kept (X : Externals) :
  (forall i j, uuid4 X i = uuid4 X j -> i = j) ->
  (forall r w id,
     id ∈ model_ids (handle X r w).1 ->
     exists k, (uuid_count w <= k < uuid_count (handle X r w).2)%nat /\
               id = uuid4 X k) /\
  (forall reqs w,
     NoDup (returned_model_ids (serve X reqs w).1) /\
     NoDup (returned_image_paths (serve X reqs w).1)) /\
  (forall r w q,
     in_directory OUTPUT_DIR q = true ->
     is_Some (fs w !! q) ->
     fs (handle X r w).2 !! q = None ->
     r = DeleteCleanup /\
     exists t c, fs w !! q = Some (RegularFile t c) /\ (3600 < clock w - t)%Q).
Proof.
  intros Hinj. split; [|split].
  - intros r w id Hid.
    destruct (proj1 (proj2 (handle_ids X r w))) as [Hnil|(k & Hk & Heq)].
    + rewrite Hnil in Hid. by apply elem_of_nil in Hid.
    + rewrite Heq in Hid. apply list_elem_of_singleton in Hid as ->. eauto.
  - intros reqs w. split.
    + apply (serve_ids X (uuid4 X) model_ids Hinj).
      intros r w'. apply handle_ids.
    + apply (serve_ids X (fun k => toy_image_path (uuid4 X k)) image_paths).
      * intros i j H. by apply Hinj, toy_image_path_inj.
      * intros r w'. apply handle_ids.
  - intros r w q Hq Hpresent Hgone.
    assert (r = DeleteCleanup \/ r <> DeleteCleanup) as [->|Hr]
      by (destruct r; first [by left | by right]).
    + split; [done|]. cbn [handle] in Hgone.
      rewrite cleanup_files_run in Hgone. cbn [snd fs set_fs] in Hgone.
      rewrite swept_lookup in Hgone. destruct Hpresent as [e He].
      rewrite He in Hgone. unfold expired in Hgone. rewrite Hq in Hgone.
      destruct e as [t c|t]; [|done]. cbn in Hgone.
      destruct (Qgtb (clock w - t) 3600) eqn:Hold; [|done].
      exists t, c. split; [done|]. by apply Qgtb_true.
    + pose proof (handle_keeps_outputs X r w q Hr Hq Hpresent) as [e He].
      congruence.
Qed.

Lemma persisted_assets_witness :
  let again := PostGenerateToy (example_upload "image/png")
                 (example_upload "image/png") "a toy" "gaussian" in
  returned_model_ids (serve X0 [(10%Q, again); (20%Q, again)] world0).1
    = ["uuid-3"; "uuid-7"] /\
  NoDup (returned_model_ids (serve X0 [(10%Q, again); (20%Q, again)] world0).1).
Proof.
  split; [vm_compute; reflexivity|].
  exact (proj1 (proj1 (proj2
           (persisted_assets_unique_and_kept X0 X0_uuid4_inj)) _ world0)).
Defined.

(** * Further properties of the code *)

(** ** The Vision Describer *)

(** [analyze_person_image] by cases on what its steps give. *)
Lemma analyze_person_image_run X p w :
  analyze_person_image X p w =
    match (Image_open X p w).1 with
    | inl e => (inl (person_error X e), w)
    | inr img =>
        if genai_client w then
          let w1 := log_call
                      (GenerateContent description_model person_prompt img None) w in
          match generate_content X (length (model_calls w)) description_model
                  person_prompt img None with
          | inl e => (inl (person_error X e), w1)
          | inr response =>
              match text response with
              | Some t => (inr (replace_newlines (strip t)), w1)
              | None =>
                  (inl (person_error X
                          (AttributeError
                             "'NoneType' object has no attribute 'strip'")), w1)
              end
          end
        else
          (inl (person_error X
                  (AttributeError "'NoneType' object has no attribute 'models'")),
           w)
    end.
Proof.
  unfold analyze_person_image, try_except. unfold bind at 1.
  pose proof (Image_open_state X p w) as Hw.
  destruct (Image_open X p w) as [[e|img] w']; cbn [fst snd] in *; subst w';
    [done|].
  unfold bind at 1, genai_generate_content at 1. fold description_model.
  destruct (genai_client w); [|done]. cbn zeta.
  destruct (generate_content _ _ _ _ _ _) as [e|response]; [done|].
  unfold bind, lift_result, response_text, ret.
  by destruct (text response).
Qed.

Lemma analyze_toy_style_run X p w :
  analyze_toy_style X p w =
    match (Image_open X p w).1 with
    | inl e => (inl (style_error X e), w)
    | inr img =>
        if genai_client w then
          let w1 := log_call
                      (GenerateContent description_model style_prompt img None) w in
          match generate_content X (length (model_calls w)) description_model
                  style_prompt img None with
          | inl e => (inl (style_error X e), w1)
          | inr response =>
              match text response with
              | Some t => (inr (replace_newlines (strip t)), w1)
              | None =>
                  (inl (style_error X
                          (AttributeError
                             "'NoneType' object has no attribute 'strip'")), w1)
              end
          end
        else
          (inl (style_error X
                  (AttributeError "'NoneType' object has no attribute 'models'")),
           w)
    end.
Proof.
  unfold analyze_toy_style, try_except. unfold bind at 1.
  pose proof (Image_open_state X p w) as Hw.
  destruct (Image_open X p w) as [[e|img] w']; cbn [fst snd] in *; subst w';
    [done|].
  unfold bind at 1, genai_generate_content at 1. fold description_model.
  destruct (genai_client w); [|done]. cbn zeta.
  destruct (generate_content _ _ _ _ _ _) as [e|response]; [done|].
  unfold bind, lift_result, response_text, ret.
  by destruct (text response).
Qed.

(** What [strip] leaves and what [replace] removes. *)
Section StripFront.

Variable two : ascii -> ascii -> bool.
Variable three : ascii -> ascii -> ascii -> bool.

Lemma strip_front_cons a l1 :
  strip_front two three (a :: l1) =
    if isspace a then strip_front two three l1
    else
      match l1 with
      | [] => a :: l1
      | b :: l2 =>
          if two a b then strip_front two three l2
          else
            match l2 with
            | [] => a :: l1
            | c :: l3 =>
                if three a b c then strip_front two three l3 else a :: l1
            end
      end.
Proof. by destruct l1 as [|b [|c l3]]. Qed.

Lemma strip_front_no_space n : forall l,
  (length l <= n)%nat ->
  space_at_front two three (strip_front two three l) = false.
Proof.
  induction n as [|n IH]; intros l Hn.
  { destruct l; [done|]. cbn in Hn. lia. }
  destruct l as [|a l1]; [done|]. rewrite strip_front_cons.
  destruct (isspace a) eqn:Ea; [apply IH; cbn in *; lia|].
  destruct l1 as [|b l2]; [cbn; by rewrite Ea|].
  destruct (two a b) eqn:E2; [apply IH; cbn in *; lia|].
  destruct l2 as [|c l3]; [cbn; by rewrite Ea, E2|].
  destruct (three a b c) eqn:E3; [apply IH; cbn in *; lia|].
  cbn. by rewrite Ea, E2, E3.
Qed.

Lemma strip_front_suffix n : forall l,
  (length l <= n)%nat -> exists k, l = (k ++ strip_front two three l)%list.
Proof.
  induction n as [|n IH]; intros l Hn.
  { destruct l; [by exists []|]. cbn in Hn. lia. }
  destruct l as [|a l1]; [by exists []|]. rewrite strip_front_cons.
  destruct (isspace a).
  { destruct (IH l1) as [k Hk]; [cbn in *; lia|].
    exists (a :: k). cbn. by rewrite <- Hk. }
  destruct l1 as [|b l2]; [by exists []|].
  destruct (two a b).
  { destruct (IH l2) as [k Hk]; [cbn in *; lia|].
    exists (a :: b :: k). cbn. by rewrite <- Hk. }
  destruct l2 as [|c l3]; [by exists []|].
  destruct (three a b c); [|by exists []].
  destruct (IH l3) as [k Hk]; [cbn in *; lia|].
  exists (a :: b :: c :: k). cbn. by rewrite <- Hk.
Qed.

(** White space at the front of a prefix is at the front of the whole. *)
Lemma space_at_front_app l k :
  space_at_front two three l = true ->
  space_at_front two three (l ++ k) = true.
Proof.
  destruct l as [|a [|b [|c l3]]]; cbn; try done.
  - rewrite orb_false_r. by intros ->.
  - rewrite orb_false_r. intros H. apply orb_true_iff in H as [-> | ->]; [done|].
    cbn. by rewrite orb_true_r.
Qed.

Hypothesis two_unfeed : forall a b, two (unfeed a) (unfeed b) = two a b.
Hypothesis three_unfeed :
  forall a b c, three (unfeed a) (unfeed b) (unfeed c) = three a b c.

Lemma isspace_unfeed a : isspace (unfeed a) = isspace a.
Proof.
  unfold unfeed. by destruct (Ascii.eqb_spec a "010") as [->|].
Qed.

Lemma space_at_front_unfeed l :
  space_at_front two three (map unfeed l) = space_at_front two three l.
Proof.
  destruct l as [|a [|b [|c l3]]]; cbn;
    by rewrite ?isspace_unfeed, ?two_unfeed, ?three_unfeed.
Qed.

End StripFront.

Lemma isspace2_unfeed a b : isspace2 (unfeed a) (unfeed b) = isspace2 a b.
Proof.
  unfold unfeed, isspace2.
  destruct (Ascii.eqb_spec a "010") as [->|], (Ascii.eqb_spec b "010") as [->|];
    cbn; try reflexivity; by rewrite andb_false_r.
Qed.

Lemma isspace3_unfeed a b c :
  isspace3 (unfeed a) (unfeed b) (unfeed c) = isspace3 a b c.
Proof.
  unfold unfeed, isspace3.
  destruct (Ascii.eqb_spec a "010") as [->|], (Ascii.eqb_spec b "010") as [->|],
    (Ascii.eqb_spec c "010") as [->|];
    cbn; try reflexivity; rewrite ?andb_false_r, ?orb_false_r; reflexivity.
Qed.

Lemma list_ascii_of_replace_newlines s :
  list_ascii_of_string (replace_newlines s) =
    map unfeed (list_ascii_of_string s).
Proof. induction s as [|c s IH]; cbn; [done | by rewrite IH]. Qed.

Lemma replace_newlines_no_line_feed s : has_line_feed (replace_newlines s) = false.
Proof.
  unfold has_line_feed. rewrite list_ascii_of_replace_newlines.
  induction (list_ascii_of_string s) as [|c l IH]; [done|].
  cbn [map existsb]. rewrite IH, orb_false_r. unfold unfeed.
  destruct (Ascii.eqb_spec c "010") as [->|Hne]; [done|].
  apply Ascii.eqb_neq. congruence.
Qed.

Lemma strip_replace_ends s :
  blank_at_an_end (replace_newlines (strip s)) = false.
Proof.
  unfold blank_at_an_end, strip.
  rewrite list_ascii_of_replace_newlines, list_ascii_of_string_of_list_ascii.
  set (m := lstrip (list_ascii_of_string s)).
  rewrite <- map_rev, rev_involutive.
  rewrite !space_at_front_unfeed
    by (intros; first [apply isspace2_unfeed | apply isspace3_unfeed]).
  apply orb_false_iff. split.
  - (* the front: what is left is a prefix of [m] *)
    destruct (strip_front_suffix (fun b a => isspace2 a b)
                (fun c b a => isspace3 a b c) (length (rev m)) (rev m))
      as [k Hk]; [done|].
    fold (rstrip_reversed (rev m)) in Hk.
    apply (f_equal (@rev ascii)) in Hk.
    rewrite rev_involutive, rev_app_distr in Hk.
    destruct (space_at_front isspace2 isspace3
                (rev (rstrip_reversed (rev m)))) eqn:E; [|done].
    apply (space_at_front_app _ _ _ (rev k)) in E. rewrite <- Hk in E.
    unfold m, lstrip in E.
    by rewrite (strip_front_no_space _ _ _ _ (Nat.le_refl _)) in E.
  - (* the end *)
    unfold rstrip_reversed.
    apply (strip_front_no_space _ _ _ _ (Nat.le_refl _)).
Qed.



(** X2. Each analysis reads the image and makes at most one call, to
    [gemini-2.5-flash] with its fixed instruction; nothing else of the
    world changes (no file is written, no uuid drawn, nothing printed).  A
    description is returned only after that call, and every failure is a
    status 500 whose detail is the prefix of the function followed by
    [str] of the cause. *)
Theorem describer_effects (X : Externals) (p : string) (w : World) :
  let person := analyze_person_image X p w in
  let style := analyze_toy_style X p w in
  (describer_trace X person_prompt p w person.2 /\
   (forall d, person.1 = inr d -> person.2 <> w) /\
   (forall e, person.1 = inl e -> exists cause, e = person_error X cause)) /\
  (describer_trace X style_prompt p w style.2 /\
   (forall d, style.1 = inr d -> style.2 <> w) /\
   (forall e, style.1 = inl e -> exists cause, e = style_error X cause)).
Proof.
  assert (forall c, log_call c w <> w) as Hlog.
  { intros c H. apply (f_equal model_calls) in H. cbn in H.
    apply (f_equal (@length ModelCall)) in H.
    rewrite length_app in H. cbn in H. lia. }
  cbn zeta. rewrite analyze_person_image_run, analyze_toy_style_run.
  unfold describer_trace.
  destruct (Image_open X p w).1 as [e|img].
  { cbn [fst snd]. repeat split; try (by left); try done;
      intros ? [= <-]; by eexists. }
  destruct (genai_client w).
  2:{ cbn [fst snd]. repeat split; try (by left); try done;
      intros ? [= <-]; by eexists. }
  cbn zeta. split.
  - destruct (generate_content _ _ _ _ _ _) as [e|response];
      [|destruct (text response) as [t|]]; cbn [fst snd];
      (split; [right; by exists img|]); (split; [intros; apply Hlog|]);
      try done; intros ? [= <-]; by eexists.
  - destruct (generate_content _ _ _ _ _ _) as [e|response];
      [|destruct (text response) as [t|]]; cbn [fst snd];
      (split; [right; by exists img|]); (split; [intros; apply Hlog|]);
      try done; intros ? [= <-]; by eexists.
Qed.

(** ** Saving an upload *)

(** [save_upload] as a function of the world. *)
Lemma save_upload_run p u w :
  save_upload p u w =
    match fs w !! p with
    | Some (Directory _) => (inl (IsADirectoryError p), w)
    | _ =>
        match read u with
        | inr content =>
            (inr tt, set_fs (<[p := RegularFile (clock w) content]> (fs w)) w)
        | inl e =>
            (inl e, set_fs (<[p := RegularFile (clock w) []]> (fs w)) w)
        end
    end.
Proof.
  unfold save_upload, bind, write_file, lift_result.
  destruct (fs w !! p) as [[t c|t]|] eqn:E; [|done|];
    cbn [fs set_fs clock]; rewrite lookup_insert; cbn;
    (destruct (read u) as [e|content]; [done|]);
    rewrite decide_True by done; cbn; by rewrite insert_insert_eq, set_fs_set_fs.
Qed.

(** X3. Saving an upload at a path that is not a directory touches no
    other path.  When the upload can be read, the file holds exactly the
    uploaded bytes, stamped with the current time, and opening it as an
    image decodes those bytes; when reading the upload raises, the
    exception propagates and the file that [open] created is left behind,
    empty.  On a directory, [open] raises and nothing changes. *)
Theorem save_upload_round_trip
    (X : Externals) (p : string) (u : UploadFile) (w : World) :
  let rw := save_upload p u w in
  (forall q, q <> p -> fs rw.2 !! q = fs w !! q) /\
  rw.2 = set_fs (fs rw.2) w /\
  match fs w !! p with
  | Some (Directory _) => rw = (inl (IsADirectoryError p), w)
  | _ =>
      match read u with
      | inr content =>
          rw.1 = inr tt /\
          fs rw.2 !! p = Some (RegularFile (clock w) content) /\
          Image_open X p rw.2 = (image_decode X content, rw.2)
      | inl e =>
          rw.1 = inl e /\
          fs rw.2 !! p = Some (RegularFile (clock w) [])
      end
  end.
Proof.
  cbn zeta. rewrite save_upload_run. unfold Image_open.
  destruct (fs w !! p) as [[t c|t]|] eqn:E;
    [|by rewrite set_fs_same|];
    (destruct (read u) as [e|content]; cbn [fst snd fs set_fs];
     rewrite ?set_fs_set_fs, ?lookup_insert, ?decide_True by done;
     repeat split; try done; intros q Hq; by rewrite lookup_insert_ne).
Qed.

(** ** What a returned image path stands for *)

(** Every step behind a path that [generate_toy_image] returns. *)
Lemma generate_toy_image_inv X u c s p w path w' :
  generate_toy_image X u c s p w = (inr path, w') ->
  exists img response parts blob generated png,
    (Image_open X p w).1 = inr img /\
    genai_client w = true /\
    generate_content X (length (model_calls w)) image_model (final_prompt u c s)
      img (Some ["TEXT"; "IMAGE"]) = inr response /\
    candidates0_parts response = inr parts /\
    first_inline parts = Some blob /\
    image_decode X (data blob) = inr generated /\
    image_encode X generated = inr png /\
    path = toy_image_path (uuid4 X (uuid_count w)) /\
    w' = set_fs (<[path := RegularFile (clock w) png]> (fs w))
           (set_uuid_count (S (uuid_count w))
              (after_image_call X img (final_prompt u c s) w)).
Proof.
  rewrite generate_toy_image_run.
  destruct (Image_open X p w).1 as [e|img]; [done|]. cbn zeta.
  destruct (genai_client w); [|done].
  destruct (generate_content _ _ _ _ _ _) as [e|response] eqn:Hcall; [done|].
  destruct (candidates0_parts response) as [e|parts] eqn:Hparts; [done|].
  rewrite save_first_image_run.
  destruct (first_inline parts) as [blob|] eqn:Hfirst; [|done].
  destruct (image_decode X (data blob)) as [e|generated] eqn:Hdec; [done|].
  cbn zeta.
  destruct (image_encode X generated) as [e|png] eqn:Henc; [done|].
  change (fs (after_image_call X img (final_prompt u c s) w)) with (fs w).
  change (uuid_count (after_image_call X img (final_prompt u c s) w))
    with (uuid_count w).
  change (clock (after_image_call X img (final_prompt u c s) w))
    with (clock w).
  destruct (fs w !! _) as [[t d|t]|]; [|done|]; intros [= <- <-];
    by exists img, response, parts, blob, generated, png.
Qed.

(** X4. A path returned by the Image Synthesizer is
    [outputs/generated_toy_<uuid>.png] for the uuid drawn by the call.
    After the call it is a regular file stamped with the current time that
    holds the PNG encoding of the decoded first inline payload of the
    response; no other path has changed; exactly one model call was made,
    to the image model with the composed prompt, the person image and the
    modalities TEXT and IMAGE; one uuid was drawn and the composed prompt
    printed. *)
Theorem synthesized_image_is_persisted
    (X : Externals) (u c s p path : string) (w w' : World) :
  generate_toy_image X u c s p w = (inr path, w') ->
  path = toy_image_path (uuid4 X (uuid_count w)) /\
  (forall q, q <> path -> fs w' !! q = fs w !! q) /\
  uuid_count w' = S (uuid_count w) /\
  stdout w' = (stdout w ++ ["Enriched prompt: " +:+ final_prompt u c s])%list /\
  exists img response blob generated png,
    (Image_open X p w).1 = inr img /\
    generate_content X (length (model_calls w)) image_model (final_prompt u c s)
      img (Some ["TEXT"; "IMAGE"]) = inr response /\
    response_payload response = Some blob /\
    image_decode X (data blob) = inr generated /\
    image_encode X generated = inr png /\
    fs w' !! path = Some (RegularFile (clock w) png) /\
    model_calls w' =
      (model_calls w ++
       [GenerateContent image_model (final_prompt u c s) img
          (Some ["TEXT"; "IMAGE"])])%list.
Proof.
  intros H.
  apply generate_toy_image_inv in H
    as (img & response & parts & blob & generated & png & Himg & _ & Hcall &
        Hparts & Hfirst & Hdec & Henc & -> & ->).
  cbn [fs set_fs uuid_count set_uuid_count stdout model_calls after_image_call
       log_call log_print].
  split; [done|]. split; [intros q Hq; by rewrite lookup_insert_ne|].
  split; [done|]. split; [done|].
  exists img, response, blob, generated, png.
  unfold response_payload. rewrite Hparts, lookup_insert, decide_True by done.
  done.
Qed.

Lemma synthesized_image_witness :
  fs (generate_toy_image X0 "a toy" "short hair" "chibi" "temp/photo.png"
        world0).2 !! "outputs/toy.png"
  = fs world0 !! "outputs/toy.png".
Proof.
  refine (proj1 (proj2 (synthesized_image_is_persisted X0
            "a toy" "short hair" "chibi" "temp/photo.png"
            "outputs/generated_toy_uuid-0.png" world0
            (generate_toy_image X0 "a toy" "short hair" "chibi"
               "temp/photo.png" world0).2 _)) "outputs/toy.png" _).
  - vm_compute. reflexivity.
  - vm_compute. discriminate.
Defined.

(** ** The files of a reconstruction *)

Lemma keeps_written_frame : Frame keeps_written any any.
Proof.
  split.
  - by intros w.
  - intros w1 w2 w3 [Hc1 H1] [Hc2 H2]. split; [congruence|]. eauto.
  - by intros s w.
  - by intros w.
  - by intros c w _.
  - intros p d w _. split; [done|]. intros q [c Hq]. unfold written_now.
    cbn [fs set_fs clock].
    destruct (decide (p = q)) as [->|Hne].
    + rewrite lookup_insert, decide_True by done. by eexists.
    + rewrite lookup_insert_ne by done. by eexists.
Qed.

Lemma write_file_written p d w w' :
  write_file p d w = (inr tt, w') -> written_now w' p.
Proof.
  unfold write_file, written_now.
  destruct (fs w !! p) as [[t c|t]|]; [|done|]; intros [= <-];
    cbn [fs set_fs clock]; rewrite lookup_insert, decide_True by done;
    by eexists.
Qed.

Lemma write_file_keeps p d w :
  keeps_written w (write_file p d w).2.
Proof.
  pose proof keeps_written_frame as HF.
  by apply (preserves_write_file keeps_written any any).
Qed.

(** The mapping [save_gaussian] returns has its new values on disk. *)
Lemma save_gaussian_written X outputs formats uid rf w rf' w' :
  save_gaussian X outputs formats uid rf w = (inr rf', w') ->
  keeps_written w w' /\
  forall k v, rf' !! k = Some v -> rf !! k = Some v \/ written_now w' v.
Proof.
  unfold save_gaussian.
  destruct (bool_decide ("gaussian" ∈ formats) && get_truthy outputs "gaussian").
  2:{ intros [= <- <-]. split; [by split|]. by left. }
  unfold bind, lift_result, ret.
  destruct (getitem0 outputs "gaussian") as [e|g]; [done|].
  destruct (ply_bytes X g) as [e|ply]; [done|].
  pose proof (write_file_keeps (joinpath OUTPUT_DIR ("model_" +:+ uid +:+ ".ply"))
                ply w) as Hk1.
  destruct (write_file _ ply w) as [[e|[]] w1] eqn:E1; [done|].
  destruct (render_video X g) as [e|video]; [done|].
  destruct (mimsave_bytes X video 15) as [e|mp4]; [done|].
  pose proof (write_file_keeps
                (joinpath OUTPUT_DIR ("preview_" +:+ uid +:+ ".mp4")) mp4 w1)
    as Hk2.
  destruct (write_file _ mp4 w1) as [[e|[]] w2] eqn:E2; [done|].
  intros [= <- <-]. cbn [snd] in *.
  apply write_file_written in E1. apply write_file_written in E2.
  split.
  - destruct Hk1 as [Hc1 H1], Hk2 as [Hc2 H2]. split; [congruence|]. eauto.
  - intros k v Hk.
    apply lookup_insert_Some in Hk as [[_ <-]|[_ Hk]]; [by right|].
    apply lookup_insert_Some in Hk as [[_ <-]|[_ Hk]]; [|by left].
    right. by apply Hk2.
Qed.

Lemma save_mesh_written X outputs formats uid rf w rf' w' :
  save_mesh X outputs formats uid rf w = (inr rf', w') ->
  keeps_written w w' /\
  forall k v, rf' !! k = Some v -> rf !! k = Some v \/ written_now w' v.
Proof.
  intros H. split.
  - pose proof keeps_written_frame as HF.
    pose proof (preserves_save_mesh keeps_written any X outputs formats uid rf w)
      as Hk.
    by rewrite H in Hk.
  - revert H. rewrite save_mesh_run.
    destruct (bool_decide ("mesh" ∈ formats) && get_truthy outputs "mesh");
      [|intros [= <- <-]; by left].
    destruct (export_glb X outputs uid rf w) as [[e|rf''] w''] eqn:E;
      [intros [= <- <-]; by left|].
    intros [= <- <-]. revert E.
    unfold export_glb, bind, lift_result, ret.
    destruct (if get_truthy outputs "gaussian" then _ else _) as [[e|g] w0] eqn:Eg;
      [done|].
    assert (w0 = w) as ->.
    { destruct (get_truthy outputs "gaussian"); [|by injection Eg].
      destruct (getitem0 outputs "gaussian"); by injection Eg. }
    destruct (getitem0 outputs "mesh") as [e|m]; [done|].
    destruct (to_glb X g m) as [e|glb]; [done|].
    destruct (glb_bytes X glb) as [e|b]; [done|].
    destruct (write_file _ b w) as [[e|[]] w1] eqn:E1; [done|].
    intros [= <- <-]. apply write_file_written in E1.
    intros k v Hk.
    apply lookup_insert_Some in Hk as [[_ <-]|[_ Hk]]; [by right | by left].
Qed.

Lemma generate_3d_model_written X p fmt w r w' :
  generate_3d_model X p fmt w = (inr r, w') ->
  clock w' = clock w /\
  forall k v, files r !! k = Some v -> written_now w' v.
Proof.
  rewrite generate_3d_model_run.
  destruct (Image_open X p w).1 as [e|img]; [done|]. cbn zeta.
  destruct (trellis_pipeline w); [|done].
  destruct (pipeline_run _ _ _ _) as [e|outputs]; [done|].
  destruct (save_gaussian _ _ _ _ _ _) as [[e|rf] w3] eqn:Eg; [done|].
  destruct (save_mesh _ _ _ _ _ _) as [[e|rf'] w4] eqn:Em; [done|].
  intros [= <- <-]. cbn [files].
  apply save_gaussian_written in Eg as [[Hc1 H1] Hg].
  apply save_mesh_written in Em as [[Hc2 H2] Hm].
  split; [by rewrite Hc2, Hc1|].
  intros k v Hk. destruct (Hm k v Hk) as [Hk'|]; [|done].
  destruct (Hg k v Hk') as [Hk''|]; [|by apply H2].
  by rewrite lookup_empty in Hk''.
Qed.

(** X5. Every path in the file mapping of a successful reconstruction
    names a regular file that exists when the call returns, stamped with
    the time of the call; it can be downloaded at once, under its base
    name. *)
Theorem result_files_are_on_disk
    (X : Externals) (p fmt : string) (w w' : World) (r : ModelResult) :
  generate_3d_model X p fmt w = (inr r, w') ->
  forall k v,
    files r !! k = Some v ->
    (exists c, fs w' !! v = Some (RegularFile (clock w) c)) /\
    download_file v w' =
      (inr (FileResponse v "application/octet-stream" (path_name v)), w').
Proof.
  intros H k v Hk.
  apply generate_3d_model_written in H as [Hc H].
  destruct (H k v Hk) as [c Hv]. rewrite Hc in Hv.
  split; [by exists c|].
  unfold download_file, bind, exists_, path_exists. by rewrite Hv.
Qed.

Lemma result_files_witness :
  (exists c,
     fs (generate_3d_model X0 "outputs/toy.png" "all" world0).2
       !! "outputs/model_uuid-0.glb"
     = Some (RegularFile (clock world0) c)) /\
  download_file "outputs/model_uuid-0.glb"
    (generate_3d_model X0 "outputs/toy.png" "all" world0).2 =
    (inr (FileResponse "outputs/model_uuid-0.glb" "application/octet-stream"
            (path_name "outputs/model_uuid-0.glb")),
     (generate_3d_model X0 "outputs/toy.png" "all" world0).2).
Proof.
  refine (result_files_are_on_disk X0 "outputs/toy.png" "all" world0
            (generate_3d_model X0 "outputs/toy.png" "all" world0).2
            {| success := true; model_id := "uuid-0";
               files := {[ "ply" := "outputs/model_uuid-0.ply";
                           "preview_video" := "outputs/preview_uuid-0.mp4";
                           "glb" := "outputs/model_uuid-0.glb" ]};
               formats := ["gaussian"; "radiance_field"; "mesh"] |}
            _ "glb" "outputs/model_uuid-0.glb" _).
  - vm_compute. reflexivity.
  - vm_compute. reflexivity.
Defined.

(** X6. Nothing is rolled back.  When the image loads, the pipeline
    returns a gaussian representation that was asked for and its PLY file
    is written, a failure of the preview (rendering, or encoding the
    video) fails the whole reconstruction with status 500, and the PLY
    file stays in the output directory although no response names it. *)
Theorem failed_preview_leaves_ply
    (X : Externals) (p fmt : string) (w : World)
    (img : Image) (outputs : gmap string (list Repr3D))
    (g : Repr3D) (rest : list Repr3D) (ply : bytes) (e : Exn) :
  let uid := uuid4 X (uuid_count w) in
  (Image_open X p w).1 = inr img ->
  trellis_pipeline w = true ->
  pipeline_run X (length (model_calls w)) img (select_formats fmt) = inr outputs ->
  "gaussian" ∈ select_formats fmt ->
  outputs !! "gaussian" = Some (g :: rest) ->
  ply_bytes X g = inr ply ->
  (forall t, fs w !! ply_path uid <> Some (Directory t)) ->
  render_video X g = inl e \/
  (exists video, render_video X g = inr video /\
                 mimsave_bytes X video 15 = inl e) ->
  generate_3d_model X p fmt w =
    (inl (HTTPException 500 ("Error generating 3D model: " +:+ py_str X e)),
     set_fs (<[ply_path uid := RegularFile (clock w) ply]> (fs w))
       (after_run X img fmt w)).
Proof.
  intros uid Himg Htp Hrun Hin Hg Hply Hdir Hfail.
  rewrite generate_3d_model_run, Himg. cbn zeta. rewrite Htp, Hrun.
  fold uid. unfold save_gaussian.
  rewrite bool_decide_eq_true_2 by done.
  unfold get_truthy, getitem0. rewrite Hg. cbn [andb].
  unfold bind, lift_result. rewrite Hply. unfold write_file at 1.
  change (fs (after_run X img fmt w)) with (fs w).
  change (clock (after_run X img fmt w)) with (clock w).
  fold (ply_path uid).
  assert (match fs w !! ply_path uid with
          | Some (Directory _) => False | _ => True end) as Hnd.
  { destruct (fs w !! ply_path uid) as [[t c|t]|] eqn:E; [done| |done].
    by destruct (Hdir t). }
  destruct (fs w !! ply_path uid) as [[t c|t]|]; [|done|];
    (destruct Hfail as [Hr|(video & Hr & Hm)]; rewrite Hr; [done|];
     by rewrite Hm).
Qed.

Lemma failed_preview_witness :
  generate_3d_model X_video_fails "outputs/toy.png" "gaussian" world0 =
    (inl (HTTPException 500
            ("Error generating 3D model: "
             +:+ py_str X_video_fails (LibraryError "CUDA out of memory"))),
     set_fs (<[ply_path (uuid4 X_video_fails (uuid_count world0))
               := RegularFile (clock world0) []]> (fs world0))
       (after_run X_video_fails (PILImage one_byte) "gaussian" world0)).
Proof.
  refine (failed_preview_leaves_ply X_video_fails "outputs/toy.png" "gaussian"
            world0 (PILImage one_byte)
            {[ "gaussian" := [Repr3DObject []] ]}
            (Repr3DObject []) [] [] (LibraryError "CUDA out of memory")
            _ _ _ _ _ _ _ _).
  - vm_compute. reflexivity.
  - vm_compute. reflexivity.
  - vm_compute. reflexivity.
  - vm_compute. apply list_elem_of_singleton. reflexivity.
  - vm_compute. reflexivity.
  - vm_compute. reflexivity.
  - intros t. vm_compute. discriminate.
  - left. vm_compute. reflexivity.
Defined.

(** ** The keys of the file mapping *)

(** X7. The file mapping of a successful reconstruction is fixed by the
    formats asked for and by what the pipeline returned.  The keys [ply]
    and [preview_video] come together, exactly when [gaussian] was asked
    for and the pipeline returned a non-empty list for it; [glb] appears
    only when [mesh] was asked for and returned; there is no other key.  A
    format that was asked for and that the pipeline did not return is
    skipped without an error, and the [formats] of the result list the
    formats asked for all the same. *)
Theorem result_mapping_follows_outputs
    (X : Externals) (p fmt : string) (w w' : World) (r : ModelResult) :
  generate_3d_model X p fmt w = (inr r, w') ->
  exists img outputs,
    (Image_open X p w).1 = inr img /\
    pipeline_run X (length (model_calls w)) img (select_formats fmt)
      = inr outputs /\
    success r = true /\
    formats r = select_formats fmt /\
    files r !! "ply" =
      (if bool_decide ("gaussian" ∈ select_formats fmt)
          && get_truthy outputs "gaussian"
       then Some (ply_path (model_id r)) else None) /\
    files r !! "preview_video" =
      (if bool_decide ("gaussian" ∈ select_formats fmt)
          && get_truthy outputs "gaussian"
       then Some (video_path (model_id r)) else None) /\
    (files r !! "glb" = None \/
     (bool_decide ("mesh" ∈ select_formats fmt) && get_truthy outputs "mesh"
        = true /\
      files r !! "glb" = Some (glb_path (model_id r)))) /\
    (forall k, k <> "ply" -> k <> "preview_video" -> k <> "glb" ->
               files r !! k = None).
Proof.
  rewrite generate_3d_model_run.
  destruct (Image_open X p w).1 as [e|img]; [done|]. cbn zeta.
  destruct (trellis_pipeline w); [|done].
  destruct (pipeline_run _ _ _ _) as [e|outputs] eqn:Hrun; [done|].
  destruct (save_gaussian _ _ _ _ _ _) as [[e|rf] w3] eqn:Eg; [done|].
  destruct (save_mesh _ _ _ _ _ _) as [[e|rf'] w4] eqn:Em; [done|].
  intros [= <- <-]. cbn [files success formats model_id].
  exists img, outputs.
  apply save_gaussian_mapping in Eg. apply save_mesh_mapping in Em.
  split; [done|]. split; [done|]. split; [done|]. split; [done|].
  destruct (bool_decide ("gaussian" ∈ select_formats fmt)
            && get_truthy outputs "gaussian");
    destruct Em as [->|[Hm ->]]; subst rf; rewrite ?Hm.
  all: split; [by simplify_map_eq|].
  all: split; [by simplify_map_eq|].
  all: split;
    [first [by left; simplify_map_eq | by right; simplify_map_eq]|].
  all: intros k H1 H2 H3; by simplify_map_eq.
Qed.

Lemma result_mapping_witness :
  let r := {| success := true; model_id := "uuid-0";
              files := {[ "glb" := "outputs/model_uuid-0.glb" ]};
              formats := ["mesh"] |} in
  exists img outputs,
    (Image_open X0 "outputs/toy.png" world0).1 = inr img /\
    pipeline_run X0 (length (model_calls world0)) img (select_formats "mesh")
      = inr outputs /\
    files r !! "ply"
      = (if bool_decide ("gaussian" ∈ select_formats "mesh")
            && get_truthy outputs "gaussian"
         then Some (ply_path (model_id r)) else None).
Proof.
  intros r.
  destruct (result_mapping_follows_outputs X0 "outputs/toy.png" "mesh" world0
              (generate_3d_model X0 "outputs/toy.png" "mesh" world0).2 r)
    as (img & outputs & H1 & H2 & _ & _ & H3 & _).
  - vm_compute. reflexivity.
  - exists img, outputs. split; [exact H1|]. split; [exact H2|]. exact H3.
Defined.

(** ** Before and after the start-up *)

(** X8. A service whose models were not initialised still answers
    /health with status [healthy] (the two flags false), but every call of
    the hosted model or of the pipeline fails with status 500: the
    descriptions leave the world as it is, the Image Synthesizer and the
    3D Reconstructor only print, and none of them logs a model call, draws
    a uuid or writes a file.  [initialize_models] touches nothing but the
    two singletons and the console and never unsets a singleton.  It
    succeeds exactly when [genai.Client()], [from_pretrained] and [cuda()]
    all return, and /health then reports both singletons.  When
    [genai.Client()] raises, no singleton is set; when [from_pretrained]
    raises, only the client is; when [cuda()] raises, both are set although
    the start-up failed. *)
Theorem uninitialised_service
    (X : Externals) (p u c s fmt : string) (w : World) :
  (genai_client w = false ->
   (exists cause, analyze_person_image X p w = (inl (person_error X cause), w)) /\
   (exists cause, analyze_toy_style X p w = (inl (style_error X cause), w)) /\
   (exists cause w',
      generate_toy_image X u c s p w = (inl (image_error X cause), w') /\
      fs w' = fs w /\ uuid_count w' = uuid_count w /\
      model_calls w' = model_calls w)) /\
  (trellis_pipeline w = false ->
   exists cause w',
     generate_3d_model X p fmt w = (inl (model_error X cause), w') /\
     fs w' = fs w /\ uuid_count w' = uuid_count w /\
     model_calls w' = model_calls w) /\
  health_check w =
    (inr (HealthResponse "healthy" (genai_client w) (trellis_pipeline w)), w) /\
  (let started := initialize_models X w in
   (fs started.2 = fs w /\ uuid_count started.2 = uuid_count w /\
    model_calls started.2 = model_calls w /\ clock started.2 = clock w) /\
   (genai_client w = true -> genai_client started.2 = true) /\
   (trellis_pipeline w = true -> trellis_pipeline started.2 = true) /\
   (started.1 = inr tt <->
    genai_Client X = inr tt /\ from_pretrained X = inr tt /\
    pipeline_cuda X = inr tt) /\
   (started.1 = inr tt ->
    health_check started.2 =
      (inr (HealthResponse "healthy" true true), started.2)) /\
   (forall e,
      genai_Client X = inl e ->
      started = (inl e, log_print "Initializing models..." w)) /\
   (forall e,
      genai_Client X = inr tt -> from_pretrained X = inl e ->
      started.1 = inl e /\ genai_client started.2 = true /\
      trellis_pipeline started.2 = trellis_pipeline w) /\
   (forall e,
      genai_Client X = inr tt -> from_pretrained X = inr tt ->
      pipeline_cuda X = inl e ->
      started.1 = inl e /\ genai_client started.2 = true /\
      trellis_pipeline started.2 = true)).
Proof.
  split; [|split; [|split]].
  - intros Hc.
    rewrite analyze_person_image_run, analyze_toy_style_run,
      generate_toy_image_run, Hc.
    destruct (Image_open X p w).1 as [e|img]; cbn zeta;
      repeat split; eauto 10.
  - intros Ht. rewrite generate_3d_model_run, Ht.
    destruct (Image_open X p w).1 as [e|img]; cbn zeta; eauto 10.
  - reflexivity.
  - cbn zeta. unfold initialize_models, bind, print, lift_result, health_check.
    cbn [fst snd].
    destruct (genai_Client X) as [e1|[]]; cbn [fst snd].
    { repeat split; try done; try (by intros (? & _));
        by intros e [= ->]. }
    destruct (from_pretrained X) as [e2|[]]; cbn [fst snd].
    { repeat split; try done; try (by intros (_ & ? & _));
        by intros e _ [= ->]. }
    destruct (pipeline_cuda X) as [e3|[]]; cbn [fst snd].
    { repeat split; try done; try (by intros (_ & _ & ?));
        by intros e _ _ [= ->]. }
    repeat split; done.
Qed.

(** ** The validation gate of /generate-toy *)

(** X9. /generate-toy checks the declared media type of the person
    upload first, then that of the style guide.  A type that does not
    start with [image/] is answered 400 with the message of that upload; a
    missing type makes [startswith] fail and is answered 500, not 400.  In
    all these cases the world is left exactly as it was: no scratch file,
    no uuid, no model call.  When both types pass, the two scratch names
    are drawn. *)
Theorem generate_toy_endpoint_validation
    (X : Externals) (person_image style_guide : UploadFile)
    (prompt output_format : string) (w : World) :
  let rw := generate_toy_endpoint X person_image style_guide prompt
              output_format w in
  let missing :=
    HTTPException 500
      ("Generation failed: "
       +:+ py_str X
             (AttributeError "'NoneType' object has no attribute 'startswith'")) in
  match content_type person_image with
  | None => rw = (inl missing, w)
  | Some ct1 =>
      if String.prefix "image/" ct1 then
        match content_type style_guide with
        | None => rw = (inl missing, w)
        | Some ct2 =>
            if String.prefix "image/" ct2
            then (2 + uuid_count w <= uuid_count rw.2)%nat
            else rw = (inl (HTTPException 400
                              "Style guide file must be an image"), w)
        end
      else rw = (inl (HTTPException 400 "Person file must be an image"), w)
  end.
Proof.
  cbn zeta. rewrite generate_toy_endpoint_run. unfold startswith_image.
  destruct (content_type person_image) as [ct1|]; [|done].
  destruct (String.prefix "image/" ct1); [|done].
  destruct (content_type style_guide) as [ct2|]; [|done].
  destruct (String.prefix "image/" ct2); [|done].
  cbn zeta. cbn [snd]. rewrite !remove_file_uuid_count.
  pose proof draws_grow_frame as HF.
  pose proof (preserves_toy_pipeline draws_grow X (person_path X w)
                (style_path X w) person_image style_guide prompt output_format
                (set_uuid_count (S (S (uuid_count w))) w)) as H.
  unfold draws_grow in H. cbn [uuid_count set_uuid_count] in H. lia.
Qed.

(** ** The four model calls of a full request *)

Lemma save_upload_inv p u w w' :
  save_upload p u w = (inr tt, w') ->
  exists content,
    read u = inr content /\
    w' = set_fs (<[p := RegularFile (clock w) content]> (fs w)) w.
Proof.
  rewrite save_upload_run.
  destruct (fs w !! p) as [[t c|t]|]; [|done|];
    (destruct (read u) as [e|content]; [done|]); intros [= <-]; eauto.
Qed.

Lemma analyze_person_image_inv X p w d w' :
  analyze_person_image X p w = (inr d, w') ->
  exists img response t,
    (Image_open X p w).1 = inr img /\
    generate_content X (length (model_calls w)) description_model person_prompt
      img None = inr response /\
    text response = Some t /\
    d = replace_newlines (strip t) /\
    w' = log_call (GenerateContent description_model person_prompt img None) w.
Proof.
  rewrite analyze_person_image_run.
  destruct (Image_open X p w).1 as [e|img]; [done|].
  destruct (genai_client w); [|done]. cbn zeta.
  destruct (generate_content _ _ _ _ _ _) as [e|response] eqn:Hcall; [done|].
  destruct (text response) as [t|] eqn:Ht; [|done]. intros [= <- <-].
  by exists img, response, t.
Qed.

Lemma analyze_toy_style_inv X p w d w' :
  analyze_toy_style X p w = (inr d, w') ->
  exists img response t,
    (Image_open X p w).1 = inr img /\
    generate_content X (length (model_calls w)) description_model style_prompt
      img None = inr response /\
    text response = Some t /\
    d = replace_newlines (strip t) /\
    w' = log_call (GenerateContent description_model style_prompt img None) w.
Proof.
  rewrite analyze_toy_style_run.
  destruct (Image_open X p w).1 as [e|img]; [done|].
  destruct (genai_client w); [|done]. cbn zeta.
  destruct (generate_content _ _ _ _ _ _) as [e|response] eqn:Hcall; [done|].
  destruct (text response) as [t|] eqn:Ht; [|done]. intros [= <- <-].
  by exists img, response, t.
Qed.

Lemma generate_3d_model_inv X p fmt w r w' :
  generate_3d_model X p fmt w = (inr r, w') ->
  exists img,
    (Image_open X p w).1 = inr img /\
    model_id r = uuid4 X (uuid_count w) /\
    uuid_count w' = S (uuid_count w) /\
    model_calls w' =
      (model_calls w
       ++ [TrellisRun img 1 (select_formats fmt) 12 (75 # 10) 12 3])%list.
Proof.
  intros H.
  destruct (generate_3d_model_files X p fmt w r w' H) as (_ & Hid & _ & Hn & _).
  revert H. rewrite generate_3d_model_run.
  destruct (Image_open X p w).1 as [e|img]; [done|]. cbn zeta.
  destruct (trellis_pipeline w); [|done].
  destruct (pipeline_run _ _ _ _) as [e|outputs]; [done|].
  pose proof same_calls_frame as HF.
  pose proof (preserves_save_gaussian _ _ X outputs (select_formats fmt)
                (uuid4 X (uuid_count w)) ∅ (after_run X img fmt w)) as Hg.
  destruct (save_gaussian _ _ _ _ _ _) as [[e|rf] w3]; [done|].
  pose proof (preserves_save_mesh _ _ X outputs (select_formats fmt)
                (uuid4 X (uuid_count w)) rf w3) as Hm.
  destruct (save_mesh _ _ _ _ _ _) as [[e|rf'] w4]; [done|].
  intros [= _ <-]. exists img. cbn [snd] in *.
  split; [done|]. split; [done|]. split; [done|].
  by rewrite Hm, Hg.
Qed.

Lemma Image_open_file X p w t c :
  fs w !! p = Some (RegularFile t c) ->
  (Image_open X p w).1 = image_decode X c.
Proof. unfold Image_open. by intros ->. Qed.

(** A successful run of the pipeline of /generate-toy, step by step. *)
Lemma toy_pipeline_trace X p1 p2 pi sg prompt fmt w res w' :
  p1 <> p2 ->
  toy_pipeline X p1 p2 pi sg prompt fmt w = (inr res, w') ->
  exists cp cs img_p img_s resp_p resp_s t_p t_s generated png img_t r,
    let n := length (model_calls w) in
    let pd := replace_newlines (strip t_p) in
    let sd := replace_newlines (strip t_s) in
    read pi = inr cp /\ read sg = inr cs /\
    image_decode X cp = inr img_p /\
    image_decode X cs = inr img_s /\
    generate_content X n description_model person_prompt img_p None
      = inr resp_p /\
    text resp_p = Some t_p /\
    generate_content X (S n) description_model style_prompt img_s None
      = inr resp_s /\
    text resp_s = Some t_s /\
    image_encode X generated = inr png /\
    image_decode X png = inr img_t /\
    res = ToyResponse true "Toy generation completed successfully" pd sd
            (toy_image_path (uuid4 X (uuid_count w))) r /\
    model_id r = uuid4 X (S (uuid_count w)) /\
    uuid_count w' = S (S (uuid_count w)) /\
    model_calls w' =
      (model_calls w ++
       [ GenerateContent description_model person_prompt img_p None;
         GenerateContent description_model style_prompt img_s None;
         GenerateContent image_model (final_prompt prompt pd sd) img_p
           (Some ["TEXT"; "IMAGE"]);
         TrellisRun img_t 1 (select_formats fmt) 12 (75 # 10) 12 3 ])%list.
Proof.
  unfold toy_pipeline. intros Hne H.
  apply bind_inr_inv in H as ([] & s1 & H1 & H).
  apply bind_inr_inv in H as ([] & s2 & H2 & H).
  apply bind_inr_inv in H as ([] & s3 & H3 & H).
  apply bind_inr_inv in H as (pd & s4 & H4 & H).
  apply bind_inr_inv in H as ([] & s5 & H5 & H).
  apply bind_inr_inv in H as (sd & s6 & H6 & H).
  apply bind_inr_inv in H as ([] & s7 & H7 & H).
  apply bind_inr_inv in H as (path & s8 & H8 & H).
  apply bind_inr_inv in H as ([] & s9 & H9 & H).
  apply bind_inr_inv in H as (r & s10 & H10 & H).
  injection H as <- <-.
  apply save_upload_inv in H1 as (cp & Hcp & ->).
  apply save_upload_inv in H2 as (cs & Hcs & ->).
  injection H3 as <-.
  apply analyze_person_image_inv in H4
    as (img_p & resp_p & t_p & Hp & Hcall_p & Ht_p & -> & ->).
  injection H5 as <-.
  apply analyze_toy_style_inv in H6
    as (img_s & resp_s & t_s & Hs & Hcall_s & Ht_s & -> & ->).
  injection H7 as <-.
  apply generate_toy_image_inv in H8
    as (img_p' & response & parts & blob & generated & png & Hp' & _ & _ &
        _ & _ & _ & Henc & -> & ->).
  injection H9 as <-.
  apply generate_3d_model_inv in H10 as (img_t & Ht & Hid & Hn & Hcalls).
  erewrite Image_open_file in Hp
    by (cbn; rewrite lookup_insert_ne, lookup_insert_eq by done; done).
  erewrite Image_open_file in Hs by (cbn; by rewrite lookup_insert_eq).
  erewrite Image_open_file in Hp'
    by (cbn; rewrite lookup_insert_ne, lookup_insert_eq by done; done).
  erewrite Image_open_file in Ht by (cbn; by rewrite lookup_insert_eq).
  assert (img_p' = img_p) as -> by congruence.
  exists cp, cs, img_p, img_s, resp_p, resp_s, t_p, t_s, generated, png, img_t, r.
  cbn [model_calls log_call log_print set_fs uuid_count set_uuid_count
       after_image_call] in Hid, Hn, Hcalls, Hcall_p, Hcall_s |- *.
  rewrite length_app, Nat.add_comm in Hcall_s.
  repeat (split; [done|]).
  rewrite Hcalls, <- !app_assoc. reflexivity.
Qed.

Lemma person_style_distinct a b :
  joinpath TEMP_DIR ("person_" +:+ a +:+ ".png")
  <> joinpath TEMP_DIR ("style_" +:+ b +:+ ".png").
Proof. unfold joinpath, TEMP_DIR. intros H. discriminate H. Qed.

Lemma remove_file_model_calls p w :
  model_calls (remove_file p w) = model_calls w.
Proof. unfold remove_file. by destruct (is_file (fs w) p). Qed.



(** ** Sweeps in succession *)

Lemma expired_mono t1 t2 p e :
  (t1 <= t2)%Q -> expired t1 p e = true -> expired t2 p e = true.
Proof.
  unfold expired. intros Hle.
  destruct (in_directory OUTPUT_DIR p || in_directory TEMP_DIR p); [|done].
  destruct e as [t c|t]; [|done]. cbn [andb].
  rewrite !Qgtb_true. lra.
Qed.

(** Two sweeps leave what one sweep at the later time leaves. *)
Lemma swept_swept t1 t2 (f : gmap string entry) :
  swept t2 (swept t1 f) = swept (if Qle_bool t1 t2 then t2 else t1) f.
Proof.
  apply map_eq. intros q. rewrite !swept_lookup.
  destruct (f !! q) as [e|]; [|done].
  destruct (Qle_bool t1 t2) eqn:Hle.
  - apply Qle_bool_iff in Hle.
    destruct (expired t1 q e) eqn:E1; [|done].
    by rewrite (expired_mono t1 t2 q e Hle E1).
  - assert (t2 <= t1)%Q as Hge.
    { destruct (Qlt_le_dec t2 t1) as [H|H]; [lra|].
      apply Qle_bool_iff in H. congruence. }
    destruct (expired t1 q e) eqn:E1; [done|].
    destruct (expired t2 q e) eqn:E2; [|done].
    by rewrite (expired_mono t2 t1 q e Hge E2) in E1.
Qed.

Lemma swept_size now (f : gmap string entry) :
  (size (swept now f) <= size f)%nat.
Proof.
  apply map_subseteq_size, map_filter_subseteq.
Qed.

(** X11. Two sweeps in succession, nothing written in between, leave
    the file system that a single sweep at the later of the two times
    leaves, and the two counts add up to the count of that single sweep.
    So a second sweep deletes something only if the clock has advanced,
    and a sweep whose clock reads an earlier time deletes nothing. *)
Theorem sweeps_compose (X : Externals) (w : World) (t1 t2 : Q) :
  let later := if Qle_bool t1 t2 then t2 else t1 in
  let first := cleanup_files X (set_clock t1 w) in
  let second := cleanup_files X (set_clock t2 first.2) in
  let once := cleanup_files X (set_clock later w) in
  fs second.2 = fs once.2 /\
  exists n1 n2,
    first.1 = inr (CleanupResponse ("Cleaned up " +:+ pretty n1 +:+ " files")) /\
    second.1 = inr (CleanupResponse ("Cleaned up " +:+ pretty n2 +:+ " files")) /\
    once.1 =
      inr (CleanupResponse ("Cleaned up " +:+ pretty (n1 + n2)%nat +:+ " files")) /\
    (Qle_bool t1 t2 = false -> n2 = 0%nat).
Proof.
  cbn zeta. rewrite !cleanup_files_run.
  cbn [fst snd fs set_fs clock set_clock].
  pose proof (swept_size t1 (fs w)) as H1.
  pose proof (swept_size t2 (swept t1 (fs w))) as H2.
  rewrite swept_swept in *. split; [done|].
  set (later := if Qle_bool t1 t2 then t2 else t1) in *.
  exists (size (fs w) - size (swept t1 (fs w)))%nat,
         (size (swept t1 (fs w)) - size (swept later (fs w)))%nat.
  split; [reflexivity|]. split; [reflexivity|]. split.
  - replace (size (fs w) - size (swept later (fs w)))%nat
      with (size (fs w) - size (swept t1 (fs w))
            + (size (swept t1 (fs w)) - size (swept later (fs w))))%nat
      by lia.
    reflexivity.
  - intros Hle. subst later. rewrite Hle. lia.
Qed.

(** ** The life time of the files of a reconstruction *)

Lemma strip_prefix_append p s : strip_prefix p (p +:+ s) = Some s.
Proof.
  induction p as [|a p IH]; [done|].
  change (strip_prefix (String a p) (String a (p +:+ s)) = Some s).
  cbn [strip_prefix]. by rewrite Ascii.eqb_refl.
Qed.

Lemma has_separator_append a b :
  has_separator (a +:+ b) = has_separator a || has_separator b.
Proof.
  induction a as [|x a IH]; [done|].
  change (has_separator (String x (a +:+ b))
          = has_separator (String x a) || has_separator b).
  cbn [has_separator]. by rewrite IH, orb_assoc.
Qed.

(** [d / (prefix ++ uid ++ suffix)] is a direct child of [d] when no part
    of the name has a separator and the prefix is not empty. *)
Lemma in_directory_joinpath d x pre uid suf :
  has_separator (String x pre) = false ->
  has_separator uid = false ->
  has_separator suf = false ->
  in_directory d (joinpath d (String x pre +:+ uid +:+ suf)) = true.
Proof.
  intros Hpre Huid Hsuf. unfold in_directory, joinpath.
  rewrite <- append_assoc, strip_prefix_append.
  change (String x pre +:+ uid +:+ suf) with (String x (pre +:+ uid +:+ suf)).
  cbn [negb]. f_equal.
  change (String x (pre +:+ uid +:+ suf)) with (String x pre +:+ uid +:+ suf).
  by rewrite !has_separator_append, Hpre, Huid, Hsuf.
Qed.

(** The paths a reconstruction returns. *)
Lemma generate_3d_model_paths X p fmt w r w' k v :
  generate_3d_model X p fmt w = (inr r, w') ->
  files r !! k = Some v ->
  v = ply_path (model_id r) \/ v = video_path (model_id r) \/
  v = glb_path (model_id r).
Proof.
  intros H Hk.
  apply generate_3d_model_files in H as (_ & _ & _ & _ & rf & Hg & Hm).
  assert (rf !! k = Some v -> v = ply_path (model_id r) \/
                              v = video_path (model_id r)) as Hrf.
  { destruct Hg as [->|[_ ->]]; [by rewrite lookup_empty|].
    intros Hv.
    apply lookup_insert_Some in Hv as [[_ <-]|[_ Hv]]; [by right|].
    apply lookup_insert_Some in Hv as [[_ <-]|[_ Hv]]; [by left|].
    by rewrite lookup_empty in Hv. }
  destruct Hm as [Hm|[_ Hm]]; rewrite Hm in Hk.
  - destruct (Hrf Hk); [by left | right; by left].
  - apply lookup_insert_Some in Hk as [[_ <-]|[_ Hk]]; [right; by right|].
    destruct (Hrf Hk); [by left | right; by left].
Qed.

(** X12. Each file of a successful reconstruction is a regular file
    that the sweeper reaches.  With [m] its modification time: a sweep
    whose clock reads at most [m + 3600] leaves it exactly as it is; a
    sweep whose clock reads more than [m + 3600] deletes it, provided the
    uuid of the model has no path separator, and /download then answers
    404 for it. *)
Theorem reconstruction_files_lifetime
    (X : Externals) (p fmt : string) (w w' : World) (r : ModelResult)
    (k v : string) :
  generate_3d_model X p fmt w = (inr r, w') ->
  files r !! k = Some v ->
  exists m c,
    fs w' !! v = Some (RegularFile m c) /\
    forall t' : Q,
      let swept_world := (cleanup_files X (set_clock t' w')).2 in
      ((t' - m <= 3600)%Q -> fs swept_world !! v = fs w' !! v) /\
      ((3600 < t' - m)%Q ->
       has_separator (model_id r) = false ->
       fs swept_world !! v = None /\
       download_file v swept_world =
         (inl (HTTPException 404 "File not found"), swept_world)).
Proof.
  intros H Hk.
  pose proof (generate_3d_model_paths X p fmt w r w' k v H Hk) as Hv.
  apply generate_3d_model_written in H as [Hc H].
  destruct (H k v Hk) as [c Hfile].
  exists (clock w'), c. split; [exact Hfile|]. intros t'. cbn zeta.
  rewrite cleanup_files_run. cbn [snd fs set_fs clock set_clock].
  rewrite swept_lookup, Hfile. unfold expired. split.
  - intros Hyoung. apply Qgtb_false in Hyoung. rewrite Hyoung.
    by rewrite andb_false_r.
  - intros Hold Hsep. apply Qgtb_true in Hold. rewrite Hold.
    assert (in_directory OUTPUT_DIR v = true) as Hin.
    { destruct Hv as [->|[->| ->]]; by apply in_directory_joinpath. }
    rewrite Hin. cbn [orb andb]. split; [done|].
    unfold download_file, bind, exists_, path_exists.
    cbn [fs set_fs]. rewrite swept_lookup. cbn [clock set_clock].
    rewrite Hfile. unfold expired. by rewrite Hold, Hin.
Qed.

Lemma reconstruction_files_lifetime_witness :
  let w' := (generate_3d_model X0 "outputs/toy.png" "gaussian" world0).2 in
  (fs (cleanup_files X0 (set_clock 3600 w')).2 !! "outputs/model_uuid-0.ply"
   = fs w' !! "outputs/model_uuid-0.ply") /\
  (fs (cleanup_files X0 (set_clock 3601 w')).2 !! "outputs/model_uuid-0.ply"
   = None).
Proof.
  intros w'.
  assert (generate_3d_model X0 "outputs/toy.png" "gaussian" world0 =
            (inr {| success := true; model_id := "uuid-0";
                    files := {[ "ply" := "outputs/model_uuid-0.ply";
                                "preview_video" := "outputs/preview_uuid-0.mp4" ]};
                    formats := ["gaussian"] |}, w')) as Hrun
    by (vm_compute; reflexivity).
  destruct (reconstruction_files_lifetime X0 "outputs/toy.png" "gaussian"
              world0 w' _ "ply" "outputs/model_uuid-0.ply" Hrun)
    as (m & c & Hfile & Hsweep).
  { vm_compute. reflexivity. }
  assert (m = 0%Q) as -> by (vm_compute in Hfile; by injection Hfile as <- _).
  split.
  - apply (Hsweep 3600%Q). vm_compute. discriminate.
  - apply (Hsweep 3601%Q); vm_compute; reflexivity.
Defined.

(** ** The footprint of a request *)

Section FrameFootprint.

Context (R : World -> World -> Prop) (writable : string -> Prop)
  (callable : ModelCall -> Prop) `{!Frame R writable callable}.

Hypothesis writable_outputs : forall name, writable (joinpath OUTPUT_DIR name).

Ltac prim :=
  first
    [ apply (preserves_print R writable callable)
    | apply (preserves_uuid4_str R writable callable)
    | apply (preserves_Image_open R writable callable)
    | apply (preserves_write_file R writable callable);
        apply writable_outputs
    | apply (preserves_Image_save R writable callable);
        apply writable_outputs ].

Lemma footprint_save_first_image X parts :
  preserves R (save_first_image X parts).
Proof.
  induction parts as [|part rest IH]; cbn [save_first_image].
  - preserves_step.
  - destruct (inline_data part); [|exact IH].
    repeat first [preserves_step | prim].
Qed.

Lemma footprint_save_gaussian X outputs formats uid rf :
  preserves R (save_gaussian X outputs formats uid rf).
Proof. unfold save_gaussian. repeat first [preserves_step | prim]. Qed.

Lemma footprint_export_glb X outputs uid rf :
  preserves R (export_glb X outputs uid rf).
Proof. unfold export_glb. repeat first [preserves_step | prim]. Qed.

Lemma footprint_save_mesh X outputs formats uid rf :
  preserves R (save_mesh X outputs formats uid rf).
Proof.
  unfold save_mesh.
  repeat first [preserves_step | prim | apply footprint_export_glb].
Qed.

Section Genai.

Hypothesis callable_genai : forall c, is_genai_call c -> callable c.

Ltac call :=
  apply (preserves_genai_generate_content R writable callable);
  apply callable_genai; by eexists _, _, _, _.

Lemma footprint_analyze_person_image X p :
  preserves R (analyze_person_image X p).
Proof.
  unfold analyze_person_image. repeat first [preserves_step | prim | call].
Qed.

Lemma footprint_analyze_toy_style X p :
  preserves R (analyze_toy_style X p).
Proof.
  unfold analyze_toy_style. repeat first [preserves_step | prim | call].
Qed.

Lemma footprint_generate_toy_image X u c s p :
  preserves R (generate_toy_image X u c s p).
Proof.
  unfold generate_toy_image.
  repeat first [preserves_step | prim | call | apply footprint_save_first_image].
Qed.

Lemma footprint_image_only_pipeline X p1 p2 pi sg prompt :
  writable p1 -> writable p2 ->
  preserves R (image_only_pipeline X p1 p2 pi sg prompt).
Proof.
  intros H1 H2. unfold image_only_pipeline.
  repeat first
    [ preserves_step | prim
    | by apply (preserves_save_upload R writable callable)
    | apply footprint_analyze_person_image
    | apply footprint_analyze_toy_style
    | apply footprint_generate_toy_image ].
Qed.

End Genai.

Section Trellis.

Hypothesis callable_trellis : forall c, is_trellis_call c -> callable c.

Lemma footprint_generate_3d_model X p fmt :
  preserves R (generate_3d_model X p fmt).
Proof.
  unfold generate_3d_model.
  repeat first
    [ preserves_step | prim
    | apply (preserves_trellis_run R writable callable);
        apply callable_trellis; by eexists _, _
    | apply footprint_save_gaussian
    | apply footprint_save_mesh ].
Qed.

Lemma footprint_image_to_3d_pipeline X p i fmt :
  writable p -> preserves R (image_to_3d_pipeline X p i fmt).
Proof.
  intros Hp. unfold image_to_3d_pipeline.
  repeat first
    [ preserves_step | prim
    | by apply (preserves_save_upload R writable callable)
    | apply footprint_generate_3d_model ].
Qed.

End Trellis.

Lemma footprint_toy_pipeline X p1 p2 pi sg prompt fmt :
  (forall c, is_genai_call c -> callable c) ->
  (forall c, is_trellis_call c -> callable c) ->
  writable p1 -> writable p2 ->
  preserves R (toy_pipeline X p1 p2 pi sg prompt fmt).
Proof.
  intros Hg Ht H1 H2. unfold toy_pipeline.
  repeat first
    [ preserves_step | prim
    | by apply (preserves_save_upload R writable callable)
    | by apply footprint_analyze_person_image
    | by apply footprint_analyze_toy_style
    | by apply footprint_generate_toy_image
    | by apply footprint_generate_3d_model ].
Qed.

End FrameFootprint.

(** The handlers of the upload endpoints keep a frame that allows the
    writes to the output directory and to their scratch paths, and that is
    closed under the removal of a file at such a path. *)
Section HandlerFootprint.

Context (R : World -> World -> Prop) (writable : string -> Prop)
  (callable : ModelCall -> Prop) `{!Frame R writable callable}.

Hypothesis writable_outputs : forall name, writable (joinpath OUTPUT_DIR name).
Hypothesis R_remove : forall p w, writable p -> R w (remove_file p w).

Lemma R_two_draws w : R w (set_uuid_count (S (S (uuid_count w))) w).
Proof.
  eapply frame_trans; [apply frame_uuid|].
  exact (frame_uuid (set_uuid_count (S (uuid_count w)) w)).
Qed.

Lemma footprint_generate_toy_endpoint X pi sg prompt fmt w :
  (forall c, is_genai_call c -> callable c) ->
  (forall c, is_trellis_call c -> callable c) ->
  (startswith_image pi = inr true -> startswith_image sg = inr true ->
   writable (person_path X w) /\ writable (style_path X w)) ->
  R w (generate_toy_endpoint X pi sg prompt fmt w).2.
Proof.
  intros Hg Ht Hw. rewrite generate_toy_endpoint_run.
  destruct (startswith_image pi) as [e|[|]]; try apply frame_refl.
  destruct (startswith_image sg) as [e|[|]]; try apply frame_refl.
  destruct Hw as [H1 H2]; [done..|]. cbn zeta. cbn [snd].
  pose proof (footprint_toy_pipeline R writable callable writable_outputs X
                (person_path X w) (style_path X w) pi sg prompt fmt
                Hg Ht H1 H2 (set_uuid_count (S (S (uuid_count w))) w)) as Hp.
  eapply frame_trans; [apply R_two_draws|].
  eapply frame_trans; [exact Hp|].
  eapply frame_trans; [apply (R_remove _ _ H1) | apply (R_remove _ _ H2)].
Qed.

Lemma footprint_generate_image_only X pi sg prompt w :
  (forall c, is_genai_call c -> callable c) ->
  writable (person_path X w) -> writable (style_path X w) ->
  R w (generate_image_only X pi sg prompt w).2.
Proof.
  intros Hg H1 H2. rewrite generate_image_only_run. cbn zeta. cbn [snd].
  pose proof (footprint_image_only_pipeline R writable callable
                writable_outputs Hg X (person_path X w) (style_path X w)
                pi sg prompt H1 H2
                (set_uuid_count (S (S (uuid_count w))) w)) as Hp.
  eapply frame_trans; [apply R_two_draws|].
  eapply frame_trans; [exact Hp|].
  eapply frame_trans; [apply (R_remove _ _ H1) | apply (R_remove _ _ H2)].
Qed.

Lemma footprint_image_to_3d X i fmt w :
  (forall c, is_trellis_call c -> callable c) ->
  writable (input_path X w) ->
  R w (image_to_3d X i fmt w).2.
Proof.
  intros Ht Hp. rewrite image_to_3d_run. cbn zeta. cbn [snd].
  pose proof (footprint_image_to_3d_pipeline R writable callable
                writable_outputs Ht X (input_path X w) i fmt Hp
                (set_uuid_count (S (uuid_count w)) w)) as Hrun.
  eapply frame_trans; [apply frame_uuid|].
  eapply frame_trans; [exact Hrun|].
  apply (R_remove _ _ Hp).
Qed.

End HandlerFootprint.

Lemma same_service_frame : Frame same_service any any.
Proof.
  split; unfold same_service; try (intros; cbn; done).
  intros w1 w2 w3 (? & ? & ?) (? & ? & ?). repeat split; congruence.
Qed.

Lemma only_writes_remove_file (P : string -> Prop) p w :
  P p -> only_writes P w (remove_file p w).
Proof.
  intros Hp q Hq. apply remove_file_other. by intros <-.
Qed.

Lemma only_calls_remove_file P p w : only_calls P w (remove_file p w).
Proof.
  exists []. by rewrite remove_file_model_calls, app_nil_r.
Qed.

Lemma same_service_remove_file p w : same_service w (remove_file p w).
Proof. unfold remove_file, same_service. by destruct (is_file (fs w) p). Qed.

(** X13. What a request can touch.  Every request other than the sweep
    leaves each path untouched that is neither in [outputs/] nor one of
    its own scratch paths; the sweep leaves each path untouched that is
    not directly in the output or the scratch directory.  /generate-image-only
    calls only the hosted model, /image-to-3d only the pipeline, and the
    requests that take no upload call no model.  No request changes the
    two singletons or the clock. *)
Theorem request_footprint (X : Externals) (r : Request) (w : World) :
  only_writes (may_change X r w) w (handle X r w).2 /\
  only_calls (may_call r) w (handle X r w).2 /\
  same_service w (handle X r w).2.
Proof.
  pose proof (only_writes_frame (may_change X r w)) as HW.
  pose proof (only_calls_frame (may_call r)) as HC.
  pose proof same_service_frame as HS.
  assert (forall u : World, only_calls (may_call r) u u) as Hcalls_refl
    by (intros u; apply frame_refl).
  destruct r as [| |pi sg prompt fmt|pi sg prompt|i fmt|f|]; cbn [handle].
  - (* GET / *) repeat split; intros; done || apply Hcalls_refl.
  - (* GET /health *) repeat split; intros; done || apply Hcalls_refl.
  - (* POST /generate-toy *)
    split; [|split].
    + apply (footprint_generate_toy_endpoint _ (may_change X _ w) any);
        try done.
      * intros name. right. by exists name.
      * intros p u Hp. by apply only_writes_remove_file.
      * intros H1 H2. cbn [may_change scratch_paths]. rewrite H1, H2.
        split; left; [by left | right; by left].
    + apply (footprint_generate_toy_endpoint _ any (may_call _)); try done.
      * intros p u _. apply only_calls_remove_file.
      * intros c Hc. by left.
      * intros c Hc. by right.
    + apply (footprint_generate_toy_endpoint _ any any); try done.
      intros p u _. apply same_service_remove_file.
  - (* POST /generate-image-only *)
    split; [|split].
    + apply (footprint_generate_image_only _ (may_change X _ w) any);
        try done.
      * intros name. right. by exists name.
      * intros p u Hp. by apply only_writes_remove_file.
      * left. by left.
      * left. right. by left.
    + apply (footprint_generate_image_only _ any (may_call _)); try done.
      intros p u _. apply only_calls_remove_file.
    + apply (footprint_generate_image_only _ any any); try done.
      intros p u _. apply same_service_remove_file.
  - (* POST /image-to-3d *)
    split; [|split].
    + apply (footprint_image_to_3d _ (may_change X _ w) any); try done.
      * intros name. right. by exists name.
      * intros p u Hp. by apply only_writes_remove_file.
      * left. by left.
    + apply (footprint_image_to_3d _ any (may_call _)); try done.
      intros p u _. apply only_calls_remove_file.
    + apply (footprint_image_to_3d _ any any); try done.
      intros p u _. apply same_service_remove_file.
  - (* GET /download *)
    unfold download_file, bind, exists_.
    destruct (negb (path_exists (fs w) f)); cbn [snd];
      repeat split; intros; done || apply Hcalls_refl.
  - (* DELETE /cleanup *)
    rewrite cleanup_files_run. cbn [snd]. split; [|split].
    + intros q Hq. cbn [fs set_fs may_change] in *.
      rewrite swept_lookup. destruct (fs w !! q) as [e|]; [|done].
      unfold expired.
      destruct (in_directory OUTPUT_DIR q) eqn:H1; [destruct Hq; by left|].
      destruct (in_directory TEMP_DIR q) eqn:H2; [destruct Hq; by right|].
      done.
    + exists []. by rewrite app_nil_r.
    + done.
Qed.

(** ** The two shorter upload endpoints *)



(** A successful run of the pipeline of /generate-image-only. *)
Lemma image_only_pipeline_trace X p1 p2 pi sg prompt w res w' :
  p1 <> p2 ->
  image_only_pipeline X p1 p2 pi sg prompt w = (inr res, w') ->
  exists cp cs img_p img_s resp_p resp_s t_p t_s,
    let n := length (model_calls w) in
    let pd := replace_newlines (strip t_p) in
    let sd := replace_newlines (strip t_s) in
    read pi = inr cp /\ read sg = inr cs /\
    image_decode X cp = inr img_p /\
    image_decode X cs = inr img_s /\
    generate_content X n description_model person_prompt img_p None
      = inr resp_p /\
    text resp_p = Some t_p /\
    generate_content X (S n) description_model style_prompt img_s None
      = inr resp_s /\
    text resp_s = Some t_s /\
    res = ImageOnlyResponse true (toy_image_path (uuid4 X (uuid_count w)))
            pd sd /\
    uuid_count w' = S (uuid_count w) /\
    model_calls w' =
      (model_calls w ++
       [ GenerateContent description_model person_prompt img_p None;
         GenerateContent description_model style_prompt img_s None;
         GenerateContent image_model (final_prompt prompt pd sd) img_p
           (Some ["TEXT"; "IMAGE"]) ])%list.
Proof.
  unfold image_only_pipeline. intros Hne H.
  apply bind_inr_inv in H as ([] & s1 & H1 & H).
  apply bind_inr_inv in H as ([] & s2 & H2 & H).
  apply bind_inr_inv in H as (pd & s3 & H3 & H).
  apply bind_inr_inv in H as (sd & s4 & H4 & H).
  apply bind_inr_inv in H as (path & s5 & H5 & H).
  injection H as <- <-.
  apply save_upload_inv in H1 as (cp & Hcp & ->).
  apply save_upload_inv in H2 as (cs & Hcs & ->).
  apply analyze_person_image_inv in H3
    as (img_p & resp_p & t_p & Hp & Hcall_p & Ht_p & -> & ->).
  apply analyze_toy_style_inv in H4
    as (img_s & resp_s & t_s & Hs & Hcall_s & Ht_s & -> & ->).
  apply generate_toy_image_inv in H5
    as (img_p' & response & parts & blob & generated & png & Hp' & _ & _ &
        _ & _ & _ & _ & -> & ->).
  erewrite Image_open_file in Hp
    by (cbn; rewrite lookup_insert_ne, lookup_insert_eq by done; done).
  erewrite Image_open_file in Hs by (cbn; by rewrite lookup_insert_eq).
  erewrite Image_open_file in Hp'
    by (cbn; rewrite lookup_insert_ne, lookup_insert_eq by done; done).
  assert (img_p' = img_p) as -> by congruence.
  exists cp, cs, img_p, img_s, resp_p, resp_s, t_p, t_s.
  cbn [model_calls log_call log_print set_fs uuid_count set_uuid_count
       after_image_call] in Hcall_p, Hcall_s |- *.
  rewrite length_app, Nat.add_comm in Hcall_s.
  repeat (split; [done|]).
  rewrite <- !app_assoc. reflexivity.
Qed.

(** X15. A successful /generate-image-only request makes exactly three
    model calls, all to the hosted model and none to the pipeline: the two
    descriptions, of the decoded person upload and of the decoded style
    upload, and the image generation, whose prompt is composed from the
    user prompt and the two descriptions just returned.  It draws three
    uuids, the last of which names the image in the response. *)
Theorem image_only_request_makes_three_calls
    (X : Externals) (person_image style_guide : UploadFile) (prompt : string)
    (w w' : World) (res : Response) :
  generate_image_only X person_image style_guide prompt w = (inr res, w') ->
  exists cp cs img_p img_s resp_p resp_s t_p t_s,
    let n := length (model_calls w) in
    let pd := replace_newlines (strip t_p) in
    let sd := replace_newlines (strip t_s) in
    read person_image = inr cp /\ read style_guide = inr cs /\
    image_decode X cp = inr img_p /\
    image_decode X cs = inr img_s /\
    generate_content X n description_model person_prompt img_p None
      = inr resp_p /\
    text resp_p = Some t_p /\
    generate_content X (S n) description_model style_prompt img_s None
      = inr resp_s /\
    text resp_s = Some t_s /\
    res = ImageOnlyResponse true
            (toy_image_path (uuid4 X (2 + uuid_count w))) pd sd /\
    uuid_count w' = (3 + uuid_count w)%nat /\
    model_calls w' =
      (model_calls w ++
       [ GenerateContent description_model person_prompt img_p None;
         GenerateContent description_model style_prompt img_s None;
         GenerateContent image_model (final_prompt prompt pd sd) img_p
           (Some ["TEXT"; "IMAGE"]) ])%list.
Proof.
  rewrite generate_image_only_run. cbn zeta.
  destruct (image_only_pipeline _ _ _ _ _ _ _) as [[e|res0] w0] eqn:E; [done|].
  cbn [fst snd]. intros [= -> <-].
  apply image_only_pipeline_trace in E; [|apply person_style_distinct].
  destruct E as (cp & cs & img_p & img_s & resp_p & resp_s & t_p & t_s & E).
  exists cp, cs, img_p, img_s, resp_p, resp_s, t_p, t_s.
  rewrite !remove_file_uuid_count, !remove_file_model_calls.
  exact E.
Qed.

Lemma image_only_request_witness :
  uuid_count
    (generate_image_only X0 (example_upload "image/png")
       (example_upload "image/png") "a toy" world0).2 = 3%nat.
Proof.
  destruct (image_only_request_makes_three_calls X0
              (example_upload "image/png") (example_upload "image/png")
              "a toy" world0
              (generate_image_only X0 (example_upload "image/png")
                 (example_upload "image/png") "a toy" world0).2
              (ImageOnlyResponse true "outputs/generated_toy_uuid-2.png"
                 "short hair, glasses" "short hair, glasses"))
    as (cp & cs & img_p & img_s & resp_p & resp_s & t_p & t_s &
        _ & _ & _ & _ & _ & _ & _ & _ & _ & H & _).
  - vm_compute. reflexivity.
  - exact H.
Defined.

(** ** An upload that cannot be read *)

Lemma remove_file_written_empty p d w :
  remove_file p (set_fs (<[p := RegularFile (clock w) d]> (fs w)) w)
  = set_fs (delete p (fs w)) w.
Proof.
  unfold remove_file, is_file. cbn [fs set_fs].
  by rewrite lookup_insert_eq, set_fs_set_fs, delete_insert_eq.
Qed.

(** X16. When reading the first upload raises [e], no model is called
    and the empty scratch file that [open] created is removed again.
    /image-to-3d and /generate-image-only have no [except] clause and let
    [e] escape as it is; /generate-toy turns it into a status 500 with
    detail ["Generation failed: "] and [str(e)], unless [e] is an
    [HTTPException], which is raised again unchanged. *)
Theorem upload_read_failure
    (X : Externals) (upload style_guide : UploadFile)
    (prompt output_format : string) (w : World) (e : Exn) :
  read upload = inl e ->
  (forall t, fs w !! input_path X w <> Some (Directory t)) ->
  (forall t, fs w !! person_path X w <> Some (Directory t)) ->
  let cleaned :=
    remove_file (style_path X w)
      (set_fs (delete (person_path X w) (fs w))
         (set_uuid_count (S (S (uuid_count w))) w)) in
  image_to_3d X upload output_format w =
    (inl e,
     set_fs (delete (input_path X w) (fs w))
       (set_uuid_count (S (uuid_count w)) w)) /\
  generate_image_only X upload style_guide prompt w = (inl e, cleaned) /\
  (startswith_image upload = inr true ->
   startswith_image style_guide = inr true ->
   generate_toy_endpoint X upload style_guide prompt output_format w =
     (generation_outcome X (inl e), cleaned)) /\
  model_calls cleaned = model_calls w.
Proof.
  intros Hread Hin Hperson. cbn zeta.
  assert (forall p (u : World),
            (forall t, fs u !! p <> Some (Directory t)) ->
            save_upload p upload u =
              (inl e, set_fs (<[p := RegularFile (clock u) []]> (fs u)) u))
    as Hsave.
  { intros p u Hnd. rewrite save_upload_run, Hread.
    destruct (fs u !! p) as [[t c|t]|] eqn:E; [done| |done].
    by destruct (Hnd t). }
  split; [|split; [|split]].
  - rewrite image_to_3d_run. unfold image_to_3d_pipeline, bind.
    rewrite Hsave by exact Hin. cbn zeta. cbn [fst snd].
    by rewrite remove_file_written_empty.
  - rewrite generate_image_only_run. unfold image_only_pipeline, bind.
    rewrite Hsave by exact Hperson. cbn zeta. cbn [fst snd].
    by rewrite remove_file_written_empty.
  - intros H1 H2. rewrite generate_toy_endpoint_run, H1, H2.
    unfold toy_pipeline, bind.
    rewrite Hsave by exact Hperson. cbn zeta. cbn [fst snd].
    by rewrite remove_file_written_empty.
  - by rewrite remove_file_model_calls.
Qed.

Lemma upload_read_failure_witness :
  image_to_3d X0 unreadable_upload "mesh" world0 =
    (inl (LibraryError "client disconnected"),
     set_fs (delete (input_path X0 world0) (fs world0))
       (set_uuid_count (S (uuid_count world0)) world0)).
Proof.
  refine (proj1 (upload_read_failure X0 unreadable_upload
                   (example_upload "image/png") "a toy" "mesh" world0
                   (LibraryError "client disconnected") _ _ _)).
  - reflexivity.
  - intros t. vm_compute. discriminate.
  - intros t. vm_compute. discriminate.
Defined.
